(** * GammaRay UI state manager (src/ui/uistatemanager.cpp)

    A shallow embedding of [UIStateManager]: the object that saves and
    restores the sizes of the splitters and header views below a root
    widget, and the window geometry, through a [QSettings] store.

    Conventions of the embedding:
    - a C++ [int] is a [Z] in the 32-bit two's complement range; every
      arithmetic operation of the source is written with its wrap-around
      ([int_add], [int_sub], [int_mul], [int_div]);
    - [QString] is [string], [QByteArray] is [list byte];
    - the host toolkit (parsing of numbers, serialisation of widget states,
      the screen, the nesting of item views) is the class [Qt]: the manager
      is modelled from its source, the toolkit is a parameter;
    - the member functions run in a state-and-failure monad [M] over the
      manager, its widget tree and a trace of what it did to the outside
      (warnings and store accesses); a failed [Q_ASSERT] aborts, as in a
      build with assertions enabled. *)

From stdpp Require Import gmap strings list.
From Stdlib Require Import ZArith Strings.Byte.

Local Open Scope Z_scope.

(** ** Machine integers *)

Module Int.

Definition min_int : Z := - 2 ^ 31.
Definition max_int : Z := 2 ^ 31 - 1.

Definition wrap (z : Z) : Z := (z + 2 ^ 31) `mod` 2 ^ 32 - 2 ^ 31.

Definition in_range (z : Z) : Prop := min_int <= z <= max_int.

Definition int_add (a b : Z) : Z := wrap (a + b).
Definition int_sub (a b : Z) : Z := wrap (a - b).
Definition int_mul (a b : Z) : Z := wrap (a * b).
(** C++ division truncates toward zero. *)
Definition int_div (a b : Z) : Z := wrap (a `quot` b).

End Int.
Import Int.

(** ** Values *)

Definition QByteArray : Type := list byte.

(** The three kinds of [QVariant] the manager distinguishes in a
    [UISizeVector]: [QVariant::Int] (pixels), [QVariant::String] (percent)
    and every other type. *)
Inductive QVariant : Type :=
| VInt (n : Z)
| VString (s : string)
| VOther.

Definition UISizeVector : Type := list QVariant.

Inductive Orientation : Type := Horizontal | Vertical.

(** [QHeaderView::ResizeMode]. *)
Inductive ResizeMode : Type := Interactive | Stretch | Fixed | ResizeToContents.

(** ** distributeSpace *)

(** First loop of [distributeSpace]: collects the iterators (positions) of
    the entries equal to [-1] and adds up the others. *)
Fixpoint scanSizes (sizes : list Z) (i : nat) (its : list nat) (usedSpace : Z)
  : list nat * Z :=
  match sizes with
  | [] => (its, usedSpace)
  | x :: rest =>
      if x =? -1 then scanSizes rest (S i) (its ++ [i]) usedSpace
      else scanSizes rest (S i) its (int_add usedSpace x)
  end.

(** Second loop: writes [space] through every collected iterator. *)
Fixpoint assignSpace (its : list nat) (space : Z) (sizes : list Z) : list Z :=
  match its with
  | [] => sizes
  | it :: rest => assignSpace rest space (<[it := space]> sizes)
  end.

Definition distributeSpace (sizes : list Z) (size handleSize : Z) : list Z :=
  let '(its, usedSpace) := scanSizes sizes 0 [] 0 in
  match its with
  | [] => sizes
  | _ :: _ =>
      let freeSpace :=
        int_sub (int_sub (int_sub size usedSpace)
                   (int_mul (Z.of_nat (length sizes)) handleSize))
          handleSize in
      let space := int_div freeSpace (Z.of_nat (length its)) in
      assignSpace its space sizes
  end.

(** ** Strings and keys *)

Definition QString_isEmpty (s : string) : bool :=
  match s with
  | EmptyString => true
  | String _ _ => false
  end.

Definition QByteArray_isEmpty (b : QByteArray) : bool :=
  match b with
  | [] => true
  | _ :: _ => false
  end.

(** [QString::fromLatin1("%1Geometry").arg(widget->objectName())] *)
Definition widgetGeometryKey (objectName : string) : string :=
  objectName +:+ "Geometry".

(** [QString::fromLatin1("%1State").arg(widget->objectName())] *)
Definition widgetStateKey (objectName : string) : string :=
  objectName +:+ "State".

(** ** The widget tree, as far as the manager looks at it *)

(** What [QSplitter::saveState]/[restoreState] and [setSizes] act on.
    [sl_sizes] is the list handed to the last [setSizes]. *)
Record SplitterLayout : Type := mkSplitterLayout {
  sl_orientation : Orientation;
  sl_width : Z;
  sl_height : Z;
  sl_handleWidth : Z;
  sl_count : nat;
  sl_sizes : list Z
}.

(** A [QSplitter]: its object name, the dynamic property
    [WIDGET_CUSTOMIZED] (unset reads as [false]) and its layout. *)
Record QSplitter : Type := mkQSplitter {
  sp_objectName : string;
  sp_customized : bool;
  sp_layout : SplitterLayout
}.

Record HeaderSection : Type := mkHeaderSection {
  sec_size : Z;
  sec_resizeMode : ResizeMode;
  sec_sizeHint : Z
}.

(** What [QHeaderView::saveState]/[restoreState] and [resizeSection] act
    on, with the size of the item view found by [headerView]. *)
Record HeaderLayout : Type := mkHeaderLayout {
  hl_orientation : Orientation;
  hl_sections : list HeaderSection;
  hl_viewWidth : Z;
  hl_viewHeight : Z
}.

(** A [QHeaderView]; [hv_view] identifies the [QAbstractItemView] that
    [headerView] returns for it. *)
Record QHeaderView : Type := mkQHeaderView {
  hv_objectName : string;
  hv_customized : bool;
  hv_view : nat;
  hv_layout : HeaderLayout
}.

Record QRect : Type := mkQRect { x1 : Z; y1 : Z; x2 : Z; y2 : Z }.

(** What [QMainWindow::saveGeometry]/[saveState] and their inverses act on. *)
Record WindowLayout : Type := mkWindowLayout {
  win_geometry : QRect;
  win_docks : QByteArray
}.

(** The root widget [m_widget]; [rw_window] is [Some] exactly when
    [qobject_cast<QMainWindow *>(m_widget)] succeeds. *)
Record RootWidget : Type := mkRootWidget {
  rw_objectName : string;
  rw_window : option WindowLayout
}.

(** ** QSettings *)

(** The group stack (innermost group first) and the stored values. *)
Record QSettings : Type := mkQSettings {
  st_groups : list string;
  st_data : gmap string QByteArray
}.

Definition groupPrefix (groups : list string) : string :=
  foldr (fun g acc => acc +:+ g +:+ "/") EmptyString groups.

Definition fullKey (st : QSettings) (key : string) : string :=
  groupPrefix (st_groups st) +:+ key.

Definition beginGroup (prefix : string) (st : QSettings) : QSettings :=
  mkQSettings (prefix :: st_groups st) (st_data st).

(** [endGroup] without a matching [beginGroup] only warns. *)
Definition endGroup (st : QSettings) : QSettings :=
  mkQSettings (tail (st_groups st)) (st_data st).

(** [value(key).toByteArray()]: an absent key reads as the empty array. *)
Definition value (key : string) (st : QSettings) : QByteArray :=
  default [] (st_data st !! fullKey st key).

Definition setValue (key : string) (v : QByteArray) (st : QSettings) : QSettings :=
  mkQSettings (st_groups st) (<[fullKey st key := v]> (st_data st)).

(** ** The host toolkit *)

Class Qt : Type := mkQt {
  (** [QString::toInt()] *)
  QString_toInt : string -> Z;
  (** [QString::toLower()] *)
  QString_toLower : string -> string;
  QSplitter_saveState : SplitterLayout -> QByteArray;
  QSplitter_restoreState : QByteArray -> SplitterLayout -> SplitterLayout;
  QHeaderView_saveState : HeaderLayout -> QByteArray;
  QHeaderView_restoreState : QByteArray -> HeaderLayout -> HeaderLayout;
  QMainWindow_saveGeometry : WindowLayout -> QByteArray;
  QMainWindow_saveState : WindowLayout -> QByteArray;
  QMainWindow_restoreGeometry : QByteArray -> WindowLayout -> WindowLayout;
  QMainWindow_restoreState : QByteArray -> WindowLayout -> WindowLayout;
  (** [qApp->desktop()->availableGeometry(QCursor::pos())] *)
  availableGeometry : QRect;
  (** [QWidget::isAncestorOf] between item views, named as [hv_view] names
      them: the first is a parent, grandparent, ... of the second. *)
  QWidget_isAncestorOf : nat -> nat -> bool
}.

(** [QRect(QPoint(), size)], [QRect::center] and [QRect::moveCenter],
    after qrect.h. *)
Definition QRect_ofSize (w h : Z) : QRect := mkQRect 0 0 (int_sub w 1) (int_sub h 1).

Definition QRect_center (r : QRect) : Z * Z :=
  ((x1 r + x2 r) `quot` 2, (y1 r + y2 r) `quot` 2).

Definition QRect_moveCenter (p : Z * Z) (r : QRect) : QRect :=
  let w := int_sub (x2 r) (x1 r) in
  let h := int_sub (y2 r) (y1 r) in
  let nx1 := int_sub (fst p) (int_div w 2) in
  let ny1 := int_sub (snd p) (int_div h 2) in
  mkQRect nx1 ny1 (int_add nx1 w) (int_add ny1 h).

(** Setters of the toolkit. [QSplitter::setSizes] is recorded; 
    [QHeaderView::resizeSection] changes the one section it names. *)
Definition QSplitter_setSizes (sizes : list Z) (splitter : QSplitter) : QSplitter :=
  let l := sp_layout splitter in
  mkQSplitter (sp_objectName splitter) (sp_customized splitter)
    (mkSplitterLayout (sl_orientation l) (sl_width l) (sl_height l)
       (sl_handleWidth l) (sl_count l) sizes).

Definition QSplitter_setCustomized (b : bool) (splitter : QSplitter) : QSplitter :=
  mkQSplitter (sp_objectName splitter) b (sp_layout splitter).

Definition QSplitter_setLayout (l : SplitterLayout) (splitter : QSplitter) : QSplitter :=
  mkQSplitter (sp_objectName splitter) (sp_customized splitter) l.

Definition QHeaderView_count (header : QHeaderView) : nat :=
  length (hl_sections (hv_layout header)).

Definition HeaderSection_resize (size : Z) (sec : HeaderSection) : HeaderSection :=
  mkHeaderSection size (sec_resizeMode sec) (sec_sizeHint sec).

Definition QHeaderView_resizeSection (i : nat) (size : Z) (header : QHeaderView)
  : QHeaderView :=
  let l := hv_layout header in
  mkQHeaderView (hv_objectName header) (hv_customized header) (hv_view header)
    (mkHeaderLayout (hl_orientation l)
       (alter (HeaderSection_resize size) i (hl_sections l))
       (hl_viewWidth l) (hl_viewHeight l)).

Definition QHeaderView_setCustomized (b : bool) (header : QHeaderView) : QHeaderView :=
  mkQHeaderView (hv_objectName header) b (hv_view header) (hv_layout header).

Definition QHeaderView_setLayout (l : HeaderLayout) (header : QHeaderView) : QHeaderView :=
  mkQHeaderView (hv_objectName header) (hv_customized header) (hv_view header) l.

Definition WindowLayout_setGeometry (r : QRect) (w : WindowLayout) : WindowLayout :=
  mkWindowLayout r (win_docks w).

(** ** The manager *)

(** What the manager did to the outside, oldest first. *)
Inductive Action : Type :=
| Warn_noName
| Warn_duplicate (name : string)
| Settings_value (key : string)
| Settings_setValue (key : string) (v : QByteArray).

(** Signal connections and event filters made by [setup]; widgets are
    named by their position in [splitters()] and [headers()], views by
    [hv_view]. *)
Record Connections : Type := mkConnections {
  c_splitterMoved : gset nat;
  c_sectionResized : gset nat;
  c_sectionCountChanged : gset nat;
  c_viewFilters : list nat
}.

Record UIStateManager : Type := mkUIStateManager {
  m_widget : RootWidget;
  m_stateSettings : QSettings;
  m_initialized : bool;
  m_resizing : bool;
  m_defaultSplitterSizes : gmap string UISizeVector;
  m_defaultHeaderSizes : gmap string UISizeVector;
  splitters : list QSplitter;
  headers : list QHeaderView;
  connections : Connections;
  trace : list Action
}.

Definition set_m_widget (v : RootWidget) (s : UIStateManager) : UIStateManager :=
  mkUIStateManager v (m_stateSettings s) (m_initialized s) (m_resizing s)
    (m_defaultSplitterSizes s) (m_defaultHeaderSizes s) (splitters s) (headers s)
    (connections s) (trace s).

Definition set_m_stateSettings (v : QSettings) (s : UIStateManager) : UIStateManager :=
  mkUIStateManager (m_widget s) v (m_initialized s) (m_resizing s)
    (m_defaultSplitterSizes s) (m_defaultHeaderSizes s) (splitters s) (headers s)
    (connections s) (trace s).

Definition set_m_initialized (v : bool) (s : UIStateManager) : UIStateManager :=
  mkUIStateManager (m_widget s) (m_stateSettings s) v (m_resizing s)
    (m_defaultSplitterSizes s) (m_defaultHeaderSizes s) (splitters s) (headers s)
    (connections s) (trace s).

Definition set_m_resizing (v : bool) (s : UIStateManager) : UIStateManager :=
  mkUIStateManager (m_widget s) (m_stateSettings s) (m_initialized s) v
    (m_defaultSplitterSizes s) (m_defaultHeaderSizes s) (splitters s) (headers s)
    (connections s) (trace s).

Definition set_m_defaultSplitterSizes (v : gmap string UISizeVector)
  (s : UIStateManager) : UIStateManager :=
  mkUIStateManager (m_widget s) (m_stateSettings s) (m_initialized s) (m_resizing s)
    v (m_defaultHeaderSizes s) (splitters s) (headers s)
    (connections s) (trace s).

Definition set_m_defaultHeaderSizes (v : gmap string UISizeVector)
  (s : UIStateManager) : UIStateManager :=
  mkUIStateManager (m_widget s) (m_stateSettings s) (m_initialized s) (m_resizing s)
    (m_defaultSplitterSizes s) v (splitters s) (headers s)
    (connections s) (trace s).

Definition set_splitters (v : list QSplitter) (s : UIStateManager) : UIStateManager :=
  mkUIStateManager (m_widget s) (m_stateSettings s) (m_initialized s) (m_resizing s)
    (m_defaultSplitterSizes s) (m_defaultHeaderSizes s) v (headers s)
    (connections s) (trace s).

Definition set_headers (v : list QHeaderView) (s : UIStateManager) : UIStateManager :=
  mkUIStateManager (m_widget s) (m_stateSettings s) (m_initialized s) (m_resizing s)
    (m_defaultSplitterSizes s) (m_defaultHeaderSizes s) (splitters s) v
    (connections s) (trace s).

Definition set_connections (v : Connections) (s : UIStateManager) : UIStateManager :=
  mkUIStateManager (m_widget s) (m_stateSettings s) (m_initialized s) (m_resizing s)
    (m_defaultSplitterSizes s) (m_defaultHeaderSizes s) (splitters s) (headers s)
    v (trace s).

Definition set_trace (v : list Action) (s : UIStateManager) : UIStateManager :=
  mkUIStateManager (m_widget s) (m_stateSettings s) (m_initialized s) (m_resizing s)
    (m_defaultSplitterSizes s) (m_defaultHeaderSizes s) (splitters s) (headers s)
    (connections s) v.

(** ** The monad of the member functions *)

(** The assertions of the source. *)
Inductive Assertion : Type :=
| Assert_splitterCount   (* Q_ASSERT(defaultSizes.count() == splitter->count()) *)
| Assert_headerCount     (* Q_ASSERT(defaultSizes.count() == header->count()) *)
| Assert_variantType.    (* Q_ASSERT(false) in the default case of the type switch *)

Inductive Result (A : Type) : Type :=
| Ok (a : A)
| AssertFailed (which : Assertion).
Arguments Ok {A} a.
Arguments AssertFailed {A} which.

Definition M (A : Type) : Type := UIStateManager -> Result (A * UIStateManager).

Definition ret {A} (a : A) : M A := fun s => Ok (a, s).

Definition bind {A B} (m : M A) (k : A -> M B) : M B :=
  fun s =>
    match m s with
    | Ok (a, s') => k a s'
    | AssertFailed e => AssertFailed e
    end.

Declare Scope m_scope.
Delimit Scope m_scope with M.
Notation "x <- m ;; k" := (bind m (fun x => k))
  (at level 100, m at level 99, k at level 200, right associativity) : m_scope.
Notation "m ;; k" := (bind m (fun _ => k))
  (at level 100, k at level 200, right associativity) : m_scope.
Local Open Scope m_scope.

Definition gets {A} (f : UIStateManager -> A) : M A := fun s => Ok (f s, s).

Definition modify (f : UIStateManager -> UIStateManager) : M unit :=
  fun s => Ok (tt, f s).

Definition Q_ASSERT (which : Assertion) (cond : bool) : M unit :=
  fun s => if cond then Ok (tt, s) else AssertFailed which.

Definition when (b : bool) (m : M unit) : M unit := if b then m else ret tt.

Definition log (a : Action) : M unit :=
  modify (fun s => set_trace (trace s ++ [a]) s).

Fixpoint mapM {A B} (f : A -> M B) (l : list A) : M (list B) :=
  match l with
  | [] => ret []
  | x :: rest => y <- f x ;; ys <- mapM f rest ;; ret (y :: ys)
  end.

Fixpoint foreachM {A} (f : A -> M unit) (l : list A) : M unit :=
  match l with
  | [] => ret tt
  | x :: rest => f x ;; foreachM f rest
  end.

Fixpoint foldM {A B} (f : B -> A -> M B) (l : list A) (b : B) : M B :=
  match l with
  | [] => ret b
  | x :: rest => b' <- f b x ;; foldM f rest b'
  end.

(** Reading and writing the store, logged with the full key. *)
Definition settings_value (key : string) : M QByteArray :=
  st <- gets m_stateSettings ;;
  log (Settings_value (fullKey st key)) ;;
  ret (value key st).

Definition settings_setValue (key : string) (v : QByteArray) : M unit :=
  st <- gets m_stateSettings ;;
  log (Settings_setValue (fullKey st key) v) ;;
  modify (set_m_stateSettings (setValue key v st)).

(** ** Member functions of UIStateManager *)

Definition UISizeVector_isEmpty (v : UISizeVector) : bool :=
  match v with
  | [] => true
  | _ :: _ => false
  end.

(** The objects an event reaches the filter for: the root widget (filter
    installed by the constructor) and the item views of the headers. *)
Inductive QObjectRef : Type := ObjRoot | ObjView (view : nat).

Inductive QEventType : Type := Hide | Show | Resize | OtherEvent.

(** The sender of [widgetCustomized]: a splitter, or a header view together
    with the outcome of [qobject_cast<HeaderView *>] and
    [isState(HeaderView::ResizeSection)] ([None]: not a [HeaderView]). *)
Inductive Sender : Type :=
| SenderSplitter (i : nat)
| SenderHeader (i : nat) (resizeSectionState : option bool).

Section Manager.
Context `{Qt}.

(** The constructor: nothing initialised, no resize in flight, the store
    as found on disk. *)
Definition UIStateManager_new (widget : RootWidget)
  (stored : gmap string QByteArray)
  (children_splitters : list QSplitter) (children_headers : list QHeaderView)
  : UIStateManager :=
  mkUIStateManager widget (mkQSettings [] stored) false false ∅ ∅
    children_splitters children_headers (mkConnections ∅ ∅ ∅ []) [].

Definition checkWidget (objectName : string) : M bool :=
  if QString_isEmpty objectName then log Warn_noName ;; ret false
  else ret true.

(** [size.left(size.length() - 1).toInt()] *)
Definition percentToInt (size : string) : Z :=
  QString_toInt (String.substring 0 (String.length size - 1)%nat size).

Definition defaultSizes_splitter (splitter : QSplitter) : M UISizeVector :=
  ok <- checkWidget (sp_objectName splitter) ;;
  if ok then
    gets (fun s => default [] (m_defaultSplitterSizes s !! sp_objectName splitter))
  else ret [].

Definition setDefaultSizes_splitter (splitter : QSplitter)
  (defaultSizes : UISizeVector) : M unit :=
  ok <- checkWidget (sp_objectName splitter) ;;
  when ok
    (modify (fun s =>
       set_m_defaultSplitterSizes
         (<[sp_objectName splitter := defaultSizes]> (m_defaultSplitterSizes s)) s)).

Definition defaultSizes_header (header : QHeaderView) : M UISizeVector :=
  ok <- checkWidget (hv_objectName header) ;;
  if ok then
    gets (fun s => default [] (m_defaultHeaderSizes s !! hv_objectName header))
  else ret [].

Definition setDefaultSizes_header (header : QHeaderView)
  (defaultSizes : UISizeVector) : M unit :=
  ok <- checkWidget (hv_objectName header) ;;
  when ok
    (modify (fun s =>
       set_m_defaultHeaderSizes
         (<[hv_objectName header := defaultSizes]> (m_defaultHeaderSizes s)) s)).

Definition restoreWindowState : M unit :=
  root <- gets m_widget ;;
  match rw_window root with
  | Some window =>
      geometry <- settings_value (widgetGeometryKey (rw_objectName root)) ;;
      state <- settings_value (widgetStateKey (rw_objectName root)) ;;
      if QByteArray_isEmpty geometry then
        let area := availableGeometry in
        let rect := QRect_moveCenter (QRect_center area) (QRect_ofSize 1024 768) in
        modify (set_m_widget
                  (mkRootWidget (rw_objectName root)
                     (Some (WindowLayout_setGeometry rect window))))
      else
        resizing <- gets m_resizing ;;
        when (negb resizing)
          (modify (set_m_widget
                     (mkRootWidget (rw_objectName root)
                        (Some (QMainWindow_restoreState state
                                 (QMainWindow_restoreGeometry geometry window))))))
  | None => ret tt
  end.

Definition saveWindowState : M unit :=
  root <- gets m_widget ;;
  match rw_window root with
  | Some window =>
      settings_setValue (widgetGeometryKey (rw_objectName root))
        (QMainWindow_saveGeometry window) ;;
      settings_setValue (widgetStateKey (rw_objectName root))
        (QMainWindow_saveState window)
  | None => ret tt
  end.

Definition splitterExtent (l : SplitterLayout) : Z :=
  match sl_orientation l with
  | Horizontal => sl_width l
  | Vertical => sl_height l
  end.

(** Body of the loop over [defaultSizes] in [restoreSplitterState]. *)
Definition splitterSize (l : SplitterLayout) (sizes : list Z) (size : QVariant)
  : M (list Z) :=
  match size with
  | VInt n => ret (sizes ++ [n])
  | VString str =>
      let value := percentToInt str in
      if value =? -1 then ret (sizes ++ [value])
      else
        match sl_orientation l with
        | Horizontal => ret (sizes ++ [int_div (int_mul (sl_width l) value) 100])
        | Vertical => ret (sizes ++ [int_div (int_mul (sl_height l) value) 100])
        end
  | VOther => Q_ASSERT Assert_variantType false ;; ret sizes
  end.

(** Body of the loop over the splitters in [restoreSplitterState]. *)
Definition restoreSplitter (splitter : QSplitter) : M QSplitter :=
  ok <- checkWidget (sp_objectName splitter) ;;
  if negb ok then ret splitter
  else
    state <- settings_value (widgetStateKey (sp_objectName splitter)) ;;
    if QByteArray_isEmpty state then
      defaultSizes <- defaultSizes_splitter splitter ;;
      if negb (UISizeVector_isEmpty defaultSizes) then
        Q_ASSERT Assert_splitterCount
          (length defaultSizes =? sl_count (sp_layout splitter))%nat ;;
        sizes <- foldM (splitterSize (sp_layout splitter)) defaultSizes [] ;;
        ret (QSplitter_setSizes
               (distributeSpace sizes (splitterExtent (sp_layout splitter))
                  (sl_handleWidth (sp_layout splitter)))
               splitter)
      else ret splitter
    else
      resizing <- gets m_resizing ;;
      if negb resizing then
        ret (QSplitter_setCustomized true
               (QSplitter_setLayout
                  (QSplitter_restoreState state (sp_layout splitter)) splitter))
      else ret splitter.

(** [restoreSplitterState(splitter)]: one splitter when a pointer is given,
    all of [splitters()] otherwise. The loop runs over the widgets
    themselves; each is written back where it was found. *)
Definition restoreSplitterState (splitter : option nat) : M unit :=
  all <- gets splitters ;;
  match splitter with
  | Some i =>
      match all !! i with
      | Some w =>
          w' <- restoreSplitter w ;;
          modify (fun s => set_splitters (<[i := w']> (splitters s)) s)
      | None => ret tt
      end
  | None =>
      all' <- mapM restoreSplitter all ;;
      modify (set_splitters all')
  end.

(** Body of the loop in [saveSplitterState]. *)
Definition saveSplitter (splitter : QSplitter) : M unit :=
  ok <- checkWidget (sp_objectName splitter) ;;
  if negb ok || negb (sp_customized splitter) then ret tt
  else
    settings_setValue (widgetStateKey (sp_objectName splitter))
      (QSplitter_saveState (sp_layout splitter)).

Definition saveSplitterState (splitter : option nat) : M unit :=
  all <- gets splitters ;;
  match splitter with
  | Some i =>
      match all !! i with
      | Some w => saveSplitter w
      | None => ret tt
      end
  | None => foreachM saveSplitter all
  end.

Definition QHeaderView_sectionResizeMode (header : QHeaderView) (i : nat)
  : ResizeMode :=
  default Fixed (sec_resizeMode <$> hl_sections (hv_layout header) !! i).

Definition QHeaderView_sectionSizeHint (header : QHeaderView) (i : nat) : Z :=
  default 0 (sec_sizeHint <$> hl_sections (hv_layout header) !! i).

(** The type switch of the loop over [defaultSizes] in
    [restoreHeaderState]. *)
Definition headerSize (l : HeaderLayout) (it : QVariant) : M Z :=
  match it with
  | VInt n => ret n
  | VString str =>
      let size := percentToInt str in
      if size =? -1 then ret size
      else
        match hl_orientation l with
        | Horizontal => ret (int_div (int_mul (hl_viewWidth l) size) 100)
        | Vertical => ret (int_div (int_mul (hl_viewHeight l) size) 100)
        end
  | VOther => Q_ASSERT Assert_variantType false ;; ret 0
  end.

(** One turn of that loop: the column index [i] and the header go round. *)
Definition headerColumn (acc : nat * QHeaderView) (it : QVariant)
  : M (nat * QHeaderView) :=
  let '(i, header) := acc in
  size <- headerSize (hv_layout header) it ;;
  match QHeaderView_sectionResizeMode header i with
  | Interactive | Fixed =>
      ret (S i,
           QHeaderView_resizeSection i
             (if size =? -1 then QHeaderView_sectionSizeHint header i else size)
             header)
  | _ => ret (S i, header)
  end.

(** Body of the loop over the headers in [restoreHeaderState]. *)
Definition restoreHeader (header : QHeaderView) : M QHeaderView :=
  ok <- checkWidget (hv_objectName header) ;;
  if negb ok || (QHeaderView_count header =? 0)%nat then ret header
  else
    state <- settings_value (widgetStateKey (hv_objectName header)) ;;
    if QByteArray_isEmpty state then
      defaultSizes <- defaultSizes_header header ;;
      if negb (UISizeVector_isEmpty defaultSizes) then
        Q_ASSERT Assert_headerCount
          (length defaultSizes =? QHeaderView_count header)%nat ;;
        r <- foldM headerColumn defaultSizes (0%nat, header) ;;
        ret (snd r)
      else ret header
    else
      resizing <- gets m_resizing ;;
      if negb resizing then
        ret (QHeaderView_setCustomized true
               (QHeaderView_setLayout
                  (QHeaderView_restoreState state (hv_layout header)) header))
      else ret header.

Definition restoreHeaderState (header : option nat) : M unit :=
  all <- gets headers ;;
  match header with
  | Some i =>
      match all !! i with
      | Some h =>
          h' <- restoreHeader h ;;
          modify (fun s => set_headers (<[i := h']> (headers s)) s)
      | None => ret tt
      end
  | None =>
      all' <- mapM restoreHeader all ;;
      modify (set_headers all')
  end.

(** Body of the loop in [saveHeaderState]. *)
Definition saveHeader (header : QHeaderView) : M unit :=
  ok <- checkWidget (hv_objectName header) ;;
  if negb ok || (QHeaderView_count header =? 0)%nat
     || negb (hv_customized header) then ret tt
  else
    settings_setValue (widgetStateKey (hv_objectName header))
      (QHeaderView_saveState (hv_layout header)).

Definition saveHeaderState (header : option nat) : M unit :=
  all <- gets headers ;;
  match header with
  | Some i =>
      match all !! i with
      | Some h => saveHeader h
      | None => ret tt
      end
  | None => foreachM saveHeader all
  end.

Definition restoreState : M unit :=
  restoreWindowState ;;
  restoreSplitterState None ;;
  restoreHeaderState None.

Definition saveState : M unit :=
  saveWindowState ;;
  saveSplitterState None ;;
  saveHeaderState None.

Definition connect_splitterMoved (i : nat) : M unit :=
  modify (fun s =>
    let c := connections s in
    set_connections
      (mkConnections ({[i]} ∪ c_splitterMoved c) (c_sectionResized c)
         (c_sectionCountChanged c) (c_viewFilters c)) s).

Definition connect_sectionResized (i : nat) : M unit :=
  modify (fun s =>
    let c := connections s in
    set_connections
      (mkConnections (c_splitterMoved c) ({[i]} ∪ c_sectionResized c)
         (c_sectionCountChanged c) (c_viewFilters c)) s).

Definition connect_sectionCountChanged (i : nat) : M unit :=
  modify (fun s =>
    let c := connections s in
    set_connections
      (mkConnections (c_splitterMoved c) (c_sectionResized c)
         ({[i]} ∪ c_sectionCountChanged c) (c_viewFilters c)) s).

(** [view->removeEventFilter(this); view->installEventFilter(this);] *)
Definition reinstallEventFilter (view : nat) : M unit :=
  modify (fun s =>
    let c := connections s in
    set_connections
      (mkConnections (c_splitterMoved c) (c_sectionResized c)
         (c_sectionCountChanged c)
         (view :: filter (fun v => v ≠ view) (c_viewFilters c))) s).

(** Body of the loop over the splitters in [setup]. *)
Definition setupSplitter (knownNames : gset string) (entry : nat * QSplitter)
  : M (gset string) :=
  let '(i, splitter) := entry in
  ok <- checkWidget (sp_objectName splitter) ;;
  if negb ok then ret knownNames
  else
    let name := QString_toLower (sp_objectName splitter) in
    if bool_decide (name ∈ knownNames) then
      log (Warn_duplicate name) ;; ret knownNames
    else
      connect_splitterMoved i ;;
      ret ({[name]} ∪ knownNames).

(** Body of the loop over the headers in [setup]. *)
Definition setupHeader (knownNames : gset string) (entry : nat * QHeaderView)
  : M (gset string) :=
  let '(i, header) := entry in
  ok <- checkWidget (hv_objectName header) ;;
  if negb ok then ret knownNames
  else
    let name := QString_toLower (hv_objectName header) in
    if bool_decide (name ∈ knownNames) then
      log (Warn_duplicate name) ;; ret knownNames
    else
      connect_sectionResized i ;;
      connect_sectionCountChanged i ;;
      reinstallEventFilter (hv_view header) ;;
      ret ({[name]} ∪ knownNames).

Definition setup : M unit :=
  root <- gets m_widget ;;
  ok <- checkWidget (rw_objectName root) ;;
  if negb ok then ret tt
  else
    modify (set_m_initialized true) ;;
    modify (fun s =>
      set_m_stateSettings
        (beginGroup ("UiState/" +:+ rw_objectName root) (m_stateSettings s)) s) ;;
    let knownNames : gset string := {[QString_toLower (rw_objectName root)]} in
    ws <- gets splitters ;;
    knownNames <- foldM setupSplitter (imap pair ws) knownNames ;;
    hs <- gets headers ;;
    _ <- foldM setupHeader (imap pair hs) knownNames ;;
    restoreState.

Definition reset : M unit :=
  modify (set_m_initialized false) ;;
  modify (fun s => set_m_stateSettings (endGroup (m_stateSettings s)) s) ;;
  setup.

Definition headerSectionCountChanged (sender : nat) : M unit :=
  restoreHeaderState (Some sender).

(** [widget->findChildren<QHeaderView *>()] for an item view: the positions
    of the headers below it in the widget tree. The search is recursive, so
    it finds the headers whose item view (the one [headerView] returns) is
    the view itself or an item view nested in it. *)
Definition findChildren_headers (view : nat) (hs : list QHeaderView) : list nat :=
  omap (fun entry : nat * QHeaderView =>
          if bool_decide (hv_view (snd entry) = view)
             || QWidget_isAncestorOf view (hv_view (snd entry))
          then Some (fst entry)
          else None)
    (imap pair hs).

(** [Util::SetTempValue<bool> guard(m_resizing, true)]: [m_resizing] is
    set for the extent of the body and put back to what it was. *)
Definition widgetResized (widget : QObjectRef) : M unit :=
  old <- gets m_resizing ;;
  modify (set_m_resizing true) ;;
  match widget with
  | ObjRoot =>
      restoreSplitterState None ;;
      restoreHeaderState None
  | ObjView view =>
      hs <- gets headers ;;
      foreachM (fun header => restoreHeaderState (Some header))
        (findChildren_headers view hs)
  end ;;
  modify (set_m_resizing old).

Definition widgetCustomized (sender : Sender) : M unit :=
  match sender with
  | SenderSplitter i =>
      modify (fun s =>
        set_splitters (alter (QSplitter_setCustomized true) i (splitters s)) s) ;;
      saveSplitterState (Some i)
  | SenderHeader i (Some true) =>
      modify (fun s =>
        set_headers (alter (QHeaderView_setCustomized true) i (headers s)) s) ;;
      saveHeaderState (Some i)
  | SenderHeader _ _ => ret tt
  end.

Definition eventFilter (object : QObjectRef) (event : QEventType) : M bool :=
  match object, event with
  | ObjRoot, Hide =>
      initialized <- gets m_initialized ;;
      when initialized saveState
  | _, _ => ret tt
  end ;;
  let result := false in
  match object, event with
  | ObjRoot, Show =>
      initialized <- gets m_initialized ;;
      when (negb initialized) setup
  | _, _ => ret tt
  end ;;
  match event with
  | Resize =>
      initialized <- gets m_initialized ;;
      resizing <- gets m_resizing ;;
      when (initialized && negb resizing) (widgetResized object)
  | _ => ret tt
  end ;;
  ret result.

(** ** The manager in its event loop *)

(** What reaches the manager from outside: events of filtered objects,
    signals of connected widgets, and calls of its public functions. *)
Inductive Op : Type :=
| Event (object : QObjectRef) (event : QEventType)
| SplitterMoved (i : nat)
| SectionResized (i : nat) (resizeSectionState : option bool)
| SectionCountChanged (i : nat)
| Reset
| SetDefaultSplitterSizes (i : nat) (defaultSizes : UISizeVector)
| SetDefaultHeaderSizes (i : nat) (defaultSizes : UISizeVector).

(** An event is filtered only for an object the filter is installed on, a
    slot runs only for a connected sender. *)
Definition dispatch (op : Op) : M unit :=
  match op with
  | Event object event =>
      installed <- gets (fun s =>
        match object with
        | ObjRoot => true
        | ObjView v => bool_decide (v ∈ c_viewFilters (connections s))
        end) ;;
      when installed (eventFilter object event ;; ret tt)
  | SplitterMoved i =>
      connected <- gets (fun s =>
        bool_decide (i ∈ c_splitterMoved (connections s))) ;;
      when connected (widgetCustomized (SenderSplitter i))
  | SectionResized i st =>
      connected <- gets (fun s =>
        bool_decide (i ∈ c_sectionResized (connections s))) ;;
      when connected (widgetCustomized (SenderHeader i st))
  | SectionCountChanged i =>
      connected <- gets (fun s =>
        bool_decide (i ∈ c_sectionCountChanged (connections s))) ;;
      when connected (headerSectionCountChanged i)
  | Reset => reset
  | SetDefaultSplitterSizes i defaultSizes =>
      ws <- gets splitters ;;
      match ws !! i with
      | Some w => setDefaultSizes_splitter w defaultSizes
      | None => ret tt
      end
  | SetDefaultHeaderSizes i defaultSizes =>
      hs <- gets headers ;;
      match hs !! i with
      | Some h => setDefaultSizes_header h defaultSizes
      | None => ret tt
      end
  end.

Definition run (ops : list Op) : M unit := foreachM dispatch ops.

(** ** Observations *)

Definition isStoreAccess (a : Action) : bool :=
  match a with
  | Settings_value _ | Settings_setValue _ _ => true
  | _ => false
  end.

(** The store accesses of a trace. *)
Definition storeAccesses (t : list Action) : list Action :=
  filter (fun a => isStoreAccess a = true) t.

(** The keys written in a trace. *)
Definition writtenKeys (t : list Action) : list string :=
  omap (fun a => match a with
                 | Settings_setValue k _ => Some k
                 | _ => None
                 end) t.

(** The final state of a computation that succeeds. *)
Definition exec {A} (m : M A) (s : UIStateManager) : option UIStateManager :=
  match m s with
  | Ok (_, s') => Some s'
  | AssertFailed _ => None
  end.

End Manager.

(** ** Definitions used to state the properties *)

Definition sumZ (l : list Z) : Z := foldr Z.add 0 l.

Section Statements.
Context `{Qt}.

(** The size the type switch of [restoreSplitterState] appends for an
    entry of the default sizes ([splitterSize] without the list). *)
Definition resolvedSize (l : SplitterLayout) (size : QVariant) : Z :=
  match size with
  | VInt n => n
  | VString str =>
      let value := percentToInt str in
      if value =? -1 then value
      else
        match sl_orientation l with
        | Horizontal => int_div (int_mul (sl_width l) value) 100
        | Vertical => int_div (int_mul (sl_height l) value) 100
        end
  | VOther => 0
  end.

Definition isSizeEntry (size : QVariant) : bool :=
  match size with
  | VInt _ | VString _ => true
  | VOther => false
  end.

(** The size the type switch of [restoreHeaderState] computes for an entry
    of the default sizes ([headerSize] as a value). *)
Definition resolvedHeaderSize (l : HeaderLayout) (it : QVariant) : Z :=
  match it with
  | VInt n => n
  | VString str =>
      let size := percentToInt str in
      if size =? -1 then size
      else
        match hl_orientation l with
        | Horizontal => int_div (int_mul (hl_viewWidth l) size) 100
        | Vertical => int_div (int_mul (hl_viewHeight l) size) 100
        end
  | VOther => 0
  end.

(** A registered default-size spec fits a widget: it is empty (nothing
    registered) or has one pixel or percent entry per pane or column. *)
Definition specOk (spec : UISizeVector) (count : nat) : Prop :=
  spec = [] \/ (length spec = count /\ Forall (fun v => isSizeEntry v = true) spec).

Definition splitterSpecOk (s : UIStateManager) (w : QSplitter) : Prop :=
  specOk (default [] (m_defaultSplitterSizes s !! sp_objectName w))
    (sl_count (sp_layout w)).

Definition headerSpecOk (s : UIStateManager) (h : QHeaderView) : Prop :=
  specOk (default [] (m_defaultHeaderSizes s !! hv_objectName h))
    (QHeaderView_count h).

Definition specsOk (s : UIStateManager) : Prop :=
  Forall (splitterSpecOk s) (splitters s) /\ Forall (headerSpecOk s) (headers s).

(** A computation that, whatever the trace so far, either yields the same
    value and appends the same actions, none of them a write, leaving the
    rest of the manager alone, or fails the same assertion. *)
Definition readOnly {A} (m : M A) : Prop :=
  forall s,
    (exists a t, writtenKeys t = [] /\
       forall t0, m (set_trace t0 s) = Ok (a, set_trace (t0 ++ t) s))
    \/ (exists e, forall t0, m (set_trace t0 s) = AssertFailed e).

(** What one turn of the column loop of [restoreHeaderState] makes of a
    section, given the size computed for it. *)
Definition defaultSection (size : Z) (sec : HeaderSection) : HeaderSection :=
  match sec_resizeMode sec with
  | Interactive | Fixed =>
      HeaderSection_resize (if size =? -1 then sec_sizeHint sec else size) sec
  | _ => sec
  end.

(** The store access by which a restore reads the state of a widget. *)
Definition readAction (s : UIStateManager) (objectName : string) : Action :=
  Settings_value (fullKey (m_stateSettings s) (widgetStateKey objectName)).

(** The default sizes registered for a widget, as [defaultSizes] returns
    them for a named widget. *)
Definition splitterSpec (s : UIStateManager) (w : QSplitter) : UISizeVector :=
  default [] (m_defaultSplitterSizes s !! sp_objectName w).

Definition headerSpec (s : UIStateManager) (h : QHeaderView) : UISizeVector :=
  default [] (m_defaultHeaderSizes s !! hv_objectName h).

(** A restore applies the default sizes of a splitter: it is named, nothing
    is stored for it and default sizes are registered. *)
Definition splitterDefaultsApply (s : UIStateManager) (w : QSplitter) : Prop :=
  QString_isEmpty (sp_objectName w) = false /\
  value (widgetStateKey (sp_objectName w)) (m_stateSettings s) = [] /\
  splitterSpec s w ≠ [].

(** The same for a header, which moreover has a column. *)
Definition headerDefaultsApply (s : UIStateManager) (h : QHeaderView) : Prop :=
  QString_isEmpty (hv_objectName h) = false /\
  QHeaderView_count h ≠ 0%nat /\
  value (widgetStateKey (hv_objectName h)) (m_stateSettings s) = [] /\
  headerSpec s h ≠ [].

(** The store access by which a save writes the state of a widget. *)
Definition writeAction (s : UIStateManager) (objectName : string) (v : QByteArray)
  : Action :=
  Settings_setValue (fullKey (m_stateSettings s) (widgetStateKey objectName)) v.

(** The common shape of the bodies of the two save loops: a named widget
    that is not skipped writes its state under its state key. *)
Definition saveAct (objectName : string) (skip : bool) (v : QByteArray) : M unit :=
  ok <- checkWidget objectName ;;
  if negb ok || skip then ret tt
  else settings_setValue (widgetStateKey objectName) v.

(** The manager after a save: [t] appended to the trace and [d] stored,
    everything else as it was. *)
Definition afterSave (s : UIStateManager) (t : list Action)
  (d : gmap string QByteArray) : UIStateManager :=
  set_trace (trace s ++ t)
    (set_m_stateSettings (mkQSettings (st_groups (m_stateSettings s)) d) s).

(** Where a write of a save cycle comes from: the main window, a named
    customized splitter, or a named customized header with a column. *)
Definition windowWrite (s : UIStateManager) (a : Action) : Prop :=
  exists window,
    rw_window (m_widget s) = Some window /\
    (a = Settings_setValue
           (fullKey (m_stateSettings s)
              (widgetGeometryKey (rw_objectName (m_widget s))))
           (QMainWindow_saveGeometry window)
     \/ a = writeAction s (rw_objectName (m_widget s))
               (QMainWindow_saveState window)).

Definition splitterWrite (s : UIStateManager) (a : Action) : Prop :=
  exists w,
    w ∈ splitters s /\ QString_isEmpty (sp_objectName w) = false /\
    sp_customized w = true /\
    a = writeAction s (sp_objectName w) (QSplitter_saveState (sp_layout w)).

Definition headerWrite (s : UIStateManager) (a : Action) : Prop :=
  exists h,
    h ∈ headers s /\ QString_isEmpty (hv_objectName h) = false /\
    QHeaderView_count h ≠ 0%nat /\ hv_customized h = true /\
    a = writeAction s (hv_objectName h) (QHeaderView_saveState (hv_layout h)).

(** The manager is bound to a root widget without a name and was never
    initialised: the state a constructor call leaves, and every operation
    keeps, for such a root. *)
Definition inert (root : RootWidget) (stored : gmap string QByteArray)
  (ws : list QSplitter) (hs : list QHeaderView) (s : UIStateManager) : Prop :=
  rw_objectName root = EmptyString /\
  m_widget s = root /\
  m_initialized s = false /\
  connections s = mkConnections ∅ ∅ ∅ [] /\
  st_data (m_stateSettings s) = stored /\
  storeAccesses (trace s) = [] /\
  splitters s = ws /\
  headers s = hs.

(** A first-ever run on the widget tree and the registered default sizes
    of [s]: a newly constructed manager with nothing in the store. *)
Definition firstRun (s : UIStateManager) : UIStateManager :=
  set_m_defaultHeaderSizes (m_defaultHeaderSizes s)
    (set_m_defaultSplitterSizes (m_defaultSplitterSizes s)
       (UIStateManager_new (m_widget s) ∅ (splitters s) (headers s))).

(** A computation that always returns and only changes the connections
    and appends warnings to the trace. *)
Definition bookkeeping {A} (m : M A) : Prop :=
  forall s, exists a c t,
    m s = Ok (a, set_connections c (set_trace (trace s ++ t) s)) /\
    storeAccesses t = [].

(** A computation that, when it returns, has kept the settings group and
    changed the stored data at most under the keys it logged a write for. *)
Definition writesLogged {A} (m : M A) : Prop :=
  forall s a s',
    m s = Ok (a, s') ->
    exists t,
      trace s' = trace s ++ t /\
      st_groups (m_stateSettings s') = st_groups (m_stateSettings s) /\
      forall k, k ∉ writtenKeys t ->
        st_data (m_stateSettings s') !! k = st_data (m_stateSettings s) !! k.

(** The common shape of the bodies of the two loops of [setup]: an
    unnamed widget is warned about, one whose lower-case name is known is
    warned about as a duplicate, any other is connected and its name
    becomes known. *)
Definition setupStep {W} (nm : W -> string) (conn : nat -> W -> M unit)
  (knownNames : gset string) (entry : nat * W) : M (gset string) :=
  let '(i, w) := entry in
  ok <- checkWidget (nm w) ;;
  if negb ok then ret knownNames
  else
    let name := QString_toLower (nm w) in
    if bool_decide (name ∈ knownNames) then
      log (Warn_duplicate name) ;; ret knownNames
    else
      conn i w ;;
      ret ({[name]} ∪ knownNames).

(** The connections [setupHeader] makes for a header. *)
Definition connectHeader (i : nat) (header : QHeaderView) : M unit :=
  connect_sectionResized i ;;
  connect_sectionCountChanged i ;;
  reinstallEventFilter (hv_view header).

(** A widget name counts as a duplicate in [setup] when its lower-case
    form is already known: from the root widget, from the widgets of an
    earlier loop, or from a named widget before it in its own loop. *)
Definition duplicateName {W} (nm : W -> string) (known : gset string)
  (l : list W) (i : nat) (w : W) : Prop :=
  QString_toLower (nm w) ∈ known \/
  exists i' w', (i' < i)%nat /\ l !! i' = Some w' /\
    QString_isEmpty (nm w') = false /\
    QString_toLower (nm w') = QString_toLower (nm w).

End Statements.

(** ** A small toolkit to run the model on *)

Module Sample.

Definition digit (c : Ascii.ascii) : option Z :=
  let n := Z.of_N (Ascii.N_of_ascii c) in
  if (48 <=? n) && (n <=? 57) then Some (n - 48) else None.

Fixpoint digits (acc : Z) (s : string) : option Z :=
  match s with
  | EmptyString => Some acc
  | String c rest =>
      match digit c with
      | Some d => digits (10 * acc + d) rest
      | None => None
      end
  end.

(** Decimal numbers with an optional minus sign; [0] for anything else. *)
Definition toInt (s : string) : Z :=
  match s with
  | EmptyString => 0
  | String c rest =>
      if (Ascii.N_of_ascii c =? 45)%N then
        match rest with
        | EmptyString => 0
        | String _ _ => default 0 (Z.opp <$> digits 0 rest)
        end
      else default 0 (digits 0 s)
  end.

Definition lowerChar (c : Ascii.ascii) : Ascii.ascii :=
  let n := Ascii.N_of_ascii c in
  if ((65 <=? n) && (n <=? 90))%N then Ascii.ascii_of_N (n + 32) else c.

Fixpoint toLower (s : string) : string :=
  match s with
  | EmptyString => EmptyString
  | String c rest => String (lowerChar c) (toLower rest)
  end.

Definition byteOfZ (z : Z) : byte :=
  default x00 (Byte.of_N (Z.to_N (z `mod` 256))).

Definition zOfByte (b : byte) : Z := Z.of_N (Byte.to_N b).

(** A state blob: a marker byte, then one byte per size. *)
Definition encodeSizes (sizes : list Z) : QByteArray := xff :: (byteOfZ <$> sizes).

Definition decodeSizes (b : QByteArray) : option (list Z) :=
  match b with
  | xff :: rest => Some (zOfByte <$> rest)
  | _ => None
  end.

Definition splitter_saveState (l : SplitterLayout) : QByteArray :=
  encodeSizes (sl_sizes l).

Definition splitter_restoreState (b : QByteArray) (l : SplitterLayout)
  : SplitterLayout :=
  match decodeSizes b with
  | Some sizes =>
      mkSplitterLayout (sl_orientation l) (sl_width l) (sl_height l)
        (sl_handleWidth l) (sl_count l) sizes
  | None => l
  end.

Fixpoint resizeAll (sizes : list Z) (secs : list HeaderSection) : list HeaderSection :=
  match sizes, secs with
  | z :: sizes', sec :: secs' => HeaderSection_resize z sec :: resizeAll sizes' secs'
  | _, _ => secs
  end.

Definition header_saveState (l : HeaderLayout) : QByteArray :=
  encodeSizes (sec_size <$> hl_sections l).

Definition header_restoreState (b : QByteArray) (l : HeaderLayout) : HeaderLayout :=
  match decodeSizes b with
  | Some sizes =>
      mkHeaderLayout (hl_orientation l) (resizeAll sizes (hl_sections l))
        (hl_viewWidth l) (hl_viewHeight l)
  | None => l
  end.

Definition window_saveGeometry (w : WindowLayout) : QByteArray :=
  let r := win_geometry w in
  encodeSizes [x1 r; y1 r; x2 r; y2 r].

Definition window_restoreGeometry (b : QByteArray) (w : WindowLayout) : WindowLayout :=
  match decodeSizes b with
  | Some [a; b; c; d] => mkWindowLayout (mkQRect a b c d) (win_docks w)
  | _ => w
  end.

Definition window_saveState (w : WindowLayout) : QByteArray := xff :: win_docks w.

Definition window_restoreState (b : QByteArray) (w : WindowLayout) : WindowLayout :=
  match b with
  | xff :: docks => mkWindowLayout (win_geometry w) docks
  | _ => w
  end.

(** The item views of the sample: view 2 sits inside view 0, the views 0
    and 1 are side by side. *)
Definition isAncestorOf (above below : nat) : bool :=
  ((above =? 0) && (below =? 2))%nat.

Definition qt : Qt :=
  mkQt toInt toLower splitter_saveState splitter_restoreState
    header_saveState header_restoreState
    window_saveGeometry window_saveState window_restoreGeometry window_restoreState
    (mkQRect 0 0 1919 1079) isAncestorOf.

(** A main window with one splitter of three panes and one header of
    three columns, default sizes registered for both. *)
Definition window : WindowLayout := mkWindowLayout (mkQRect 0 0 99 49) [].

Definition root : RootWidget := mkRootWidget "MainWindow" (Some window).

Definition mainSplitter : QSplitter :=
  mkQSplitter "mainSplitter" false
    (mkSplitterLayout Horizontal 200 100 2 3 [50; 50; 100]).

Definition treeHeader : QHeaderView :=
  mkQHeaderView "treeHeader" false 0
    (mkHeaderLayout Horizontal
       [mkHeaderSection 10 Interactive 80;
        mkHeaderSection 10 Stretch 90;
        mkHeaderSection 10 Fixed 70]
       200 100).

Definition splitterDefaults : UISizeVector :=
  [VInt 40; VString "-1%"; VString "30%"].

Definition headerDefaults : UISizeVector :=
  [VString "50%"; VInt 120; VString "-1%"].

Definition register (s : UIStateManager) : UIStateManager :=
  set_m_defaultHeaderSizes {["treeHeader" := headerDefaults]}
    (set_m_defaultSplitterSizes {["mainSplitter" := splitterDefaults]} s).

(** The manager as constructed in a session that finds [stored] on disk. *)
Definition session (stored : gmap string QByteArray) : UIStateManager :=
  register (UIStateManager_new root stored [mainSplitter] [treeHeader]).

(** The first session ever: nothing stored. *)
Definition fresh : UIStateManager := session ∅.

(** A later session: the user had dragged the splitter to 10, 20, 30. *)
Definition draggedBlob : QByteArray := encodeSizes [10; 20; 30].

Definition returning : UIStateManager :=
  session {["UiState/MainWindow/mainSplitterState" := draggedBlob]}.

(** A session with a header whose model has no column yet. *)
Definition emptyHeader : QHeaderView :=
  mkQHeaderView "listHeader" true 1 (mkHeaderLayout Horizontal [] 200 100).

Definition withEmptyHeader : UIStateManager :=
  register (UIStateManager_new root ∅ [mainSplitter] [treeHeader; emptyHeader]).

(** A root widget that was given no name. *)
Definition unnamedRoot : RootWidget := mkRootWidget EmptyString (Some window).

(** Two splitters that were both named pane. *)
Definition paneA : QSplitter :=
  mkQSplitter "pane" false (mkSplitterLayout Horizontal 200 100 2 2 [120; 80]).

Definition paneB : QSplitter :=
  mkQSplitter "pane" false (mkSplitterLayout Vertical 200 100 2 2 [50; 50]).

Definition twins (stored : gmap string QByteArray) : UIStateManager :=
  UIStateManager_new root stored [paneA; paneB] [].

(** The twins after the user moved both of them. *)
Definition movedTwins : UIStateManager :=
  set_splitters
    [QSplitter_setCustomized true paneA; QSplitter_setCustomized true paneB]
    (twins ∅).

(** The sample manager once shown, and in the middle of a resize. *)
Definition shown : UIStateManager := set_m_initialized true fresh.

Definition resizing : UIStateManager := set_m_resizing true shown.

(** The sample manager after the user dragged the splitter. *)
Definition dragged : UIStateManager :=
  set_splitters
    [QSplitter_setCustomized true (QSplitter_setSizes [10; 20; 30] mainSplitter)]
    shown.

End Sample.

(** ** Definitions used to state further properties *)

(** The iterators the first loop of [distributeSpace] collects in a list
    whose first position is [i]. *)
Fixpoint wildcardIts (sizes : list Z) (i : nat) : list nat :=
  match sizes with
  | [] => []
  | x :: rest =>
      if x =? -1 then i :: wildcardIts rest (S i) else wildcardIts rest (S i)
  end.

(** A list of sizes with [space] in place of every entry equal to [-1]. *)
Definition fillWildcards (space : Z) (sizes : list Z) : list Z :=
  (fun x => if x =? -1 then space else x) <$> sizes.

(** The entries other than [-1], and the number of entries equal to [-1]. *)
Definition fixedSizes (sizes : list Z) : list Z :=
  filter (fun x => x ≠ -1) sizes.

Definition wildcardCount (sizes : list Z) : nat :=
  length (filter (fun x => x = -1) sizes).

(** The extent [restoreHeaderState] takes a percentage of: the width of
    the item view for a horizontal header, its height otherwise. *)
Definition headerExtent (l : HeaderLayout) : Z :=
  match hl_orientation l with
  | Horizontal => hl_viewWidth l
  | Vertical => hl_viewHeight l
  end.

(** The store of [s'] is that of [s]: the same settings object (group and
    data), and no write logged in between. *)
Definition sameStore (s s' : UIStateManager) : Prop :=
  m_stateSettings s' = m_stateSettings s /\
  writtenKeys (trace s') = writtenKeys (trace s).

(** The key of a store access, and the keys a trace accessed. *)
Definition accessKey (a : Action) : option string :=
  match a with
  | Settings_value k | Settings_setValue k _ => Some k
  | _ => None
  end.

Definition accessedKeys (t : list Action) : list string := omap accessKey t.

(** The keys of the settings group [setup] opens for a root widget named
    [name]. *)
Definition inGroupOf (name : string) (k : string) : Prop :=
  exists key, k = "UiState/" +:+ name +:+ "/" +:+ key.

(** A step of the manager that stays within the current settings group:
    it keeps the name of the root widget, the initialisation flag, the
    connections and the group, reads and writes the store only under keys
    of the current group, and leaves all other stored data alone. *)
Definition scopedStep (s s' : UIStateManager) : Prop :=
  rw_objectName (m_widget s') = rw_objectName (m_widget s) /\
  m_initialized s' = m_initialized s /\
  connections s' = connections s /\
  st_groups (m_stateSettings s') = st_groups (m_stateSettings s) /\
  exists t,
    trace s' = trace s ++ t /\
    (forall k, k ∈ accessedKeys t ->
       exists key, k = fullKey (m_stateSettings s) key) /\
    (forall k, (forall key, k ≠ fullKey (m_stateSettings s) key) ->
       st_data (m_stateSettings s') !! k = st_data (m_stateSettings s) !! k).

(** A computation all of whose runs are such steps. *)
Definition scoped {A} (m : M A) : Prop :=
  forall s a s', m s = Ok (a, s') -> scopedStep s s'.

(** What holds of a manager bound to a root widget named [name] that
    found [stored] on disk: its accesses so far were within the group of
    [name], the data outside are as found, and the settings object has
    exactly that group open when the manager is initialised and none (nor
    any connection) when it is not. *)
Definition groupInvariant (name : string) (stored : gmap string QByteArray)
  (s : UIStateManager) : Prop :=
  rw_objectName (m_widget s) = name /\
  (forall k, k ∈ accessedKeys (trace s) -> inGroupOf name k) /\
  (forall k, ~ inGroupOf name k -> st_data (m_stateSettings s) !! k = stored !! k) /\
  ((m_initialized s = true /\ QString_isEmpty name = false /\
    st_groups (m_stateSettings s) = ["UiState/" +:+ name]) \/
   (m_initialized s = false /\ st_groups (m_stateSettings s) = [] /\
    connections s = mkConnections ∅ ∅ ∅ [])).

(** [t] is a manager before its first Show, in a session that finds on
    disk the data [s] left there, on a root widget of the same name. *)
Definition nextSession (s t : UIStateManager) : Prop :=
  m_initialized t = false /\ m_resizing t = false /\
  st_groups (m_stateSettings t) = [] /\
  st_data (m_stateSettings t) = st_data (m_stateSettings s) /\
  rw_objectName (m_widget t) = rw_objectName (m_widget s).

(** ** Further scenarios on the sample toolkit *)

Module Scenario.

(** The manager a computation leaves when it returns ([s] itself when an
    assertion fails). *)
Definition after {A} (m : M A) (s : UIStateManager) : UIStateManager :=
  default s (exec m s).

(** The returning session with its settings group open, before anything
    is restored. *)
Definition opened : UIStateManager :=
  set_m_stateSettings
    (beginGroup "UiState/MainWindow" (m_stateSettings Sample.returning))
    (set_m_initialized true Sample.returning).

(** The returning session once shown. *)
Definition restored : UIStateManager :=
  after (eventFilter (H := Sample.qt) ObjRoot Show) Sample.returning.

(** The sample manager after the user resized a section of the header. *)
Definition headerDragged : UIStateManager :=
  set_headers [QHeaderView_setCustomized true Sample.treeHeader] Sample.shown.

(** A header that was given the name of the splitter. *)
Definition namesake : QHeaderView :=
  mkQHeaderView "mainSplitter" false 2
    (mkHeaderLayout Vertical [mkHeaderSection 20 Interactive 25] 300 150).

(** A session with three item views: the tree view 0, a list view 1 beside
    it, and a view 2 embedded in the tree view, each with a named header
    of one column for which a default size is registered. *)
Definition sideHeader : QHeaderView :=
  mkQHeaderView "sideHeader" false 1
    (mkHeaderLayout Horizontal [mkHeaderSection 10 Interactive 80] 200 100).

Definition innerHeader : QHeaderView :=
  mkQHeaderView "innerHeader" false 2
    (mkHeaderLayout Horizontal [mkHeaderSection 10 Interactive 80] 200 100).

Definition nestedViews : UIStateManager :=
  set_m_defaultHeaderSizes
    {["treeHeader" := Sample.headerDefaults;
      "sideHeader" := [VInt 55];
      "innerHeader" := [VInt 66]]}
    (set_m_initialized true
       (UIStateManager_new Sample.root ∅ [Sample.mainSplitter]
          [Sample.treeHeader; sideHeader; innerHeader])).

(** Settings of another part of the application. *)
Definition foreign : gmap string QByteArray := {["Probe/lastTool" := [x01]]}.

(** A first session from the constructor on: default sizes registered,
    the window shown, the splitter moved and a header section resized by
    the user. *)
Definition firstSessionOps : list Op :=
  [SetDefaultSplitterSizes 0 Sample.splitterDefaults;
   SetDefaultHeaderSizes 0 Sample.headerDefaults;
   Event ObjRoot Show;
   SplitterMoved 0;
   SectionResized 0 (Some true)].

Definition constructed : UIStateManager :=
  UIStateManager_new Sample.root foreign [Sample.mainSplitter] [Sample.treeHeader].

Definition firstSession : UIStateManager :=
  after (run (H := Sample.qt) firstSessionOps) constructed.

(** The widgets of that session after the restore of the defaults and the
    user's changes. *)
Definition movedSplitter : QSplitter :=
  mkQSplitter "mainSplitter" true
    (mkSplitterLayout Horizontal 200 100 2 3 [40; 92; 60]).

Definition resizedHeader : QHeaderView :=
  mkQHeaderView "treeHeader" true 0
    (mkHeaderLayout Horizontal
       [mkHeaderSection 100 Interactive 80;
        mkHeaderSection 10 Stretch 90;
        mkHeaderSection 70 Fixed 70]
       200 100).

(** The next session: constructed on what the first one left on disk. *)
Definition reopenedOn (s1 : UIStateManager) : UIStateManager :=
  Sample.session (st_data (m_stateSettings s1)).

End Scenario.

(** * Properties *)

(** ** Machine integers *)

Lemma wrap_in_range z : in_range z -> wrap z = z.
Proof.
  unfold in_range, wrap, min_int, max_int. intros Hz.
  rewrite Z.mod_small by lia. lia.
Qed.

Lemma int_add_exact a b : in_range (a + b) -> int_add a b = a + b.
Proof. apply wrap_in_range. Qed.

Lemma int_sub_exact a b : in_range (a - b) -> int_sub a b = a - b.
Proof. apply wrap_in_range. Qed.

Lemma int_mul_exact a b : in_range (a * b) -> int_mul a b = a * b.
Proof. apply wrap_in_range. Qed.

Lemma int_div_one a : in_range a -> int_div a 1 = a.
Proof. intros Ha. unfold int_div. rewrite Z.quot_1_r. by apply wrap_in_range. Qed.

Lemma abs_in_range z : Z.abs z <= max_int -> in_range z.
Proof. unfold in_range, min_int, max_int. lia. Qed.

(** ** Sums *)

Lemma sumZ_app l1 l2 : sumZ (l1 ++ l2) = sumZ l1 + sumZ l2.
Proof. induction l1 as [|x l1 IH]; simpl; [done | rewrite IH; lia]. Qed.

Lemma sumZ_abs_nonneg l : 0 <= sumZ (Z.abs <$> l).
Proof. induction l as [|x l IH]; csimpl; lia. Qed.

Lemma sumZ_abs_bound l : Z.abs (sumZ l) <= sumZ (Z.abs <$> l).
Proof. induction l as [|x l IH]; csimpl; lia. Qed.

(** ** distributeSpace *)

Lemma scanSizes_fixed l i its u :
  Forall (fun x => x ≠ -1) l ->
  Z.abs u + sumZ (Z.abs <$> l) <= max_int ->
  scanSizes l i its u = (its, u + sumZ l).
Proof.
  revert i u. induction l as [|x l IH]; intros i u Hne Hb; csimpl in *.
  - f_equal. lia.
  - inversion Hne as [|? ? Hx Hl]; subst.
    destruct (Z.eqb_spec x (-1)) as [->|_]; [done|].
    pose proof (sumZ_abs_nonneg l).
    rewrite int_add_exact by (apply abs_in_range; lia).
    rewrite IH by (try done; lia). f_equal. lia.
Qed.

Lemma scanSizes_one pre post i its u :
  Forall (fun x => x ≠ -1) pre ->
  Forall (fun x => x ≠ -1) post ->
  Z.abs u + sumZ (Z.abs <$> pre) + sumZ (Z.abs <$> post) <= max_int ->
  scanSizes (pre ++ -1 :: post) i its u
  = (its ++ [(i + length pre)%nat], u + sumZ pre + sumZ post).
Proof.
  revert i u. induction pre as [|x pre IH]; intros i u Hpre Hpost Hb; csimpl in *.
  - rewrite scanSizes_fixed by (try done; lia).
    by rewrite Nat.add_0_r, Z.add_0_r.
  - inversion Hpre as [|? ? Hx Hl]; subst.
    destruct (Z.eqb_spec x (-1)) as [->|_]; [done|].
    pose proof (sumZ_abs_nonneg pre). pose proof (sumZ_abs_nonneg post).
    rewrite int_add_exact by (apply abs_in_range; lia).
    rewrite IH by (try done; lia).
    f_equal; [|lia]. do 2 f_equal. lia.
Qed.

(** With one entry equal to [-1], that entry receives all the free space. *)
Lemma distributeSpace_one pre post size handleSize :
  Forall (fun x => x ≠ -1) pre ->
  Forall (fun x => x ≠ -1) post ->
  Z.abs size + sumZ (Z.abs <$> pre) + sumZ (Z.abs <$> post)
    + (Z.of_nat (length (pre ++ -1 :: post)) + 1) * Z.abs handleSize <= max_int ->
  distributeSpace (pre ++ -1 :: post) size handleSize
  = pre ++ (size - (sumZ pre + sumZ post)
            - (Z.of_nat (length (pre ++ -1 :: post)) + 1) * handleSize) :: post.
Proof.
  intros Hpre Hpost Hb. unfold distributeSpace.
  set (n := Z.of_nat (length (pre ++ -1 :: post))) in *.
  assert (0 <= n) by lia.
  pose proof (sumZ_abs_nonneg pre). pose proof (sumZ_abs_nonneg post).
  pose proof (sumZ_abs_bound pre). pose proof (sumZ_abs_bound post).
  assert (n * Z.abs handleSize = Z.abs (n * handleSize)) as Hnh
    by (rewrite Z.abs_mul; f_equal; lia).
  rewrite scanSizes_one by (try done; nia). simpl.
  rewrite (int_sub_exact size) by (apply abs_in_range; nia).
  rewrite int_mul_exact by (apply abs_in_range; nia).
  rewrite (int_sub_exact (size - _)) by (apply abs_in_range; nia).
  rewrite (int_sub_exact (size - _ - _)) by (apply abs_in_range; nia).
  rewrite int_div_one by (apply abs_in_range; nia).
  replace (length pre) with (length pre + 0)%nat at 1 by lia.
  rewrite insert_app_r. simpl. do 2 f_equal. lia.
Qed.

(** ** The monad *)

Ltac unfold_M :=
  unfold settings_value, settings_setValue, log, when, Q_ASSERT, modify, gets,
    bind, ret in *.

Section ManagerFacts.
Context `{Qt}.

Lemma bind_Ok {A B} (m : M A) (k : A -> M B) s a s' :
  m s = Ok (a, s') -> bind m k s = k a s'.
Proof. intros Hm. unfold bind. by rewrite Hm. Qed.

Lemma bind_inv {A B} (m : M A) (k : A -> M B) s b s' :
  bind m k s = Ok (b, s') ->
  exists a s1, m s = Ok (a, s1) /\ k a s1 = Ok (b, s').
Proof.
  unfold bind. destruct (m s) as [[a s1]|e]; [eauto | done].
Qed.

Lemma checkWidget_named name s :
  QString_isEmpty name = false -> checkWidget name s = Ok (true, s).
Proof. intros Hn. unfold checkWidget. by rewrite Hn. Qed.

Lemma checkWidget_unnamed name s :
  QString_isEmpty name = true ->
  checkWidget name s = Ok (false, set_trace (trace s ++ [Warn_noName]) s).
Proof. intros Hn. unfold checkWidget. by rewrite Hn. Qed.

(** *** The loop over the default sizes of a splitter *)

Lemma foldM_splitterSize l spec acc s :
  Forall (fun v => isSizeEntry v = true) spec ->
  foldM (splitterSize l) spec acc s = Ok (acc ++ (resolvedSize l <$> spec), s).
Proof.
  revert acc. induction spec as [|v spec IH]; intros acc Hs; csimpl.
  - unfold ret. by rewrite app_nil_r.
  - inversion Hs as [|? ? Hv Hrest]; subst.
    assert (splitterSize l acc v s = Ok (acc ++ [resolvedSize l v], s)) as Hstep.
    { destruct v as [n|str|]; simpl in *; [done| |done].
      destruct (percentToInt str =? -1); [done|].
      by destruct (sl_orientation l). }
    rewrite (bind_Ok _ _ _ _ _ Hstep), IH by done.
    by rewrite <- app_assoc.
Qed.

Lemma restoreSplitter_defaults s w spec :
  QString_isEmpty (sp_objectName w) = false ->
  value (widgetStateKey (sp_objectName w)) (m_stateSettings s) = [] ->
  m_defaultSplitterSizes s !! sp_objectName w = Some spec ->
  spec ≠ [] ->
  length spec = sl_count (sp_layout w) ->
  Forall (fun v => isSizeEntry v = true) spec ->
  restoreSplitter w s
  = Ok (QSplitter_setSizes
          (distributeSpace (resolvedSize (sp_layout w) <$> spec)
             (splitterExtent (sp_layout w)) (sl_handleWidth (sp_layout w))) w,
        set_trace
          (trace s ++ [Settings_value
                         (fullKey (m_stateSettings s)
                            (widgetStateKey (sp_objectName w)))]) s).
Proof.
  intros Hname Hval Hspec Hne Hlen Hty. unfold restoreSplitter.
  rewrite (bind_Ok _ _ _ _ _ (checkWidget_named _ _ Hname)). simpl.
  unfold settings_value at 1. unfold_M. simpl. rewrite Hval. simpl.
  unfold defaultSizes_splitter. unfold_M. rewrite checkWidget_named by done.
  simpl. rewrite Hspec. simpl.
  destruct spec as [|v spec]; [done|].
  change (negb (UISizeVector_isEmpty (v :: spec))) with true. cbv beta iota.
  rewrite Hlen, Nat.eqb_refl.
  rewrite foldM_splitterSize by done. done.
Qed.

(** *** Computations that only append to the trace *)

Lemma set_trace_id s : set_trace (trace s) s = s.
Proof. by destruct s. Qed.

Lemma writtenKeys_app t1 t2 : writtenKeys (t1 ++ t2) = writtenKeys t1 ++ writtenKeys t2.
Proof. unfold writtenKeys. apply omap_app. Qed.

Lemma storeAccesses_app t1 t2 :
  storeAccesses (t1 ++ t2) = storeAccesses t1 ++ storeAccesses t2.
Proof. unfold storeAccesses. apply filter_app. Qed.

Lemma readOnly_ret {A} (a : A) : readOnly (ret a).
Proof.
  intros s. left. exists a, []. split; [done|]. intros t0.
  unfold ret. by rewrite app_nil_r.
Qed.

Lemma readOnly_bind {A B} (m : M A) (k : A -> M B) :
  readOnly m -> (forall a, readOnly (k a)) -> readOnly (bind m k).
Proof.
  intros Hm Hk s. destruct (Hm s) as [(a & t & Hw & Hrun)|(e & Hrun)].
  - destruct (Hk a s) as [(b & t' & Hw' & Hrun')|(e & Hrun')].
    + left. exists b, (t ++ t'). split.
      { by rewrite writtenKeys_app, Hw, Hw'. }
      intros t0. unfold bind. rewrite Hrun, Hrun'. by rewrite app_assoc.
    + right. exists e. intros t0. unfold bind. by rewrite Hrun, Hrun'.
  - right. exists e. intros t0. unfold bind. by rewrite Hrun.
Qed.

Lemma readOnly_gets {A} (f : UIStateManager -> A) :
  (forall t s, f (set_trace t s) = f s) -> readOnly (gets f).
Proof.
  intros Hf s. left. exists (f s), []. split; [done|]. intros t0.
  unfold gets. by rewrite Hf, app_nil_r.
Qed.

Lemma readOnly_log a :
  (forall k v, a ≠ Settings_setValue k v) -> readOnly (log a).
Proof.
  intros Ha s. left. exists tt, [a]. split.
  - destruct a; try done. by destruct (Ha key v).
  - done.
Qed.

Lemma readOnly_Q_ASSERT which cond : readOnly (Q_ASSERT which cond).
Proof.
  intros s. unfold Q_ASSERT. destruct cond.
  - left. exists tt, []. split; [done|]. intros t0. by rewrite app_nil_r.
  - right. by exists which.
Qed.

Lemma readOnly_mapM {A B} (f : A -> M B) l :
  (forall x, readOnly (f x)) -> readOnly (mapM f l).
Proof.
  intros Hf. induction l as [|x l IH]; simpl.
  - apply readOnly_ret.
  - apply readOnly_bind; [done|]. intros y.
    apply readOnly_bind; [done|]. intros ys. apply readOnly_ret.
Qed.

Lemma readOnly_foldM {A B} (f : B -> A -> M B) l b :
  (forall b x, readOnly (f b x)) -> readOnly (foldM f l b).
Proof.
  intros Hf. revert b. induction l as [|x l IH]; intros b; simpl.
  - apply readOnly_ret.
  - apply readOnly_bind; [done|]. intros b'. apply IH.
Qed.

Lemma readOnly_checkWidget name : readOnly (checkWidget name).
Proof.
  unfold checkWidget. destruct (QString_isEmpty name).
  - apply readOnly_bind; [by apply readOnly_log|]. intros _. apply readOnly_ret.
  - apply readOnly_ret.
Qed.

Lemma readOnly_settings_value key : readOnly (settings_value key).
Proof.
  unfold settings_value. apply readOnly_bind; [by apply readOnly_gets|].
  intros st. apply readOnly_bind; [by apply readOnly_log|]. intros _.
  apply readOnly_ret.
Qed.

Lemma readOnly_defaultSizes_splitter w : readOnly (defaultSizes_splitter w).
Proof.
  unfold defaultSizes_splitter. apply readOnly_bind; [apply readOnly_checkWidget|].
  intros []; [by apply readOnly_gets | apply readOnly_ret].
Qed.

Lemma readOnly_defaultSizes_header h : readOnly (defaultSizes_header h).
Proof.
  unfold defaultSizes_header. apply readOnly_bind; [apply readOnly_checkWidget|].
  intros []; [by apply readOnly_gets | apply readOnly_ret].
Qed.

Lemma readOnly_splitterSize l sizes size : readOnly (splitterSize l sizes size).
Proof.
  destruct size as [n|str|]; simpl.
  - apply readOnly_ret.
  - destruct (percentToInt str =? -1); [apply readOnly_ret|].
    destruct (sl_orientation l); apply readOnly_ret.
  - apply readOnly_bind; [apply readOnly_Q_ASSERT|]. intros _. apply readOnly_ret.
Qed.

Lemma readOnly_restoreSplitter w : readOnly (restoreSplitter w).
Proof.
  unfold restoreSplitter. apply readOnly_bind; [apply readOnly_checkWidget|].
  intros ok. destruct (negb ok); [apply readOnly_ret|].
  apply readOnly_bind; [apply readOnly_settings_value|]. intros state.
  destruct (QByteArray_isEmpty state).
  - apply readOnly_bind; [apply readOnly_defaultSizes_splitter|]. intros spec.
    destruct (negb (UISizeVector_isEmpty spec)); [|apply readOnly_ret].
    apply readOnly_bind; [apply readOnly_Q_ASSERT|]. intros _.
    apply readOnly_bind; [|intros; apply readOnly_ret].
    apply readOnly_foldM. intros. apply readOnly_splitterSize.
  - apply readOnly_bind; [by apply readOnly_gets|]. intros resizing.
    destruct (negb resizing); apply readOnly_ret.
Qed.

Lemma readOnly_headerSize l it : readOnly (headerSize l it).
Proof.
  destruct it as [n|str|]; simpl.
  - apply readOnly_ret.
  - destruct (percentToInt str =? -1); [apply readOnly_ret|].
    destruct (hl_orientation l); apply readOnly_ret.
  - apply readOnly_bind; [apply readOnly_Q_ASSERT|]. intros _. apply readOnly_ret.
Qed.

Lemma readOnly_headerColumn acc it : readOnly (headerColumn acc it).
Proof.
  destruct acc as [i header]. unfold headerColumn.
  apply readOnly_bind; [apply readOnly_headerSize|]. intros size.
  destruct (QHeaderView_sectionResizeMode header i); apply readOnly_ret.
Qed.

Lemma readOnly_restoreHeader h : readOnly (restoreHeader h).
Proof.
  unfold restoreHeader. apply readOnly_bind; [apply readOnly_checkWidget|].
  intros ok. destruct (negb ok || _); [apply readOnly_ret|].
  apply readOnly_bind; [apply readOnly_settings_value|]. intros state.
  destruct (QByteArray_isEmpty state).
  - apply readOnly_bind; [apply readOnly_defaultSizes_header|]. intros spec.
    destruct (negb (UISizeVector_isEmpty spec)); [|apply readOnly_ret].
    apply readOnly_bind; [apply readOnly_Q_ASSERT|]. intros _.
    apply readOnly_bind; [|intros; apply readOnly_ret].
    apply readOnly_foldM. intros. apply readOnly_headerColumn.
  - apply readOnly_bind; [by apply readOnly_gets|]. intros resizing.
    destruct (negb resizing); apply readOnly_ret.
Qed.

Lemma mapM_readOnly {A B} (f : A -> M B) l s :
  (forall x, readOnly (f x)) ->
  (exists rs : list (B * list Action),
     Forall (fun r => writtenKeys r.2 = []) rs /\
     (forall t0, mapM f l (set_trace t0 s)
                 = Ok (rs.*1, set_trace (t0 ++ concat rs.*2) s)) /\
     Forall2 (fun x r =>
                forall t0, f x (set_trace t0 s) = Ok (r.1, set_trace (t0 ++ r.2) s))
       l rs)
  \/ (exists e x, x ∈ l /\
        (forall t0, mapM f l (set_trace t0 s) = AssertFailed e) /\
        (forall t0, f x (set_trace t0 s) = AssertFailed e)).
Proof.
  intros Hf. induction l as [|x l IH]; simpl.
  - left. exists []. split; [constructor|]. split; [|constructor].
    intros t0. unfold ret. simpl. by rewrite app_nil_r.
  - destruct (Hf x s) as [(y & t & Hw & Hrun)|(e & Hrun)].
    + destruct IH as [(rs & Hw' & Hrun' & Hall)|(e & z & Hz & Hrun' & Hfz)].
      * left. exists ((y, t) :: rs). split; [by constructor|].
        split; [|by constructor].
        intros t0. unfold bind. rewrite Hrun, Hrun'. unfold ret. simpl.
        by rewrite app_assoc.
      * right. exists e, z. split; [by apply list_elem_of_further|].
        split; [|done]. intros t0. unfold bind. by rewrite Hrun, Hrun'.
    + right. exists e, x. split; [by apply list_elem_of_here|].
      split; [|done]. intros t0. unfold bind. by rewrite Hrun.
Qed.

(** A read-only loop that returns has run its body on every element, each
    as from the initial state, and its trace is theirs in order. *)
Lemma mapM_readOnly_inv {A B} (f : A -> M B) l s l' s' :
  (forall x, readOnly (f x)) ->
  mapM f l s = Ok (l', s') ->
  exists rs : list (B * list Action),
    l' = rs.*1 /\ s' = set_trace (trace s ++ concat rs.*2) s /\
    Forall (fun r => writtenKeys r.2 = []) rs /\
    Forall2 (fun x r => f x s = Ok (r.1, set_trace (trace s ++ r.2) s)) l rs.
Proof.
  intros Hf Hrun. destruct (mapM_readOnly f l s Hf)
    as [(rs & Hw & Hrun' & Hall)|(e & x & Hx & Hrun' & _)];
    specialize (Hrun' (trace s)); rewrite set_trace_id in Hrun'; [|congruence].
  exists rs. rewrite Hrun in Hrun'. injection Hrun' as -> ->.
  repeat (split; [done|]).
  eapply Forall2_impl; [exact Hall|]. intros x r Hxr.
  specialize (Hxr (trace s)). by rewrite set_trace_id in Hxr.
Qed.

Lemma mapM_readOnly_fail {A B} (f : A -> M B) l s e :
  (forall x, readOnly (f x)) ->
  mapM f l s = AssertFailed e ->
  exists x, x ∈ l /\ f x s = AssertFailed e.
Proof.
  intros Hf Hfail. destruct (mapM_readOnly f l s Hf)
    as [(rs & _ & Hrun & _)|(e' & x & Hx & Hrun & Hfx)].
  - specialize (Hrun (trace s)). rewrite set_trace_id in Hrun. congruence.
  - specialize (Hrun (trace s)). specialize (Hfx (trace s)).
    rewrite set_trace_id in Hrun, Hfx. exists x. split; [done|]. congruence.
Qed.

(** A read-only loop over widgets succeeds as soon as its body succeeds on
    every widget, and then treats each widget as the body alone would. *)
Lemma mapM_readOnly_Ok {A B} (f : A -> M B) l s :
  (forall x, readOnly (f x)) ->
  (forall x, x ∈ l -> exists r, f x s = Ok r) ->
  exists l' t, writtenKeys t = [] /\
    mapM f l s = Ok (l', set_trace (trace s ++ t) s) /\
    Forall2 (fun x y => exists t', f x s = Ok (y, set_trace (trace s ++ t') s)) l l'.
Proof.
  intros Hf Hok. destruct (mapM f l s) as [[l' s']|e] eqn:Hrun.
  - destruct (mapM_readOnly_inv f l s l' s' Hf Hrun) as (rs & -> & -> & Hw & Hall).
    exists (rs.*1), (concat rs.*2). split; [|split; [done|]].
    + clear Hall Hrun. induction Hw as [|r rs Hr _ IH]; [done|].
      csimpl. by rewrite writtenKeys_app, Hr, IH.
    + apply Forall2_fmap_r. eapply Forall2_impl; [exact Hall|].
      intros x r Hxr. by exists r.2.
  - destruct (mapM_readOnly_fail f l s e Hf Hrun) as (x & Hx & Hfx).
    destruct (Hok x Hx) as [r Hr]. congruence.
Qed.

Lemma readOnly_inv {A} (m : M A) s a s' :
  readOnly m -> m s = Ok (a, s') ->
  exists t, writtenKeys t = [] /\ s' = set_trace (trace s ++ t) s.
Proof.
  intros Hm Hrun. destruct (Hm s) as [(a' & t & Hw & Hrun')|(e & Hrun')];
    specialize (Hrun' (trace s)); rewrite set_trace_id in Hrun'; [|congruence].
  exists t. split; [done|]. congruence.
Qed.

(** *** The cases of the body of restoreSplitterState *)

Lemma restoreSplitter_unnamed s w :
  QString_isEmpty (sp_objectName w) = true ->
  restoreSplitter w s = Ok (w, set_trace (trace s ++ [Warn_noName]) s).
Proof.
  intros Hname. unfold restoreSplitter.
  by rewrite (bind_Ok _ _ _ _ _ (checkWidget_unnamed _ _ Hname)).
Qed.

Lemma restoreSplitter_stored s w :
  QString_isEmpty (sp_objectName w) = false ->
  value (widgetStateKey (sp_objectName w)) (m_stateSettings s) ≠ [] ->
  restoreSplitter w s
  = Ok (if m_resizing s then w
        else QSplitter_setCustomized true
               (QSplitter_setLayout
                  (QSplitter_restoreState
                     (value (widgetStateKey (sp_objectName w)) (m_stateSettings s))
                     (sp_layout w)) w),
        set_trace (trace s ++ [readAction s (sp_objectName w)]) s).
Proof.
  intros Hname Hval. unfold restoreSplitter.
  rewrite (bind_Ok _ _ _ _ _ (checkWidget_named _ _ Hname)). simpl.
  unfold_M. simpl.
  destruct (value _ _) as [|b bs] eqn:Hb; [done|]. simpl.
  by destruct (m_resizing s).
Qed.

Lemma restoreSplitter_nothing s w :
  QString_isEmpty (sp_objectName w) = false ->
  value (widgetStateKey (sp_objectName w)) (m_stateSettings s) = [] ->
  default [] (m_defaultSplitterSizes s !! sp_objectName w) = [] ->
  restoreSplitter w s
  = Ok (w, set_trace (trace s ++ [readAction s (sp_objectName w)]) s).
Proof.
  intros Hname Hval Hspec. unfold restoreSplitter.
  rewrite (bind_Ok _ _ _ _ _ (checkWidget_named _ _ Hname)). simpl.
  unfold settings_value at 1. unfold_M. simpl. rewrite Hval. simpl.
  unfold defaultSizes_splitter. unfold_M. rewrite checkWidget_named by done.
  simpl. by rewrite Hspec.
Qed.

Lemma restoreSplitter_mismatch s w :
  QString_isEmpty (sp_objectName w) = false ->
  value (widgetStateKey (sp_objectName w)) (m_stateSettings s) = [] ->
  default [] (m_defaultSplitterSizes s !! sp_objectName w) ≠ [] ->
  length (default [] (m_defaultSplitterSizes s !! sp_objectName w))
    ≠ sl_count (sp_layout w) ->
  restoreSplitter w s = AssertFailed Assert_splitterCount.
Proof.
  intros Hname Hval Hspec Hlen. unfold restoreSplitter.
  rewrite (bind_Ok _ _ _ _ _ (checkWidget_named _ _ Hname)). simpl.
  unfold settings_value at 1. unfold_M. simpl. rewrite Hval. simpl.
  unfold defaultSizes_splitter. unfold_M. rewrite checkWidget_named by done.
  simpl. destruct (default _ _) as [|v spec]; [done|].
  change (negb (UISizeVector_isEmpty (v :: spec))) with true. cbv beta iota.
  apply Nat.eqb_neq in Hlen. by rewrite Hlen.
Qed.

Lemma default_lookup_Some {A} (m : gmap string (list A)) k :
  default [] (m !! k) ≠ [] -> m !! k = Some (default [] (m !! k)).
Proof. by destruct (m !! k). Qed.

(** With fitting default sizes the body returns. *)
Lemma restoreSplitter_Ok s w :
  splitterSpecOk s w -> exists r, restoreSplitter w s = Ok r.
Proof.
  intros Hok.
  destruct (QString_isEmpty (sp_objectName w)) eqn:Hname.
  { rewrite restoreSplitter_unnamed by done. eauto. }
  destruct (decide (value (widgetStateKey (sp_objectName w)) (m_stateSettings s)
                    = [])) as [Hval|Hval].
  2: { rewrite restoreSplitter_stored by done. eauto. }
  destruct Hok as [Hnil|[Hlen Hty]].
  { rewrite restoreSplitter_nothing by done. eauto. }
  destruct (decide (default [] (m_defaultSplitterSizes s !! sp_objectName w) = []))
    as [Hnil|Hne].
  { rewrite restoreSplitter_nothing by done. eauto. }
  erewrite restoreSplitter_defaults; eauto using default_lookup_Some.
Qed.

Lemma restoreSplitterState_None s :
  restoreSplitterState None s
  = match mapM restoreSplitter (splitters s) s with
    | Ok (all', s') => Ok (tt, set_splitters all' s')
    | AssertFailed e => AssertFailed e
    end.
Proof. done. Qed.

Lemma specOk_nonempty spec count :
  specOk spec count -> spec ≠ [] ->
  length spec = count /\ Forall (fun v => isSizeEntry v = true) spec.
Proof. by intros [?|?]. Qed.

(** C1: for a named splitter without a persisted state blob whose registered
    default sizes hold exactly one wildcard (one entry resolving to -1),
    restoreSplitterState gives the wildcard pane
    extent - sum(fixed sizes) - (N+1) * handleWidth and leaves the other
    entries as resolved, so that the applied sizes plus N+1 handle widths add
    up to the extent of the splitter (its width when horizontal, its height
    when vertical). The sizes are assumed small enough for 32-bit
    arithmetic not to overflow. *)
Theorem restoreSplitterState_wildcard s k w spec i :
  let l := sp_layout w in
  let resolved := resolvedSize l <$> spec in
  let fixed := delete i resolved in
  let N := Z.of_nat (sl_count l) in
  splitters s !! k = Some w ->
  QString_isEmpty (sp_objectName w) = false ->
  value (widgetStateKey (sp_objectName w)) (m_stateSettings s) = [] ->
  m_defaultSplitterSizes s !! sp_objectName w = Some spec ->
  Forall (splitterSpecOk s) (splitters s) ->
  resolved !! i = Some (-1) ->
  Forall (fun x => x ≠ -1) fixed ->
  Z.abs (splitterExtent l) + sumZ (Z.abs <$> fixed)
    + (N + 1) * Z.abs (sl_handleWidth l) <= max_int ->
  exists s' w',
    restoreSplitterState None s = Ok (tt, s') /\
    splitters s' !! k = Some w' /\
    sl_sizes (sp_layout w')
    = <[i := splitterExtent l - sumZ fixed - (N + 1) * sl_handleWidth l]> resolved /\
    sumZ (sl_sizes (sp_layout w')) + (N + 1) * sl_handleWidth l = splitterExtent l.
Proof.
  intros l resolved fixed N Hk Hname Hval Hspec Hall Hwild Hfixed Hbound.
  assert (spec ≠ []) as Hne.
  { intros ->. by subst resolved. }
  assert (splitterSpecOk s w) as Hw.
  { rewrite Forall_forall in Hall. apply Hall. by eapply list_elem_of_lookup_2. }
  unfold splitterSpecOk in Hw. rewrite Hspec in Hw. simpl in Hw.
  destruct (specOk_nonempty _ _ Hw Hne) as [Hlen Hty].
  destruct (mapM_readOnly_Ok restoreSplitter (splitters s) s)
    as (all' & t & _ & Hrun & Hbody).
  { apply readOnly_restoreSplitter. }
  { intros x Hx. apply restoreSplitter_Ok. rewrite Forall_forall in Hall. auto. }
  destruct (Forall2_lookup_l _ _ _ _ _ Hbody Hk) as (w' & Hk' & t' & Hw').
  rewrite (restoreSplitter_defaults s w spec) in Hw' by done.
  injection Hw' as Hw' _.
  exists (set_splitters all' (set_trace (trace s ++ t) s)), w'.
  split; [by rewrite restoreSplitterState_None, Hrun|]. split; [done|].
  fold l resolved in Hw'.
  assert (resolved = take i resolved ++ -1 :: drop (S i) resolved) as Hsplit
    by (by rewrite take_drop_middle).
  assert (fixed = take i resolved ++ drop (S i) resolved) as Hfix
    by apply delete_take_drop.
  assert (length resolved = sl_count l) as Hlenr
    by (subst resolved; by rewrite length_fmap).
  assert (length (take i resolved) = i) as Hleni.
  { apply length_take_le. apply lookup_lt_Some in Hwild. lia. }
  rewrite Hfix in Hfixed. apply Forall_app in Hfixed as [Hpre Hpost].
  rewrite Hfix, fmap_app, sumZ_app in Hbound.
  assert (sl_sizes (sp_layout w')
          = take i resolved
            ++ (splitterExtent l - sumZ fixed - (N + 1) * sl_handleWidth l)
            :: drop (S i) resolved) as Hsizes.
  { subst w'. simpl. rewrite Hsplit at 1.
    rewrite distributeSpace_one; [|done|done|].
    - rewrite <- Hsplit, Hlenr. by rewrite Hfix, sumZ_app.
    - rewrite <- Hsplit, Hlenr. fold N. lia. }
  split.
  - rewrite Hsizes. symmetry. apply insert_take_drop.
    by eapply lookup_lt_Some.
  - rewrite Hsizes, sumZ_app. simpl. rewrite Hfix, sumZ_app. lia.
Qed.

(** *** The column loop of restoreHeaderState *)

Lemma headerSize_Ok l it s :
  isSizeEntry it = true -> headerSize l it s = Ok (resolvedHeaderSize l it, s).
Proof.
  destruct it as [n|str|]; simpl; [done| |done]. intros _.
  destruct (percentToInt str =? -1); [done|]. by destruct (hl_orientation l).
Qed.

Lemma headerColumn_Ok i h it :
  isSizeEntry it = true ->
  exists h',
    (forall s, headerColumn (i, h) it s = Ok ((S i, h'), s)) /\
    hv_objectName h' = hv_objectName h /\
    hv_customized h' = hv_customized h /\
    hv_view h' = hv_view h /\
    (forall it', resolvedHeaderSize (hv_layout h') it'
                 = resolvedHeaderSize (hv_layout h) it') /\
    hl_sections (hv_layout h')
    = alter (defaultSection (resolvedHeaderSize (hv_layout h) it)) i
        (hl_sections (hv_layout h)).
Proof.
  intros Hit.
  assert (forall (k : Z -> M (nat * QHeaderView)) s,
            bind (headerSize (hv_layout h) it) k s
            = k (resolvedHeaderSize (hv_layout h) it) s) as Hsize.
  { intros k s. by rewrite (bind_Ok _ _ _ _ _ (headerSize_Ok _ _ _ Hit)). }
  unfold headerColumn.
  unfold QHeaderView_sectionResizeMode, QHeaderView_sectionSizeHint.
  destruct (hl_sections (hv_layout h) !! i) as [sec|] eqn:Hsec; simpl.
  - assert (forall f g : HeaderSection -> HeaderSection,
              f sec = g sec ->
              alter f i (hl_sections (hv_layout h))
              = alter g i (hl_sections (hv_layout h))) as Halter.
    { intros f g Hfg. apply list_eq. intros j.
      destruct (decide (i = j)) as [<-|Hij].
      - by rewrite !list_lookup_alter_eq, Hsec; simpl; f_equal.
      - by rewrite !list_lookup_alter_ne. }
    destruct (sec_resizeMode sec) eqn:Hmode;
      (eexists; split; [intros s; rewrite Hsize; reflexivity|];
       repeat (split; [done|]); simpl).
    + apply Halter. unfold defaultSection. by rewrite Hmode.
    + rewrite <- (list_alter_id id (hl_sections (hv_layout h)) i) at 1 by done.
      apply Halter. unfold defaultSection. by rewrite Hmode.
    + apply Halter. unfold defaultSection. by rewrite Hmode.
    + rewrite <- (list_alter_id id (hl_sections (hv_layout h)) i) at 1 by done.
      apply Halter. unfold defaultSection. by rewrite Hmode.
  - eexists; split; [intros s; rewrite Hsize; reflexivity|];
      repeat (split; [done|]); simpl.
    apply list_eq. intros j. destruct (decide (i = j)) as [<-|Hij].
    + by rewrite !list_lookup_alter_eq, Hsec.
    + by rewrite !list_lookup_alter_ne.
Qed.

Lemma foldM_headerColumn spec i h :
  Forall (fun v => isSizeEntry v = true) spec ->
  exists h',
    (forall s, foldM headerColumn spec (i, h) s
               = Ok ((i + length spec, h')%nat, s)) /\
    hv_objectName h' = hv_objectName h /\
    hv_customized h' = hv_customized h /\
    hv_view h' = hv_view h /\
    forall j,
      hl_sections (hv_layout h') !! j
      = (fun sec =>
           match (if decide (i <= j)%nat then spec !! (j - i)%nat else None) with
           | Some it => defaultSection (resolvedHeaderSize (hv_layout h) it) sec
           | None => sec
           end) <$> hl_sections (hv_layout h) !! j.
Proof.
  revert i h. induction spec as [|it spec IH]; intros i h Hty; simpl.
  - exists h. rewrite Nat.add_0_r. repeat (split; [done|]). intros j.
    destruct (hl_sections (hv_layout h) !! j); simpl; [|done].
    by destruct (decide (i <= j)%nat).
  - inversion Hty as [|? ? Hit Hrest]; subst.
    destruct (headerColumn_Ok i h it Hit)
      as (h1 & Hrun & Hn1 & Hc1 & Hv1 & Hres1 & Hsec1).
    destruct (IH (S i) h1 Hrest) as (h' & Hrun' & Hn' & Hc' & Hv' & Hsec').
    exists h'. split.
    { intros s. rewrite (bind_Ok _ _ _ _ _ (Hrun s)), Hrun'. do 3 f_equal. lia. }
    split; [congruence|]. split; [congruence|]. split; [congruence|].
    intros j. rewrite Hsec', Hsec1.
    destruct (decide (i = j)) as [<-|Hij].
    + rewrite list_lookup_alter_eq.
      destruct (hl_sections (hv_layout h) !! i) as [sec|]; simpl; [|done].
      rewrite decide_False by lia. rewrite decide_True by lia.
      by rewrite Nat.sub_diag.
    + rewrite list_lookup_alter_ne by done.
      destruct (hl_sections (hv_layout h) !! j) as [sec|]; simpl; [|done].
      f_equal. destruct (decide (S i <= j)%nat) as [Hle|Hle].
      * rewrite decide_True by lia.
        replace (j - i)%nat with (S (j - S i)) by lia. simpl.
        destruct (spec !! (j - S i)%nat); [|done]. by rewrite Hres1.
      * by rewrite decide_False by lia.
Qed.

(** *** The cases of the body of restoreHeaderState *)

Lemma restoreHeader_unnamed s h :
  QString_isEmpty (hv_objectName h) = true ->
  restoreHeader h s = Ok (h, set_trace (trace s ++ [Warn_noName]) s).
Proof.
  intros Hname. unfold restoreHeader.
  by rewrite (bind_Ok _ _ _ _ _ (checkWidget_unnamed _ _ Hname)).
Qed.

Lemma restoreHeader_empty s h :
  QString_isEmpty (hv_objectName h) = false ->
  QHeaderView_count h = 0%nat ->
  restoreHeader h s = Ok (h, s).
Proof.
  intros Hname Hcount. unfold restoreHeader.
  rewrite (bind_Ok _ _ _ _ _ (checkWidget_named _ _ Hname)).
  by rewrite Hcount.
Qed.

Lemma restoreHeader_stored s h :
  QString_isEmpty (hv_objectName h) = false ->
  QHeaderView_count h ≠ 0%nat ->
  value (widgetStateKey (hv_objectName h)) (m_stateSettings s) ≠ [] ->
  restoreHeader h s
  = Ok (if m_resizing s then h
        else QHeaderView_setCustomized true
               (QHeaderView_setLayout
                  (QHeaderView_restoreState
                     (value (widgetStateKey (hv_objectName h)) (m_stateSettings s))
                     (hv_layout h)) h),
        set_trace (trace s ++ [readAction s (hv_objectName h)]) s).
Proof.
  intros Hname Hcount Hval. unfold restoreHeader.
  rewrite (bind_Ok _ _ _ _ _ (checkWidget_named _ _ Hname)).
  apply Nat.eqb_neq in Hcount. rewrite Hcount. simpl.
  unfold_M. simpl.
  destruct (value _ _) as [|b bs] eqn:Hb; [done|]. simpl.
  by destruct (m_resizing s).
Qed.

Lemma restoreHeader_nothing s h :
  QString_isEmpty (hv_objectName h) = false ->
  QHeaderView_count h ≠ 0%nat ->
  value (widgetStateKey (hv_objectName h)) (m_stateSettings s) = [] ->
  default [] (m_defaultHeaderSizes s !! hv_objectName h) = [] ->
  restoreHeader h s
  = Ok (h, set_trace (trace s ++ [readAction s (hv_objectName h)]) s).
Proof.
  intros Hname Hcount Hval Hspec. unfold restoreHeader.
  rewrite (bind_Ok _ _ _ _ _ (checkWidget_named _ _ Hname)).
  apply Nat.eqb_neq in Hcount. rewrite Hcount. simpl.
  unfold settings_value at 1. unfold_M. simpl. rewrite Hval. simpl.
  unfold defaultSizes_header. unfold_M. rewrite checkWidget_named by done.
  simpl. by rewrite Hspec.
Qed.

Lemma restoreHeader_mismatch s h :
  QString_isEmpty (hv_objectName h) = false ->
  QHeaderView_count h ≠ 0%nat ->
  value (widgetStateKey (hv_objectName h)) (m_stateSettings s) = [] ->
  default [] (m_defaultHeaderSizes s !! hv_objectName h) ≠ [] ->
  length (default [] (m_defaultHeaderSizes s !! hv_objectName h))
    ≠ QHeaderView_count h ->
  restoreHeader h s = AssertFailed Assert_headerCount.
Proof.
  intros Hname Hcount Hval Hspec Hlen. unfold restoreHeader.
  rewrite (bind_Ok _ _ _ _ _ (checkWidget_named _ _ Hname)).
  apply Nat.eqb_neq in Hcount. rewrite Hcount. simpl.
  unfold settings_value at 1. unfold_M. simpl. rewrite Hval. simpl.
  unfold defaultSizes_header. unfold_M. rewrite checkWidget_named by done.
  simpl. destruct (default _ _) as [|v spec]; [done|].
  change (negb (UISizeVector_isEmpty (v :: spec))) with true. cbv beta iota.
  apply Nat.eqb_neq in Hlen. by rewrite Hlen.
Qed.

Lemma restoreHeader_defaults s h spec :
  QString_isEmpty (hv_objectName h) = false ->
  QHeaderView_count h ≠ 0%nat ->
  value (widgetStateKey (hv_objectName h)) (m_stateSettings s) = [] ->
  m_defaultHeaderSizes s !! hv_objectName h = Some spec ->
  spec ≠ [] ->
  length spec = QHeaderView_count h ->
  Forall (fun v => isSizeEntry v = true) spec ->
  exists h',
    restoreHeader h s
    = Ok (h', set_trace (trace s ++ [readAction s (hv_objectName h)]) s) /\
    hv_objectName h' = hv_objectName h /\
    hv_customized h' = hv_customized h /\
    hv_view h' = hv_view h /\
    forall j,
      hl_sections (hv_layout h') !! j
      = (fun sec =>
           match spec !! j with
           | Some it => defaultSection (resolvedHeaderSize (hv_layout h) it) sec
           | None => sec
           end) <$> hl_sections (hv_layout h) !! j.
Proof.
  intros Hname Hcount Hval Hspec Hne Hlen Hty.
  destruct (foldM_headerColumn spec 0 h Hty)
    as (h' & Hrun & Hn & Hc & Hv & Hsec).
  exists h'. split; [|repeat (split; [done|])].
  - unfold restoreHeader.
    rewrite (bind_Ok _ _ _ _ _ (checkWidget_named _ _ Hname)).
    apply Nat.eqb_neq in Hcount. rewrite Hcount. simpl.
    unfold settings_value at 1. unfold_M. simpl. rewrite Hval. simpl.
    unfold defaultSizes_header. unfold_M. rewrite checkWidget_named by done.
    simpl. rewrite Hspec. simpl.
    destruct spec as [|v spec]; [done|].
    change (negb (UISizeVector_isEmpty (v :: spec))) with true. cbv beta iota.
    rewrite Hlen, Nat.eqb_refl.
    by rewrite Hrun.
  - intros j. rewrite Hsec. rewrite decide_True by lia. by rewrite Nat.sub_0_r.
Qed.

Lemma restoreHeader_Ok s h :
  headerSpecOk s h -> exists r, restoreHeader h s = Ok r.
Proof.
  intros Hok.
  destruct (QString_isEmpty (hv_objectName h)) eqn:Hname.
  { rewrite restoreHeader_unnamed by done. eauto. }
  destruct (decide (QHeaderView_count h = 0%nat)) as [Hcount|Hcount].
  { rewrite restoreHeader_empty by done. eauto. }
  destruct (decide (value (widgetStateKey (hv_objectName h)) (m_stateSettings s)
                    = [])) as [Hval|Hval].
  2: { rewrite restoreHeader_stored by done. eauto. }
  destruct (decide (default [] (m_defaultHeaderSizes s !! hv_objectName h) = []))
    as [Hnil|Hne].
  { rewrite restoreHeader_nothing by done. eauto. }
  destruct (specOk_nonempty _ _ Hok Hne) as [Hlen Hty].
  destruct (restoreHeader_defaults s h _ Hname Hcount Hval
              (default_lookup_Some _ _ Hne) Hne Hlen Hty) as (h' & Hrun & _).
  eauto.
Qed.

Lemma restoreHeaderState_None s :
  restoreHeaderState None s
  = match mapM restoreHeader (headers s) s with
    | Ok (all', s') => Ok (tt, set_headers all' s')
    | AssertFailed e => AssertFailed e
    end.
Proof. done. Qed.

(** C7: when a header without persisted state has registered default sizes,
    restoreHeaderState resizes exactly the columns whose resize mode is
    Interactive or Fixed (to the default size, or to the size hint for a
    wildcard); a column in any other mode keeps its section as it was. *)
Theorem restoreHeaderState_defaults_by_mode s k h spec :
  headers s !! k = Some h ->
  QString_isEmpty (hv_objectName h) = false ->
  QHeaderView_count h ≠ 0%nat ->
  value (widgetStateKey (hv_objectName h)) (m_stateSettings s) = [] ->
  m_defaultHeaderSizes s !! hv_objectName h = Some spec ->
  spec ≠ [] ->
  Forall (headerSpecOk s) (headers s) ->
  exists s' h',
    restoreHeaderState None s = Ok (tt, s') /\
    headers s' !! k = Some h' /\
    QHeaderView_count h' = QHeaderView_count h /\
    forall j sec it,
      hl_sections (hv_layout h) !! j = Some sec ->
      spec !! j = Some it ->
      match sec_resizeMode sec with
      | Interactive | Fixed =>
          hl_sections (hv_layout h') !! j
          = Some (HeaderSection_resize
                    (if resolvedHeaderSize (hv_layout h) it =? -1
                     then sec_sizeHint sec
                     else resolvedHeaderSize (hv_layout h) it) sec)
      | _ => hl_sections (hv_layout h') !! j = Some sec
      end.
Proof.
  intros Hk Hname Hcount Hval Hspec Hne Hall.
  assert (headerSpecOk s h) as Hh.
  { rewrite Forall_forall in Hall. apply Hall. by eapply list_elem_of_lookup_2. }
  unfold headerSpecOk in Hh. rewrite Hspec in Hh. simpl in Hh.
  destruct (specOk_nonempty _ _ Hh Hne) as [Hlen Hty].
  destruct (mapM_readOnly_Ok restoreHeader (headers s) s)
    as (all' & t & _ & Hrun & Hbody).
  { apply readOnly_restoreHeader. }
  { intros x Hx. apply restoreHeader_Ok. rewrite Forall_forall in Hall. auto. }
  destruct (Forall2_lookup_l _ _ _ _ _ Hbody Hk) as (h' & Hk' & t' & Hh').
  destruct (restoreHeader_defaults s h spec Hname Hcount Hval Hspec Hne Hlen Hty)
    as (h'' & Hrun' & _ & _ & _ & Hsec).
  assert (h'' = h') as -> by congruence.
  exists (set_headers all' (set_trace (trace s ++ t) s)), h'.
  split; [by rewrite restoreHeaderState_None, Hrun|]. split; [done|]. split.
  - unfold QHeaderView_count.
    apply Nat.le_antisymm; apply Nat.nlt_ge; intros Hlt.
    + apply lookup_lt_is_Some_2 in Hlt as [sec Hsec'].
      rewrite Hsec in Hsec'.
      destruct (hl_sections (hv_layout h) !! _) eqn:Hs; [|done].
      apply lookup_lt_Some in Hs. lia.
    + apply lookup_lt_is_Some_2 in Hlt as [sec Hsec'].
      specialize (Hsec (length (hl_sections (hv_layout h')))).
      rewrite Hsec', (lookup_ge_None_2 (hl_sections (hv_layout h'))) in Hsec by lia.
      done.
  - intros j sec it Hj Hit. rewrite Hsec, Hj, Hit. simpl.
    unfold defaultSection. by destruct (sec_resizeMode sec).
Qed.

(** *** Keys *)

Lemma string_length_app (s1 s2 : string) :
  String.length (s1 +:+ s2) = (String.length s1 + String.length s2)%nat.
Proof. induction s1 as [|c s1 IH]; simpl; [done | by rewrite IH]. Qed.

Lemma string_app_inv_tail (s1 s2 t : string) : s1 +:+ t = s2 +:+ t -> s1 = s2.
Proof.
  revert s2. induction s1 as [|c s1 IH]; intros [|d s2] Heq.
  - done.
  - apply (f_equal String.length) in Heq.
    rewrite !string_length_app in Heq. simpl in Heq. lia.
  - apply (f_equal String.length) in Heq.
    rewrite !string_length_app in Heq. simpl in Heq. lia.
  - injection Heq as -> Heq. f_equal. by apply IH.
Qed.

Lemma widgetStateKey_inj n1 n2 : widgetStateKey n1 = widgetStateKey n2 -> n1 = n2.
Proof. apply string_app_inv_tail. Qed.

Lemma fullKey_inj st k1 k2 : fullKey st k1 = fullKey st k2 -> k1 = k2.
Proof. unfold fullKey. apply String.app_inj. Qed.

Lemma fullKey_stateKey_inj st n1 n2 :
  fullKey st (widgetStateKey n1) = fullKey st (widgetStateKey n2) -> n1 = n2.
Proof. intros Heq. by apply widgetStateKey_inj, (fullKey_inj st). Qed.

(** *** The save loops *)

Lemma saveSplitter_saveAct w :
  saveSplitter w
  = saveAct (sp_objectName w) (negb (sp_customized w))
      (QSplitter_saveState (sp_layout w)).
Proof. done. Qed.

Lemma saveHeader_saveAct h s :
  saveHeader h s
  = saveAct (hv_objectName h)
      ((QHeaderView_count h =? 0)%nat || negb (hv_customized h))
      (QHeaderView_saveState (hv_layout h)) s.
Proof.
  unfold saveHeader, saveAct, bind.
  destruct (checkWidget (hv_objectName h) s) as [[[] s']|e]; [|done..].
  simpl. by destruct (_ =? _)%nat.
Qed.

Lemma saveAct_unnamed name skip v s :
  QString_isEmpty name = true ->
  saveAct name skip v s = Ok (tt, set_trace (trace s ++ [Warn_noName]) s).
Proof.
  intros Hname. unfold saveAct.
  by rewrite (bind_Ok _ _ _ _ _ (checkWidget_unnamed _ _ Hname)).
Qed.

Lemma saveAct_skip name v s :
  QString_isEmpty name = false -> saveAct name true v s = Ok (tt, s).
Proof.
  intros Hname. unfold saveAct.
  by rewrite (bind_Ok _ _ _ _ _ (checkWidget_named _ _ Hname)).
Qed.

Lemma saveAct_write name v s :
  QString_isEmpty name = false ->
  saveAct name false v s
  = Ok (tt, set_trace (trace s ++ [writeAction s name v])
              (set_m_stateSettings
                 (setValue (widgetStateKey name) v (m_stateSettings s)) s)).
Proof.
  intros Hname. unfold saveAct.
  by rewrite (bind_Ok _ _ _ _ _ (checkWidget_named _ _ Hname)).
Qed.

(** A save loop returns; it touches only the trace and the stored data;
    what it logs are warnings and the writes of the named widgets it does
    not skip; a key none of them owns keeps its value; and a widget's key
    holds its state afterwards unless a later widget of the same name
    overwrote it. *)
Lemma foreachM_saveAct {W} (nm : W -> string) (sk : W -> bool)
  (val : W -> QByteArray) (l : list W) s :
  let st := m_stateSettings s in
  exists t d,
    foreachM (fun x => saveAct (nm x) (sk x) (val x)) l s
    = Ok (tt, set_trace (trace s ++ t)
                (set_m_stateSettings (mkQSettings (st_groups st) d) s)) /\
    (forall a, a ∈ t ->
       a = Warn_noName \/
       exists x, x ∈ l /\ QString_isEmpty (nm x) = false /\ sk x = false /\
                 a = writeAction s (nm x) (val x)) /\
    (forall k,
       (forall x, x ∈ l -> QString_isEmpty (nm x) = false -> sk x = false ->
                  fullKey st (widgetStateKey (nm x)) ≠ k) ->
       d !! k = st_data st !! k) /\
    (forall i x,
       l !! i = Some x -> QString_isEmpty (nm x) = false -> sk x = false ->
       (forall j y, l !! j = Some y -> (i < j)%nat -> sk y = false ->
                    nm y ≠ nm x) ->
       d !! fullKey st (widgetStateKey (nm x)) = Some (val x)).
Proof.
  revert s. induction l as [|x l IH]; intros s st; simpl.
  - exists [], (st_data st). split.
    { unfold ret. rewrite app_nil_r. subst st. by destruct s as [? [] ? ? ? ? ? ? ? ?]. }
    split; [by intros a Ha; apply elem_of_nil in Ha|]. split; [done|].
    intros i y Hy. by rewrite lookup_nil in Hy.
  - destruct (QString_isEmpty (nm x)) eqn:Hname; [|destruct (sk x) eqn:Hsk].
    + (* an unnamed widget: a warning *)
      destruct (IH (set_trace (trace s ++ [Warn_noName]) s))
        as (t & d & Hrun & Hlog & Hkeep & Hown).
      exists (Warn_noName :: t), d. split.
      { rewrite (bind_Ok _ _ _ _ _ (saveAct_unnamed _ _ _ _ Hname)), Hrun.
        simpl. by rewrite <- app_assoc. }
      split; [|split].
      * intros a [->|Ha]%elem_of_cons; [by left|].
        destruct (Hlog a Ha) as [?|(y & Hy & ? & ? & ?)]; [by left|right].
        exists y. split; [by apply list_elem_of_further|done].
      * intros k Hk. apply Hkeep. intros y Hy. apply Hk.
        by apply list_elem_of_further.
      * intros [|i] y Hy Hny Hsy Hlater; simpl in Hy.
        { injection Hy as ->. congruence. }
        apply (Hown i y Hy Hny Hsy). intros j z Hz Hij.
        apply (Hlater (S j) z Hz). lia.
    + (* a skipped widget: nothing *)
      destruct (IH s) as (t & d & Hrun & Hlog & Hkeep & Hown).
      exists t, d. split.
      { by rewrite (bind_Ok _ _ _ _ _ (saveAct_skip _ _ _ Hname)), Hrun. }
      split; [|split].
      * intros a Ha.
        destruct (Hlog a Ha) as [?|(y & Hy & ? & ? & ?)]; [by left|right].
        exists y. split; [by apply list_elem_of_further|done].
      * intros k Hk. apply Hkeep. intros y Hy. apply Hk.
        by apply list_elem_of_further.
      * intros [|i] y Hy Hny Hsy Hlater; simpl in Hy.
        { injection Hy as ->. congruence. }
        apply (Hown i y Hy Hny Hsy). intros j z Hz Hij.
        apply (Hlater (S j) z Hz). lia.
    + (* a write *)
      set (s1 := set_trace (trace s ++ [writeAction s (nm x) (val x)])
                   (set_m_stateSettings
                      (setValue (widgetStateKey (nm x)) (val x) st) s)).
      destruct (IH s1) as (t & d & Hrun & Hlog & Hkeep & Hown).
      exists (writeAction s (nm x) (val x) :: t), d. split.
      { rewrite (bind_Ok _ _ _ _ _ (saveAct_write _ _ _ Hname)).
        fold st s1. rewrite Hrun. simpl. by rewrite <- app_assoc. }
      split; [|split].
      * intros a [->|Ha]%elem_of_cons.
        { right. exists x. split; [by apply list_elem_of_here|done]. }
        destruct (Hlog a Ha) as [?|(y & Hy & ? & ? & ?)]; [by left|right].
        exists y. split; [by apply list_elem_of_further|done].
      * intros k Hk. rewrite Hkeep.
        { simpl. apply lookup_insert_ne. apply Hk; [apply list_elem_of_here|done..]. }
        intros y Hy. apply Hk. by apply list_elem_of_further.
      * intros [|i] y Hy Hny Hsy Hlater; simpl in Hy.
        { injection Hy as ->. rewrite Hkeep.
          - simpl. apply lookup_insert_eq.
          - intros z Hz Hnz Hsz Heq. apply list_elem_of_lookup in Hz as [j Hj].
            apply (Hlater (S j) z Hj); [lia|done|].
            apply (fullKey_stateKey_inj st). exact Heq. }
        apply (Hown i y Hy Hny Hsy). intros j z Hz Hij.
        apply (Hlater (S j) z Hz). lia.
Qed.

Lemma foreachM_ext {A} (f g : A -> M unit) l s :
  (forall x s, f x s = g x s) -> foreachM f l s = foreachM g l s.
Proof.
  intros Hfg. revert s. induction l as [|x l IH]; intros s; simpl; [done|].
  unfold bind. rewrite Hfg. destruct (g x s) as [[[] s']|e]; [apply IH|done].
Qed.

Lemma saveSplitterState_None s :
  saveSplitterState None s
  = foreachM (fun w => saveAct (sp_objectName w) (negb (sp_customized w))
                         (QSplitter_saveState (sp_layout w))) (splitters s) s.
Proof. done. Qed.

Lemma saveHeaderState_None s :
  saveHeaderState None s
  = foreachM (fun h => saveAct (hv_objectName h)
                         ((QHeaderView_count h =? 0)%nat || negb (hv_customized h))
                         (QHeaderView_saveState (hv_layout h))) (headers s) s.
Proof.
  unfold saveHeaderState, bind, gets. apply foreachM_ext. intros h s'.
  apply saveHeader_saveAct.
Qed.

(** C6 (as amended): for a customized, named splitter whose name no other splitter
    shares, a save cycle over the splitters followed by a restore (outside a
    resize) round-trips exactly: the store then holds under the splitter's
    state key the very blob QSplitter::saveState produced, the restore reads
    that blob back, hands it unchanged to QSplitter::restoreState and marks
    the splitter customized. (A state blob is never empty.) *)
Theorem save_restore_splitter_roundtrip s k w :
  let blob := QSplitter_saveState (sp_layout w) in
  splitters s !! k = Some w ->
  QString_isEmpty (sp_objectName w) = false ->
  sp_customized w = true ->
  blob ≠ [] ->
  m_resizing s = false ->
  (forall j y, splitters s !! j = Some y -> j ≠ k ->
               sp_objectName y ≠ sp_objectName w) ->
  Forall (splitterSpecOk s) (splitters s) ->
  exists s1 s2,
    saveSplitterState None s = Ok (tt, s1) /\
    value (widgetStateKey (sp_objectName w)) (m_stateSettings s1) = blob /\
    restoreSplitterState None s1 = Ok (tt, s2) /\
    splitters s2 !! k
    = Some (QSplitter_setCustomized true
              (QSplitter_setLayout (QSplitter_restoreState blob (sp_layout w)) w)).
Proof.
  intros blob Hk Hname Hcust Hblob Hres Huniq Hall.
  destruct (foreachM_saveAct sp_objectName (fun w => negb (sp_customized w))
              (fun w => QSplitter_saveState (sp_layout w)) (splitters s) s)
    as (t & d & Hsave & _ & _ & Hown).
  set (s1 := set_trace (trace s ++ t)
               (set_m_stateSettings
                  (mkQSettings (st_groups (m_stateSettings s)) d) s)) in *.
  assert (value (widgetStateKey (sp_objectName w)) (m_stateSettings s1) = blob)
    as Hval.
  { unfold value.
    replace (st_data (m_stateSettings s1)
               !! fullKey (m_stateSettings s1) (widgetStateKey (sp_objectName w)))
      with (d !! fullKey (m_stateSettings s) (widgetStateKey (sp_objectName w)))
      by done.
    rewrite (Hown k w Hk Hname); [done|by rewrite Hcust|].
    intros j y Hj Hlt _. apply (Huniq j y Hj). lia. }
  destruct (mapM_readOnly_Ok restoreSplitter (splitters s1) s1)
    as (all' & t' & _ & Hrun & Hbody).
  { apply readOnly_restoreSplitter. }
  { intros x Hx. apply restoreSplitter_Ok. rewrite Forall_forall in Hall.
    by apply Hall. }
  destruct (Forall2_lookup_l _ _ _ _ _ Hbody Hk) as (w' & Hk' & t'' & Hw').
  rewrite restoreSplitter_stored in Hw' by (by rewrite ?Hval).
  rewrite Hval in Hw'. change (m_resizing s1) with (m_resizing s) in Hw'.
  rewrite Hres in Hw'. injection Hw' as Hw' _.
  exists s1, (set_splitters all' (set_trace (trace s1 ++ t') s1)).
  split; [by rewrite saveSplitterState_None|]. split; [done|].
  split; [by rewrite restoreSplitterState_None, Hrun|].
  simpl. by rewrite Hk', Hw'.
Qed.

Lemma foldM_headerColumn_state spec acc s r s' :
  foldM headerColumn spec acc s = Ok (r, s') -> s' = s.
Proof.
  revert acc. induction spec as [|v spec IH]; intros [i h]; simpl.
  - by intros [= _ <-].
  - unfold bind. destruct v as [n|str|]; simpl; [| |done].
    + destruct (QHeaderView_sectionResizeMode h i); apply IH.
    + destruct (percentToInt str =? -1).
      * destruct (QHeaderView_sectionResizeMode h i); apply IH.
      * destruct (hl_orientation (hv_layout h));
          destruct (QHeaderView_sectionResizeMode h i); apply IH.
Qed.

(** What the restore of one header logs: a warning for an unnamed header,
    one read of its state key for a named header with a column, nothing
    for a named header without columns. *)
Lemma restoreHeader_trace s h h' s' :
  restoreHeader h s = Ok (h', s') ->
  exists t,
    s' = set_trace (trace s ++ t) s /\
    forall a, a ∈ t ->
      a = Warn_noName \/
      (QHeaderView_count h ≠ 0%nat /\ a = readAction s (hv_objectName h)).
Proof.
  destruct (QString_isEmpty (hv_objectName h)) eqn:Hname.
  { rewrite restoreHeader_unnamed by done. intros [= _ <-].
    exists [Warn_noName]. split; [done|]. intros a Ha.
    apply list_elem_of_singleton in Ha. by left. }
  destruct (decide (QHeaderView_count h = 0%nat)) as [Hcount|Hcount].
  { rewrite restoreHeader_empty by done. intros [= _ <-]. exists [].
    split; [by rewrite app_nil_r, set_trace_id|].
    by intros a Ha; apply elem_of_nil in Ha. }
  assert (forall a, a ∈ [readAction s (hv_objectName h)] ->
            a = Warn_noName \/
            (QHeaderView_count h ≠ 0%nat /\ a = readAction s (hv_objectName h)))
    as Hread.
  { intros a Ha. apply list_elem_of_singleton in Ha. by right. }
  destruct (decide (value (widgetStateKey (hv_objectName h)) (m_stateSettings s)
                    = [])) as [Hval|Hval].
  2: { rewrite restoreHeader_stored by done. intros [= _ <-]. eauto. }
  unfold restoreHeader.
  rewrite (bind_Ok _ _ _ _ _ (checkWidget_named _ _ Hname)).
  pose proof Hcount as Hcount'. apply Nat.eqb_neq in Hcount'. rewrite Hcount'.
  simpl. unfold settings_value at 1. unfold_M. simpl. rewrite Hval. simpl.
  unfold defaultSizes_header. unfold_M. rewrite checkWidget_named by done.
  simpl. destruct (default _ _) as [|v spec].
  { simpl. intros [= _ <-]. eauto. }
  change (negb (UISizeVector_isEmpty (v :: spec))) with true. cbv beta iota.
  destruct (length (v :: spec) =? QHeaderView_count h)%nat; cbv beta iota;
    [|done].
  destruct (foldM _ _ _ _) as [[r s1]|e] eqn:Hfold; [|done].
  apply foldM_headerColumn_state in Hfold as ->. intros [= _ <-]. eauto.
Qed.

(** C8: the bodies of restoreHeaderState and saveHeaderState skip a header
    with zero columns: the header, the store and every other part of the
    manager stay as they are, and nothing is read from or written to the
    store (an unnamed header is warned about, nothing else). The same holds
    when the functions are called for that one header; a restore or save
    over all headers leaves the header as it was, and every store access
    it makes is the read or write of a header that has a column. *)
Theorem zero_column_header_skipped s k h :
  headers s !! k = Some h ->
  QHeaderView_count h = 0%nat ->
  exists t,
    storeAccesses t = [] /\
    restoreHeader h s = Ok (h, set_trace (trace s ++ t) s) /\
    saveHeader h s = Ok (tt, set_trace (trace s ++ t) s) /\
    restoreHeaderState (Some k) s = Ok (tt, set_trace (trace s ++ t) s) /\
    saveHeaderState (Some k) s = Ok (tt, set_trace (trace s ++ t) s) /\
    (forall s', restoreHeaderState None s = Ok (tt, s') -> headers s' !! k = Some h) /\
    (forall s', saveHeaderState None s = Ok (tt, s') -> headers s' !! k = Some h) /\
    (forall s', restoreHeaderState None s = Ok (tt, s') ->
       exists t', trace s' = trace s ++ t' /\
         forall a, a ∈ storeAccesses t' ->
           exists h0, h0 ∈ headers s /\ QHeaderView_count h0 ≠ 0%nat /\
                      a = readAction s (hv_objectName h0)) /\
    (forall s', saveHeaderState None s = Ok (tt, s') ->
       exists t', trace s' = trace s ++ t' /\
         forall a, a ∈ storeAccesses t' ->
           exists h0, h0 ∈ headers s /\ QHeaderView_count h0 ≠ 0%nat /\
                      a = writeAction s (hv_objectName h0)
                            (QHeaderView_saveState (hv_layout h0))).
Proof.
  intros Hk Hcount.
  assert (forall s', restoreHeaderState None s = Ok (tt, s') ->
            exists t', trace s' = trace s ++ t' /\
              forall a, a ∈ storeAccesses t' ->
                exists h0, h0 ∈ headers s /\ QHeaderView_count h0 ≠ 0%nat /\
                           a = readAction s (hv_objectName h0)) as Hreads.
  { intros s' Hrun. rewrite restoreHeaderState_None in Hrun.
    destruct (mapM restoreHeader (headers s) s) as [[all' s1]|e] eqn:Hmap; [|done].
    injection Hrun as <-.
    destruct (mapM_readOnly_inv _ _ _ _ _ readOnly_restoreHeader Hmap)
      as (rs & -> & -> & _ & Hall).
    exists (concat rs.*2). split; [done|]. intros a Ha.
    apply list_elem_of_filter in Ha as [Hacc Ha].
    apply list_elem_of_In, in_concat in Ha as (t0 & Ht0 & Ha).
    apply list_elem_of_In in Ht0, Ha.
    apply list_elem_of_fmap in Ht0 as (r & -> & Hr).
    apply list_elem_of_lookup in Hr as [i Hi].
    destruct (Forall2_lookup_r _ _ _ _ _ Hall Hi) as (h0 & Hh0 & Hbody).
    destruct (restoreHeader_trace _ _ _ _ Hbody) as (t0 & Heq & Hlog).
    assert (t0 = r.2) as ->.
    { apply (f_equal trace) in Heq. simpl in Heq. by apply app_inv_head in Heq. }
    destruct (Hlog a Ha) as [->|[Hc ->]]; [done|].
    exists h0. split; [by eapply list_elem_of_lookup_2|done]. }
  assert (forall s', saveHeaderState None s = Ok (tt, s') ->
            exists t', trace s' = trace s ++ t' /\
              forall a, a ∈ storeAccesses t' ->
                exists h0, h0 ∈ headers s /\ QHeaderView_count h0 ≠ 0%nat /\
                           a = writeAction s (hv_objectName h0)
                                 (QHeaderView_saveState (hv_layout h0))) as Hwrites.
  { intros s' Hrun. rewrite saveHeaderState_None in Hrun.
    destruct (foreachM_saveAct hv_objectName
                (fun h => (QHeaderView_count h =? 0)%nat || negb (hv_customized h))
                (fun h => QHeaderView_saveState (hv_layout h)) (headers s) s)
      as (t' & d & Hrun' & Hlog & _).
    rewrite Hrun in Hrun'. injection Hrun' as ->.
    exists t'. split; [done|]. intros a Ha.
    apply list_elem_of_filter in Ha as [Hacc Ha].
    destruct (Hlog a Ha) as [->|(h0 & Hh0 & _ & Hskip & ->)]; [done|].
    apply orb_false_iff in Hskip as [Hc _]. exists h0.
    split; [done|]. split; [by apply Nat.eqb_neq|done]. }
  assert (forall s', saveHeaderState None s = Ok (tt, s') -> headers s' !! k = Some h)
    as Hsave.
  { intros s' Hrun. rewrite saveHeaderState_None in Hrun.
    destruct (foreachM_saveAct hv_objectName
                (fun h => (QHeaderView_count h =? 0)%nat || negb (hv_customized h))
                (fun h => QHeaderView_saveState (hv_layout h)) (headers s) s)
      as (t & d & Hrun' & _).
    rewrite Hrun in Hrun'. by injection Hrun' as ->. }
  assert (forall t, restoreHeader h s = Ok (h, set_trace (trace s ++ t) s) ->
          forall s', restoreHeaderState None s = Ok (tt, s') ->
                     headers s' !! k = Some h) as Hrestore.
  { intros t Hbody s' Hrun. rewrite restoreHeaderState_None in Hrun.
    destruct (mapM restoreHeader (headers s) s) as [[all' s1]|e] eqn:Hmap; [|done].
    injection Hrun as <-.
    destruct (mapM_readOnly_inv _ _ _ _ _ readOnly_restoreHeader Hmap)
      as (rs & -> & -> & _ & Hall).
    destruct (Forall2_lookup_l _ _ _ _ _ Hall Hk) as (r & Hr & Hbody').
    simpl. rewrite list_lookup_fmap, Hr. simpl. congruence. }
  destruct (QString_isEmpty (hv_objectName h)) eqn:Hname.
  - exists [Warn_noName]. split; [done|].
    pose proof (restoreHeader_unnamed s h Hname) as Hbody.
    split; [done|]. split; [|split; [|split; [|eauto 10]]].
    + by rewrite saveHeader_saveAct, saveAct_unnamed.
    + unfold restoreHeaderState, bind, gets, modify. rewrite Hk, Hbody. simpl.
      by rewrite list_insert_id.
    + unfold saveHeaderState, bind, gets. rewrite Hk.
      by rewrite saveHeader_saveAct, saveAct_unnamed.
  - exists []. split; [done|].
    assert (set_trace (trace s ++ []) s = s) as Hs
      by (rewrite app_nil_r; apply set_trace_id).
    rewrite Hs.
    pose proof (restoreHeader_empty s h Hname Hcount) as Hbody.
    assert (saveHeader h s = Ok (tt, s)) as Hbody'.
    { rewrite saveHeader_saveAct, Hcount. simpl. by apply saveAct_skip. }
    split; [done|]. split; [done|]. split; [|split].
    + unfold restoreHeaderState, bind, gets, modify. rewrite Hk, Hbody. simpl.
      rewrite list_insert_id by done. by destruct s.
    + unfold saveHeaderState, bind, gets. by rewrite Hk.
    + split; [|done]. apply (Hrestore []). by rewrite Hs.
Qed.

(** *** Which assertion can fail where *)

Lemma foldM_splitterSize_fail l spec acc s e :
  foldM (splitterSize l) spec acc s = AssertFailed e -> e = Assert_variantType.
Proof.
  revert acc. induction spec as [|v spec IH]; intros acc; simpl; [done|].
  unfold bind. destruct v as [n|str|]; simpl.
  - apply IH.
  - destruct (percentToInt str =? -1); [apply IH|].
    destruct (sl_orientation l); apply IH.
  - by intros [= <-].
Qed.

Lemma foldM_headerColumn_fail spec acc s e :
  foldM headerColumn spec acc s = AssertFailed e -> e = Assert_variantType.
Proof.
  revert acc. induction spec as [|v spec IH]; intros [i h]; simpl; [done|].
  unfold bind. destruct v as [n|str|]; simpl.
  - destruct (QHeaderView_sectionResizeMode h i); apply IH.
  - destruct (percentToInt str =? -1).
    + destruct (QHeaderView_sectionResizeMode h i); apply IH.
    + destruct (hl_orientation (hv_layout h));
        destruct (QHeaderView_sectionResizeMode h i); apply IH.
  - by intros [= <-].
Qed.

Lemma restoreSplitter_fail_count s w :
  restoreSplitter w s = AssertFailed Assert_splitterCount ->
  QString_isEmpty (sp_objectName w) = false /\
  value (widgetStateKey (sp_objectName w)) (m_stateSettings s) = [] /\
  default [] (m_defaultSplitterSizes s !! sp_objectName w) ≠ [] /\
  length (default [] (m_defaultSplitterSizes s !! sp_objectName w))
    ≠ sl_count (sp_layout w).
Proof.
  intros Hfail.
  destruct (QString_isEmpty (sp_objectName w)) eqn:Hname.
  { by rewrite restoreSplitter_unnamed in Hfail. }
  destruct (decide (value (widgetStateKey (sp_objectName w)) (m_stateSettings s)
                    = [])) as [Hval|Hval].
  2: { by rewrite restoreSplitter_stored in Hfail. }
  destruct (decide (default [] (m_defaultSplitterSizes s !! sp_objectName w) = []))
    as [Hnil|Hne].
  { by rewrite restoreSplitter_nothing in Hfail. }
  repeat (split; [done|]). intros Hlen.
  revert Hfail. unfold restoreSplitter.
  rewrite (bind_Ok _ _ _ _ _ (checkWidget_named _ _ Hname)). simpl.
  unfold settings_value at 1. unfold_M. simpl. rewrite Hval. simpl.
  unfold defaultSizes_splitter. unfold_M. rewrite checkWidget_named by done.
  simpl. destruct (default _ _) as [|v spec]; [done|].
  change (negb (UISizeVector_isEmpty (v :: spec))) with true. cbv beta iota.
  rewrite Hlen, Nat.eqb_refl.
  destruct (foldM _ _ _ _) as [[sizes s']|e] eqn:Hfold; [done|].
  apply foldM_splitterSize_fail in Hfold. by subst e.
Qed.

Lemma restoreHeader_fail_count s h :
  restoreHeader h s = AssertFailed Assert_headerCount ->
  QString_isEmpty (hv_objectName h) = false /\
  QHeaderView_count h ≠ 0%nat /\
  value (widgetStateKey (hv_objectName h)) (m_stateSettings s) = [] /\
  default [] (m_defaultHeaderSizes s !! hv_objectName h) ≠ [] /\
  length (default [] (m_defaultHeaderSizes s !! hv_objectName h))
    ≠ QHeaderView_count h.
Proof.
  intros Hfail.
  destruct (QString_isEmpty (hv_objectName h)) eqn:Hname.
  { by rewrite restoreHeader_unnamed in Hfail. }
  destruct (decide (QHeaderView_count h = 0%nat)) as [Hcount|Hcount].
  { by rewrite restoreHeader_empty in Hfail. }
  destruct (decide (value (widgetStateKey (hv_objectName h)) (m_stateSettings s)
                    = [])) as [Hval|Hval].
  2: { by rewrite restoreHeader_stored in Hfail. }
  destruct (decide (default [] (m_defaultHeaderSizes s !! hv_objectName h) = []))
    as [Hnil|Hne].
  { by rewrite restoreHeader_nothing in Hfail. }
  repeat (split; [done|]). intros Hlen.
  revert Hfail. unfold restoreHeader.
  rewrite (bind_Ok _ _ _ _ _ (checkWidget_named _ _ Hname)).
  apply Nat.eqb_neq in Hcount. rewrite Hcount. simpl.
  unfold settings_value at 1. unfold_M. simpl. rewrite Hval. simpl.
  unfold defaultSizes_header. unfold_M. rewrite checkWidget_named by done.
  simpl. destruct (default _ _) as [|v spec]; [done|].
  change (negb (UISizeVector_isEmpty (v :: spec))) with true. cbv beta iota.
  rewrite Hlen, Nat.eqb_refl.
  destruct (foldM _ _ _ _) as [[r s']|e] eqn:Hfold; [done|].
  apply foldM_headerColumn_fail in Hfold. by subst e.
Qed.

Lemma restoreSplitterState_fail arg s e :
  restoreSplitterState arg s = AssertFailed e ->
  exists w, w ∈ splitters s /\ restoreSplitter w s = AssertFailed e.
Proof.
  destruct arg as [i|].
  - unfold restoreSplitterState, bind, gets, modify.
    destruct (splitters s !! i) as [w|] eqn:Hi; [|done].
    destruct (restoreSplitter w s) as [[w' s']|e'] eqn:Hw; [done|].
    intros [= <-]. exists w. split; [by eapply list_elem_of_lookup_2|done].
  - rewrite restoreSplitterState_None.
    destruct (mapM restoreSplitter (splitters s) s) as [[all' s']|e'] eqn:Hmap;
      [done|].
    intros [= <-]. by apply mapM_readOnly_fail; [apply readOnly_restoreSplitter|].
Qed.

Lemma restoreHeaderState_fail arg s e :
  restoreHeaderState arg s = AssertFailed e ->
  exists h, h ∈ headers s /\ restoreHeader h s = AssertFailed e.
Proof.
  destruct arg as [i|].
  - unfold restoreHeaderState, bind, gets, modify.
    destruct (headers s !! i) as [h|] eqn:Hi; [|done].
    destruct (restoreHeader h s) as [[h' s']|e'] eqn:Hh; [done|].
    intros [= <-]. exists h. split; [by eapply list_elem_of_lookup_2|done].
  - rewrite restoreHeaderState_None.
    destruct (mapM restoreHeader (headers s) s) as [[all' s']|e'] eqn:Hmap;
      [done|].
    intros [= <-]. by apply mapM_readOnly_fail; [apply readOnly_restoreHeader|].
Qed.

Lemma restoreSplitterState_None_Ok s s' w :
  restoreSplitterState None s = Ok (tt, s') -> w ∈ splitters s ->
  exists r, restoreSplitter w s = Ok r.
Proof.
  rewrite restoreSplitterState_None. intros Hrun Hw.
  destruct (mapM restoreSplitter (splitters s) s) as [[all' s1]|e] eqn:Hmap; [|done].
  destruct (mapM_readOnly_inv _ _ _ _ _ readOnly_restoreSplitter Hmap)
    as (rs & _ & _ & _ & Hall).
  apply list_elem_of_lookup in Hw as [i Hi].
  destruct (Forall2_lookup_l _ _ _ _ _ Hall Hi) as (r & _ & Hr). eauto.
Qed.

Lemma restoreHeaderState_None_Ok s s' h :
  restoreHeaderState None s = Ok (tt, s') -> h ∈ headers s ->
  exists r, restoreHeader h s = Ok r.
Proof.
  rewrite restoreHeaderState_None. intros Hrun Hh.
  destruct (mapM restoreHeader (headers s) s) as [[all' s1]|e] eqn:Hmap; [|done].
  destruct (mapM_readOnly_inv _ _ _ _ _ readOnly_restoreHeader Hmap)
    as (rs & _ & _ & _ & Hall).
  apply list_elem_of_lookup in Hh as [i Hi].
  destruct (Forall2_lookup_l _ _ _ _ _ Hall Hi) as (r & _ & Hr). eauto.
Qed.

(** C9: where a restore applies the default sizes of a splitter or header,
    their number is checked against the pane or column count by an
    assertion: the restore of the widget fails that assertion exactly when
    the two differ. So the assertion cannot fail in a restore, of one widget
    or of all, when every applied spec has the length of its widget's count;
    and a restore that returns has applied only specs of matching length: a
    mismatch is never recovered from. *)
Theorem defaultSizes_count_is_asserted s :
  (forall w, splitterDefaultsApply s w ->
     restoreSplitter w s = AssertFailed Assert_splitterCount
     <-> length (splitterSpec s w) ≠ sl_count (sp_layout w)) /\
  (forall h, headerDefaultsApply s h ->
     restoreHeader h s = AssertFailed Assert_headerCount
     <-> length (headerSpec s h) ≠ QHeaderView_count h) /\
  (forall arg,
     (forall w, w ∈ splitters s -> splitterDefaultsApply s w ->
                length (splitterSpec s w) = sl_count (sp_layout w)) ->
     restoreSplitterState arg s ≠ AssertFailed Assert_splitterCount) /\
  (forall arg,
     (forall h, h ∈ headers s -> headerDefaultsApply s h ->
                length (headerSpec s h) = QHeaderView_count h) ->
     restoreHeaderState arg s ≠ AssertFailed Assert_headerCount) /\
  (forall s' w,
     restoreSplitterState None s = Ok (tt, s') ->
     w ∈ splitters s -> splitterDefaultsApply s w ->
     length (splitterSpec s w) = sl_count (sp_layout w)) /\
  (forall s' h,
     restoreHeaderState None s = Ok (tt, s') ->
     h ∈ headers s -> headerDefaultsApply s h ->
     length (headerSpec s h) = QHeaderView_count h).
Proof.
  assert (forall w, splitterDefaultsApply s w ->
            restoreSplitter w s = AssertFailed Assert_splitterCount
            <-> length (splitterSpec s w) ≠ sl_count (sp_layout w)) as Hsp.
  { intros w (Hname & Hval & Hspec). split.
    - intros Hfail. by apply restoreSplitter_fail_count in Hfail as (_ & _ & _ & ?).
    - intros Hlen. by apply restoreSplitter_mismatch. }
  assert (forall h, headerDefaultsApply s h ->
            restoreHeader h s = AssertFailed Assert_headerCount
            <-> length (headerSpec s h) ≠ QHeaderView_count h) as Hhd.
  { intros h (Hname & Hcount & Hval & Hspec). split.
    - intros Hfail.
      by apply restoreHeader_fail_count in Hfail as (_ & _ & _ & _ & ?).
    - intros Hlen. by apply restoreHeader_mismatch. }
  split; [done|]. split; [done|]. split; [|split; [|split]].
  - intros arg Hall Hfail.
    apply restoreSplitterState_fail in Hfail as (w & Hw & Hfail).
    apply restoreSplitter_fail_count in Hfail as (Hname & Hval & Hspec & Hlen).
    apply Hlen, Hall; done.
  - intros arg Hall Hfail.
    apply restoreHeaderState_fail in Hfail as (h & Hh & Hfail).
    apply restoreHeader_fail_count in Hfail as (Hname & Hcount & Hval & Hspec & Hlen).
    apply Hlen, Hall; done.
  - intros s' w Hrun Hw Happ.
    destruct (restoreSplitterState_None_Ok _ _ _ Hrun Hw) as [r Hr].
    destruct (decide (length (splitterSpec s w) = sl_count (sp_layout w)))
      as [|Hlen]; [done|].
    apply (Hsp w Happ) in Hlen. congruence.
  - intros s' h Hrun Hh Happ.
    destruct (restoreHeaderState_None_Ok _ _ _ Hrun Hh) as [r Hr].
    destruct (decide (length (headerSpec s h) = QHeaderView_count h))
      as [|Hlen]; [done|].
    apply (Hhd h Happ) in Hlen. congruence.
Qed.

(** *** The save cycle *)

Lemma saveWindowState_spec s :
  exists t d,
    saveWindowState s = Ok (tt, afterSave s t d) /\
    forall a, a ∈ t -> windowWrite s a.
Proof.
  unfold saveWindowState, bind, gets.
  destruct (rw_window (m_widget s)) as [window|] eqn:Hwin.
  - eexists [_; _], _. split.
    + unfold settings_setValue, log, modify, bind, gets, afterSave. simpl.
      rewrite <- app_assoc. reflexivity.
    + intros a Ha. exists window. split; [done|].
      apply elem_of_cons in Ha as [->|Ha]; [by left|].
      apply list_elem_of_singleton in Ha as ->. by right.
  - exists [], (st_data (m_stateSettings s)). split.
    + unfold ret, afterSave. rewrite app_nil_r.
      by destruct s as [? [] ? ? ? ? ? ? ? ?].
    + by intros a Ha; apply elem_of_nil in Ha.
Qed.

Lemma saveState_spec s :
  exists t d,
    saveState s = Ok (tt, afterSave s t d) /\
    forall a, a ∈ t ->
      a = Warn_noName \/ windowWrite s a \/ splitterWrite s a \/ headerWrite s a.
Proof.
  destruct (saveWindowState_spec s) as (t1 & d1 & Hrun1 & Hlog1).
  destruct (foreachM_saveAct sp_objectName (fun w => negb (sp_customized w))
              (fun w => QSplitter_saveState (sp_layout w)) (splitters s)
              (afterSave s t1 d1))
    as (t2 & d2 & Hrun2 & Hlog2 & _).
  destruct (foreachM_saveAct hv_objectName
              (fun h => (QHeaderView_count h =? 0)%nat || negb (hv_customized h))
              (fun h => QHeaderView_saveState (hv_layout h)) (headers s)
              (afterSave (afterSave s t1 d1) t2 d2))
    as (t3 & d3 & Hrun3 & Hlog3 & _).
  assert (saveSplitterState None (afterSave s t1 d1)
          = Ok (tt, afterSave (afterSave s t1 d1) t2 d2)) as Hrun2'
    by (rewrite saveSplitterState_None; exact Hrun2).
  assert (saveHeaderState None (afterSave (afterSave s t1 d1) t2 d2)
          = Ok (tt, afterSave (afterSave (afterSave s t1 d1) t2 d2) t3 d3))
    as Hrun3' by (rewrite saveHeaderState_None; exact Hrun3).
  exists (t1 ++ t2 ++ t3), d3. split.
  - unfold saveState.
    rewrite (bind_Ok _ _ _ _ _ Hrun1), (bind_Ok _ _ _ _ _ Hrun2'), Hrun3'.
    unfold afterSave. simpl. by rewrite <- !app_assoc.
  - intros a [Ha|[Ha|Ha]%elem_of_app]%elem_of_app.
    + right. left. by apply Hlog1.
    + destruct (Hlog2 a Ha) as [->|(w & Hw & Hname & Hcust & ->)]; [by left|].
      right. right. left. exists w. repeat (split; [done|]). split; [|done].
      by destruct (sp_customized w).
    + destruct (Hlog3 a Ha) as [->|(h & Hh & Hname & Hskip & ->)]; [by left|].
      right. right. right. exists h. apply orb_false_iff in Hskip as [Hc Hcust].
      repeat (split; [done|]). split; [by apply Nat.eqb_neq|].
      split; [|done]. by destruct (hv_customized h).
Qed.

(** C5: a save cycle writes the state of a splitter or header only if the
    widget is marked customized: every write of saveState is the window's or
    that of a named widget whose customized property is set, and the save of
    a widget whose property is unset writes nothing. Applying default sizes
    (the restore of a widget nothing is stored for) leaves the property as
    it is, so a widget only ever laid out by defaults is never saved. *)
Theorem save_only_customized s :
  (exists t d,
     saveState s = Ok (tt, afterSave s t d) /\
     forall a, a ∈ t ->
       a = Warn_noName \/ windowWrite s a \/ splitterWrite s a \/ headerWrite s a) /\
  (forall w, sp_customized w = false ->
     exists t, storeAccesses t = [] /\
       saveSplitter w s = Ok (tt, set_trace (trace s ++ t) s)) /\
  (forall h, hv_customized h = false ->
     exists t, storeAccesses t = [] /\
       saveHeader h s = Ok (tt, set_trace (trace s ++ t) s)) /\
  (forall w,
     value (widgetStateKey (sp_objectName w)) (m_stateSettings s) = [] ->
     splitterSpecOk s w ->
     exists w' s', restoreSplitter w s = Ok (w', s') /\
       sp_customized w' = sp_customized w) /\
  (forall h,
     value (widgetStateKey (hv_objectName h)) (m_stateSettings s) = [] ->
     headerSpecOk s h ->
     exists h' s', restoreHeader h s = Ok (h', s') /\
       hv_customized h' = hv_customized h).
Proof.
  assert (set_trace (trace s ++ []) s = s) as Hs
    by (rewrite app_nil_r; apply set_trace_id).
  split; [apply saveState_spec|]. split; [|split; [|split]].
  - intros w Hcust. rewrite saveSplitter_saveAct, Hcust. simpl.
    destruct (QString_isEmpty (sp_objectName w)) eqn:Hname.
    + exists [Warn_noName]. split; [done|]. by apply saveAct_unnamed.
    + exists []. split; [done|]. rewrite Hs. by apply saveAct_skip.
  - intros h Hcust. rewrite saveHeader_saveAct, Hcust, orb_true_r.
    destruct (QString_isEmpty (hv_objectName h)) eqn:Hname.
    + exists [Warn_noName]. split; [done|]. by apply saveAct_unnamed.
    + exists []. split; [done|]. rewrite Hs. by apply saveAct_skip.
  - intros w Hval Hok.
    destruct (QString_isEmpty (sp_objectName w)) eqn:Hname.
    { rewrite restoreSplitter_unnamed by done. eauto. }
    destruct (decide (default [] (m_defaultSplitterSizes s !! sp_objectName w) = []))
      as [Hnil|Hne].
    { rewrite restoreSplitter_nothing by done. eauto. }
    destruct (specOk_nonempty _ _ Hok Hne) as [Hlen Hty].
    erewrite restoreSplitter_defaults; eauto using default_lookup_Some.
  - intros h Hval Hok.
    destruct (QString_isEmpty (hv_objectName h)) eqn:Hname.
    { rewrite restoreHeader_unnamed by done. eauto. }
    destruct (decide (QHeaderView_count h = 0%nat)) as [Hcount|Hcount].
    { rewrite restoreHeader_empty by done. eauto. }
    destruct (decide (default [] (m_defaultHeaderSizes s !! hv_objectName h) = []))
      as [Hnil|Hne].
    { rewrite restoreHeader_nothing by done. eauto. }
    destruct (specOk_nonempty _ _ Hok Hne) as [Hlen Hty].
    destruct (restoreHeader_defaults s h _ Hname Hcount Hval
                (default_lookup_Some _ _ Hne) Hne Hlen Hty)
      as (h' & Hrun & _ & Hc & _).
    eauto.
Qed.

(** *** What a restore leaves alone *)

Lemma restoreSplitterState_frame arg s s' :
  restoreSplitterState arg s = Ok (tt, s') ->
  exists ws t, writtenKeys t = [] /\
    s' = set_splitters ws (set_trace (trace s ++ t) s).
Proof.
  destruct arg as [i|].
  - unfold restoreSplitterState, bind, gets, modify.
    destruct (splitters s !! i) as [w|] eqn:Hi.
    + destruct (restoreSplitter w s) as [[w' s1]|e] eqn:Hw; [|done].
      destruct (readOnly_inv _ _ _ _ (readOnly_restoreSplitter w) Hw)
        as (t & Ht & ->).
      intros [= <-]. by exists (<[i := w']> (splitters s)), t.
    + intros [= <-]. exists (splitters s), []. split; [done|].
      rewrite app_nil_r. by destruct s.
  - rewrite restoreSplitterState_None.
    destruct (mapM restoreSplitter (splitters s) s) as [[all' s1]|e] eqn:Hmap;
      [|done].
    destruct (readOnly_inv _ _ _ _
                (readOnly_mapM _ _ readOnly_restoreSplitter) Hmap) as (t & Ht & ->).
    intros [= <-]. by exists all', t.
Qed.

Lemma restoreHeaderState_frame arg s s' :
  restoreHeaderState arg s = Ok (tt, s') ->
  exists hs t, writtenKeys t = [] /\
    s' = set_headers hs (set_trace (trace s ++ t) s).
Proof.
  destruct arg as [i|].
  - unfold restoreHeaderState, bind, gets, modify.
    destruct (headers s !! i) as [h|] eqn:Hi.
    + destruct (restoreHeader h s) as [[h' s1]|e] eqn:Hh; [|done].
      destruct (readOnly_inv _ _ _ _ (readOnly_restoreHeader h) Hh)
        as (t & Ht & ->).
      intros [= <-]. by exists (<[i := h']> (headers s)), t.
    + intros [= <-]. exists (headers s), []. split; [done|].
      rewrite app_nil_r. by destruct s.
  - rewrite restoreHeaderState_None.
    destruct (mapM restoreHeader (headers s) s) as [[all' s1]|e] eqn:Hmap;
      [|done].
    destruct (readOnly_inv _ _ _ _
                (readOnly_mapM _ _ readOnly_restoreHeader) Hmap) as (t & Ht & ->).
    intros [= <-]. by exists all', t.
Qed.

Lemma foreachM_restoreHeaderState_frame l s s' :
  foreachM (fun header => restoreHeaderState (Some header)) l s = Ok (tt, s') ->
  exists hs t, writtenKeys t = [] /\
    s' = set_headers hs (set_trace (trace s ++ t) s).
Proof.
  revert s. induction l as [|i l IH]; intros s; simpl.
  - intros [= <-]. exists (headers s), []. split; [done|].
    rewrite app_nil_r. by destruct s.
  - unfold bind at 1.
    destruct (restoreHeaderState (Some i) s) as [[[] s1]|e] eqn:Hi; [|done].
    apply restoreHeaderState_frame in Hi as (hs1 & t1 & Ht1 & ->).
    intros Hrest. apply IH in Hrest as (hs2 & t2 & Ht2 & ->).
    exists hs2, (t1 ++ t2). split; [by rewrite writtenKeys_app, Ht1, Ht2|].
    simpl. by rewrite app_assoc.
Qed.

(** The body of [widgetResized] between setting and releasing the guard. *)
Lemma widgetResized_inv object s s' :
  widgetResized object s = Ok (tt, s') ->
  exists s1,
    match object with
    | ObjRoot => (restoreSplitterState None ;; restoreHeaderState None)%M
    | ObjView view =>
        (hs <- gets headers ;;
         foreachM (fun header => restoreHeaderState (Some header))
           (findChildren_headers view hs))%M
    end (set_m_resizing true s) = Ok (tt, s1) /\
    m_resizing s1 = true /\
    s' = set_m_resizing (m_resizing s) s1.
Proof.
  intros Hrun. destruct object as [|view].
  - unfold widgetResized in Hrun.
    apply bind_inv in Hrun as (old & s0 & [= <- <-] & Hrun).
    apply bind_inv in Hrun as ([] & s0 & [= <-] & Hrun).
    apply bind_inv in Hrun as ([] & s1 & Hbody & [= <-]).
    exists s1. split; [done|]. split; [|done].
    apply bind_inv in Hbody as ([] & s2 & Hsp & Hhd).
    apply restoreSplitterState_frame in Hsp as (ws & t & _ & ->).
    by apply restoreHeaderState_frame in Hhd as (hs & t' & _ & ->).
  - unfold widgetResized in Hrun.
    apply bind_inv in Hrun as (old & s0 & [= <- <-] & Hrun).
    apply bind_inv in Hrun as ([] & s0 & [= <-] & Hrun).
    apply bind_inv in Hrun as ([] & s1 & Hbody & [= <-]).
    exists s1. split; [done|]. split; [|done].
    unfold bind, gets in Hbody.
    by apply foreachM_restoreHeaderState_frame in Hbody as (hs & t & _ & ->).
Qed.

Lemma lookup_fmap_length {A} (f : nat -> A -> A) (l l' : list A) :
  (forall j, l' !! j = f j <$> l !! j) -> length l' = length l.
Proof.
  intros Hl. apply Nat.le_antisymm; apply Nat.nlt_ge; intros Hlt.
  - apply lookup_lt_is_Some_2 in Hlt as [x Hx].
    specialize (Hl (length l)). rewrite Hx in Hl.
    by rewrite (lookup_ge_None_2 l) in Hl by lia.
  - apply lookup_lt_is_Some_2 in Hlt as [x Hx].
    specialize (Hl (length l')). rewrite Hx in Hl.
    by rewrite (lookup_ge_None_2 l') in Hl by lia.
Qed.

(** During a resize the restore of a header with fitting default sizes
    returns a header of the same name and column count. *)
Lemma restoreHeader_resizing s h :
  m_resizing s = true -> headerSpecOk s h ->
  exists h' t,
    restoreHeader h s = Ok (h', set_trace (trace s ++ t) s) /\
    hv_objectName h' = hv_objectName h /\
    QHeaderView_count h' = QHeaderView_count h.
Proof.
  intros Hres Hok.
  destruct (QString_isEmpty (hv_objectName h)) eqn:Hname.
  { rewrite restoreHeader_unnamed by done. eauto. }
  destruct (decide (QHeaderView_count h = 0%nat)) as [Hcount|Hcount].
  { rewrite restoreHeader_empty by done. exists h, [].
    by rewrite app_nil_r, set_trace_id. }
  destruct (decide (value (widgetStateKey (hv_objectName h)) (m_stateSettings s)
                    = [])) as [Hval|Hval].
  2: { rewrite restoreHeader_stored, Hres by done. eauto. }
  destruct (decide (default [] (m_defaultHeaderSizes s !! hv_objectName h) = []))
    as [Hnil|Hne].
  { rewrite restoreHeader_nothing by done. eauto. }
  destruct (specOk_nonempty _ _ Hok Hne) as [Hlen Hty].
  destruct (restoreHeader_defaults s h _ Hname Hcount Hval
              (default_lookup_Some _ _ Hne) Hne Hlen Hty)
    as (h' & Hrun & Hn & _ & _ & Hsec).
  exists h'. eexists. split; [exact Hrun|]. split; [done|].
  unfold QHeaderView_count. eapply lookup_fmap_length. intros j. apply Hsec.
Qed.

Lemma foreachM_restoreHeaderState_resizing l s :
  m_resizing s = true -> Forall (headerSpecOk s) (headers s) ->
  exists s', foreachM (fun header => restoreHeaderState (Some header)) l s
             = Ok (tt, s').
Proof.
  revert s. induction l as [|i l IH]; intros s Hres Hall; simpl; [by eexists|].
  unfold bind at 1. unfold restoreHeaderState at 1. unfold bind at 1, gets at 1.
  destruct (headers s !! i) as [h|] eqn:Hi; [|by apply IH].
  destruct (restoreHeader_resizing s h Hres) as (h' & t & Hrun & Hname & Hcount).
  { rewrite Forall_forall in Hall. apply Hall. by eapply list_elem_of_lookup_2. }
  rewrite (bind_Ok _ _ _ _ _ Hrun). unfold modify.
  apply IH; [done|]. simpl.
  apply Forall_insert; [done|]. unfold headerSpecOk in *.
  rewrite Forall_forall in Hall. rewrite Hname, Hcount. simpl.
  apply (Hall h). by eapply list_elem_of_lookup_2.
Qed.

(** With fitting default sizes [widgetResized] returns. *)
Lemma widgetResized_Ok object s :
  specsOk s -> exists s', widgetResized object s = Ok (tt, s').
Proof.
  intros [Hsp Hhd]. unfold widgetResized.
  unfold bind at 1, gets at 1. unfold bind at 1, modify at 1.
  set (s0 := set_m_resizing true s).
  destruct object as [|view].
  - destruct (mapM_readOnly_Ok restoreSplitter (splitters s0) s0)
      as (ws' & t & _ & Hrun & _).
    { apply readOnly_restoreSplitter. }
    { intros w Hw. apply restoreSplitter_Ok. rewrite Forall_forall in Hsp.
      by apply Hsp. }
    set (s1 := set_splitters ws' (set_trace (trace s0 ++ t) s0)).
    destruct (mapM_readOnly_Ok restoreHeader (headers s1) s1)
      as (hs' & t' & _ & Hrun' & _).
    { apply readOnly_restoreHeader. }
    { intros h Hh. apply restoreHeader_Ok. rewrite Forall_forall in Hhd.
      by apply Hhd. }
    assert (restoreSplitterState None s0 = Ok (tt, s1)) as Hsp1
      by (by rewrite restoreSplitterState_None, Hrun).
    eexists. unfold bind at 1. rewrite (bind_Ok _ _ _ _ _ Hsp1).
    rewrite restoreHeaderState_None, Hrun'. reflexivity.
  - destruct (foreachM_restoreHeaderState_resizing
                (findChildren_headers view (headers s0)) s0 eq_refl Hhd)
      as (s1 & Hrun).
    eexists. unfold bind at 1. unfold bind at 1, gets at 1. rewrite Hrun.
    reflexivity.
Qed.

(** C4: while the guard m_resizing is set, a Resize event passes through
    eventFilter without any effect: widgetResized is not called, so no
    restore runs inside the restore in flight. With the guard clear (and the
    manager initialised) a Resize event does call widgetResized, which runs
    the restore with the guard set and puts the guard back afterwards, so
    the manager is left with the guard clear and the next Resize event
    reaches the restore logic again. (With default sizes that fit their
    widgets widgetResized does return.) *)
Theorem resize_guard s object :
  (m_resizing s = true -> eventFilter object Resize s = Ok (false, s)) /\
  (m_initialized s = true -> m_resizing s = false ->
   eventFilter object Resize s = (widgetResized object ;; ret false)%M s /\
   (forall s', widgetResized object s = Ok (tt, s') ->
      (exists s1,
         match object with
         | ObjRoot => (restoreSplitterState None ;; restoreHeaderState None)%M
         | ObjView view =>
             (hs <- gets headers ;;
              foreachM (fun header => restoreHeaderState (Some header))
                (findChildren_headers view hs))%M
         end (set_m_resizing true s) = Ok (tt, s1) /\
         m_resizing s1 = true /\
         s' = set_m_resizing false s1) /\
      eventFilter object Resize s = Ok (false, s') /\
      m_initialized s' = true /\ m_resizing s' = false /\
      eventFilter object Resize s' = (widgetResized object ;; ret false)%M s')) /\
  (specsOk s -> exists s', widgetResized object s = Ok (tt, s')).
Proof.
  assert (forall s0, m_initialized s0 = true -> m_resizing s0 = false ->
            eventFilter object Resize s0
            = (widgetResized object ;; ret false)%M s0) as Hcall.
  { intros s0 Hinit Hres. unfold eventFilter, bind, gets, when, ret.
    destruct object; simpl; rewrite Hinit, Hres; simpl;
      by destruct (widgetResized _ s0) as [[[] ?]|]. }
  split; [|split; [|apply widgetResized_Ok]].
  - intros Hres. unfold eventFilter, bind, gets, when, ret.
    destruct object; simpl; rewrite Hres; simpl;
      by rewrite andb_false_r.
  - intros Hinit Hres. split; [by apply Hcall|]. intros s' Hrun.
    destruct (widgetResized_inv _ _ _ Hrun) as (s1 & Hbody & Hguard & ->).
    rewrite Hres. split; [by exists s1|].
    assert (m_initialized (set_m_resizing false s1) = true) as Hinit'.
    { destruct object as [|view].
      - apply bind_inv in Hbody as ([] & s2 & Hsp & Hhd).
        apply restoreSplitterState_frame in Hsp as (ws & t & _ & ->).
        by apply restoreHeaderState_frame in Hhd as (hs & t' & _ & ->).
      - unfold bind, gets in Hbody.
        by apply foreachM_restoreHeaderState_frame in Hbody as (hs & t & _ & ->). }
    split; [|split; [done|split; [done|by apply Hcall]]].
    rewrite Hcall by done. unfold bind. rewrite Hrun. by rewrite Hres.
Qed.

(** *** A manager on an unnamed root widget *)

Lemma inert_new root stored ws hs :
  rw_objectName root = EmptyString ->
  inert root stored ws hs (UIStateManager_new root stored ws hs).
Proof. intros Hroot. by repeat split. Qed.

Lemma inert_warn root stored ws hs s :
  inert root stored ws hs s ->
  inert root stored ws hs (set_trace (trace s ++ [Warn_noName]) s).
Proof.
  intros (Hroot & Hw & Hinit & Hconn & Hdata & Hacc & Hws & Hhs).
  repeat (split; [done|]). split; [|done]. simpl.
  by rewrite storeAccesses_app, Hacc.
Qed.

Lemma setup_inert root stored ws hs s :
  inert root stored ws hs s ->
  exists s', setup s = Ok (tt, s') /\ inert root stored ws hs s'.
Proof.
  intros Hs. pose proof Hs as (Hroot & Hw & _).
  exists (set_trace (trace s ++ [Warn_noName]) s). split; [|by apply inert_warn].
  unfold setup, bind, gets. rewrite Hw, Hroot. done.
Qed.

Lemma eventFilter_inert root stored ws hs object event s :
  inert root stored ws hs s ->
  exists s', eventFilter object event s = Ok (false, s') /\
             inert root stored ws hs s'.
Proof.
  intros Hs. pose proof Hs as (Hroot & Hw & Hinit & _).
  destruct (setup_inert _ _ _ _ _ Hs) as (s1 & Hsetup & Hs1).
  destruct object, event;
    try (exists s; split; [|done];
         unfold eventFilter, bind, gets, when, ret; simpl;
         by rewrite ?Hinit).
  exists s1. split; [|done].
  unfold eventFilter, bind, gets, when, ret. simpl. rewrite Hinit. simpl.
  by rewrite Hsetup.
Qed.

Lemma dispatch_inert root stored ws hs op s :
  inert root stored ws hs s ->
  exists s', dispatch op s = Ok (tt, s') /\ inert root stored ws hs s'.
Proof.
  intros Hs.
  pose proof Hs as (Hroot & Hw & Hinit & Hconn & Hdata & Hacc & Hws & Hhs).
  destruct op as [object event|i|i st|i| |i spec|i spec]; simpl.
  - destruct (eventFilter_inert _ _ _ _ object event _ Hs) as (s' & Hrun & Hs').
    destruct object as [|view].
    + exists s'. split; [|done]. unfold bind, gets, when, ret. by rewrite Hrun.
    + exists s. split; [|done]. unfold bind, gets, when, ret. by rewrite Hconn.
  - exists s. split; [|done]. unfold bind, gets, when, ret. by rewrite Hconn.
  - exists s. split; [|done]. unfold bind, gets, when, ret. by rewrite Hconn.
  - exists s. split; [|done]. unfold bind, gets, when, ret. by rewrite Hconn.
  - apply (setup_inert root stored ws hs). by repeat split.
  - unfold bind at 1, gets at 1. destruct (splitters s !! i) as [w|]; [|by exists s].
    unfold setDefaultSizes_splitter.
    destruct (QString_isEmpty (sp_objectName w)) eqn:Hname.
    + rewrite (bind_Ok _ _ _ _ _ (checkWidget_unnamed _ _ Hname)).
      eexists. split; [done|]. by apply inert_warn.
    + rewrite (bind_Ok _ _ _ _ _ (checkWidget_named _ _ Hname)).
      eexists. split; [done|]. by repeat split.
  - unfold bind at 1, gets at 1. destruct (headers s !! i) as [h|]; [|by exists s].
    unfold setDefaultSizes_header.
    destruct (QString_isEmpty (hv_objectName h)) eqn:Hname.
    + rewrite (bind_Ok _ _ _ _ _ (checkWidget_unnamed _ _ Hname)).
      eexists. split; [done|]. by apply inert_warn.
    + rewrite (bind_Ok _ _ _ _ _ (checkWidget_named _ _ Hname)).
      eexists. split; [done|]. by repeat split.
Qed.

Lemma run_inert root stored ws hs ops s :
  inert root stored ws hs s ->
  exists s', run ops s = Ok (tt, s') /\ inert root stored ws hs s'.
Proof.
  revert s. induction ops as [|op ops IH]; intros s Hs; simpl.
  - by exists s.
  - destruct (dispatch_inert _ _ _ _ op _ Hs) as (s1 & Hrun & Hs1).
    destruct (IH s1 Hs1) as (s' & Hrun' & Hs').
    exists s'. split; [|done]. unfold run in *. simpl.
    by rewrite (bind_Ok _ _ _ _ _ Hrun).
Qed.

(** C10: a manager constructed on a root widget with an empty name never
    becomes initialised. Whatever events, signals and calls follow (show,
    hide and resize events, splitter and header signals, reset, the
    registration of default sizes), setup returns at its first check each
    time it is tried, nothing is restored and nothing is saved: the widgets
    and the stored data stay as they were and the store is never accessed. *)
Theorem unnamed_root_inert root stored ws hs ops :
  rw_objectName root = EmptyString ->
  exists s',
    run ops (UIStateManager_new root stored ws hs) = Ok (tt, s') /\
    m_initialized s' = false /\
    st_data (m_stateSettings s') = stored /\
    storeAccesses (trace s') = [] /\
    m_widget s' = root /\ splitters s' = ws /\ headers s' = hs.
Proof.
  intros Hroot.
  destruct (run_inert root stored ws hs ops _ (inert_new _ stored ws hs Hroot))
    as (s' & Hrun & _ & Hw & Hinit & _ & Hdata & Hacc & Hws & Hhs).
  by exists s'.
Qed.

(** *** setup and reset *)

Lemma bookkeeping_ret {A} (a : A) : bookkeeping (ret a).
Proof.
  intros s. exists a, (connections s), []. split; [|done].
  unfold ret. rewrite app_nil_r. by destruct s.
Qed.

Lemma bookkeeping_bind {A B} (m : M A) (k : A -> M B) :
  bookkeeping m -> (forall a, bookkeeping (k a)) -> bookkeeping (bind m k).
Proof.
  intros Hm Hk s. destruct (Hm s) as (a & c & t & Hrun & Ht).
  destruct (Hk a (set_connections c (set_trace (trace s ++ t) s)))
    as (b & c' & t' & Hrun' & Ht').
  exists b, c', (t ++ t'). split; [|by rewrite storeAccesses_app, Ht, Ht'].
  unfold bind. rewrite Hrun, Hrun'. simpl. by rewrite app_assoc.
Qed.

Lemma bookkeeping_log a : isStoreAccess a = false -> bookkeeping (log a).
Proof.
  intros Ha s. exists tt, (connections s), [a]. split.
  - unfold log, modify. by destruct s.
  - unfold storeAccesses. rewrite filter_cons_False; [done|]. by rewrite Ha.
Qed.

Lemma bookkeeping_connect (f : Connections -> Connections) :
  bookkeeping (modify (fun s => set_connections (f (connections s)) s)).
Proof.
  intros s. exists tt, (f (connections s)), []. split; [|done].
  unfold modify. rewrite app_nil_r. by destruct s.
Qed.

Lemma bookkeeping_checkWidget name : bookkeeping (checkWidget name).
Proof.
  unfold checkWidget. destruct (QString_isEmpty name).
  - apply bookkeeping_bind; [by apply bookkeeping_log|]. intros _.
    apply bookkeeping_ret.
  - apply bookkeeping_ret.
Qed.

Lemma bookkeeping_foldM {A B} (f : B -> A -> M B) l b :
  (forall b x, bookkeeping (f b x)) -> bookkeeping (foldM f l b).
Proof.
  intros Hf. revert b. induction l as [|x l IH]; intros b; simpl.
  - apply bookkeeping_ret.
  - apply bookkeeping_bind; [done|]. intros b'. apply IH.
Qed.

Lemma bookkeeping_setupSplitter known entry : bookkeeping (setupSplitter known entry).
Proof.
  destruct entry as [i w]. unfold setupSplitter.
  apply bookkeeping_bind; [apply bookkeeping_checkWidget|]. intros ok.
  destruct (negb ok); [apply bookkeeping_ret|].
  destruct (bool_decide _).
  - apply bookkeeping_bind; [by apply bookkeeping_log|]. intros _.
    apply bookkeeping_ret.
  - apply bookkeeping_bind; [|intros _; apply bookkeeping_ret].
    apply (bookkeeping_connect
             (fun c => mkConnections ({[i]} ∪ c_splitterMoved c) (c_sectionResized c)
                         (c_sectionCountChanged c) (c_viewFilters c))).
Qed.

Lemma bookkeeping_setupHeader known entry : bookkeeping (setupHeader known entry).
Proof.
  destruct entry as [i h]. unfold setupHeader.
  apply bookkeeping_bind; [apply bookkeeping_checkWidget|]. intros ok.
  destruct (negb ok); [apply bookkeeping_ret|].
  destruct (bool_decide _).
  - apply bookkeeping_bind; [by apply bookkeeping_log|]. intros _.
    apply bookkeeping_ret.
  - apply bookkeeping_bind.
    { apply (bookkeeping_connect
               (fun c => mkConnections (c_splitterMoved c) ({[i]} ∪ c_sectionResized c)
                           (c_sectionCountChanged c) (c_viewFilters c))). }
    intros _. apply bookkeeping_bind.
    { apply (bookkeeping_connect
               (fun c => mkConnections (c_splitterMoved c) (c_sectionResized c)
                           ({[i]} ∪ c_sectionCountChanged c) (c_viewFilters c))). }
    intros _. apply bookkeeping_bind; [|intros _; apply bookkeeping_ret].
    apply (bookkeeping_connect
             (fun c => mkConnections (c_splitterMoved c) (c_sectionResized c)
                         (c_sectionCountChanged c)
                         (hv_view h :: filter (fun v => v ≠ hv_view h)
                                         (c_viewFilters c)))).
Qed.

Lemma value_nodata key st : st_data st = ∅ -> value key st = [].
Proof. intros Hd. unfold value. by rewrite Hd, lookup_empty. Qed.

Lemma set_m_widget_id t s : set_m_widget (m_widget s) (set_trace t s) = set_trace t s.
Proof. by destruct s. Qed.

Lemma restoreWindowState_spec s :
  exists root' t,
    restoreWindowState s = Ok (tt, set_m_widget root' (set_trace (trace s ++ t) s)) /\
    writtenKeys t = [] /\
    (st_data (m_stateSettings s) = ∅ ->
     root' = match rw_window (m_widget s) with
             | Some window =>
                 mkRootWidget (rw_objectName (m_widget s))
                   (Some (WindowLayout_setGeometry
                            (QRect_moveCenter (QRect_center availableGeometry)
                               (QRect_ofSize 1024 768)) window))
             | None => m_widget s
             end).
Proof.
  unfold restoreWindowState. unfold bind at 1, gets at 1.
  destruct (rw_window (m_widget s)) as [window|] eqn:Hwin.
  - unfold settings_value. unfold_M. simpl.
    destruct (value (widgetGeometryKey _) _) as [|b bs] eqn:Hgeo; simpl.
    + eexists _, _. split; [rewrite <- app_assoc; reflexivity|].
      split; [done|done].
    + destruct (m_resizing s); simpl.
      * exists (m_widget s). eexists. split.
        { rewrite <- app_assoc, set_m_widget_id. reflexivity. }
        split; [done|]. intros Hd. by rewrite value_nodata in Hgeo.
      * eexists _, _. split; [rewrite <- app_assoc; reflexivity|].
        split; [done|]. intros Hd. by rewrite value_nodata in Hgeo.
  - exists (m_widget s), []. split; [|done].
    unfold ret. rewrite app_nil_r. by destruct s.
Qed.

Lemma restoreSplitter_nodata s1 s2 w :
  st_data (m_stateSettings s1) = ∅ ->
  st_data (m_stateSettings s2) = ∅ ->
  m_defaultSplitterSizes s1 = m_defaultSplitterSizes s2 ->
  splitterSpecOk s1 w ->
  exists w' t1 t2,
    restoreSplitter w s1 = Ok (w', set_trace (trace s1 ++ t1) s1) /\
    restoreSplitter w s2 = Ok (w', set_trace (trace s2 ++ t2) s2).
Proof.
  intros Hd1 Hd2 Hdef Hok. unfold splitterSpecOk in Hok.
  destruct (QString_isEmpty (sp_objectName w)) eqn:Hname.
  { rewrite !restoreSplitter_unnamed by done. eauto. }
  pose proof (value_nodata (widgetStateKey (sp_objectName w)) _ Hd1) as Hv1.
  pose proof (value_nodata (widgetStateKey (sp_objectName w)) _ Hd2) as Hv2.
  destruct (decide (default [] (m_defaultSplitterSizes s1 !! sp_objectName w) = []))
    as [Hnil|Hne].
  { rewrite !restoreSplitter_nothing by (by rewrite <- ?Hdef). eauto. }
  destruct (specOk_nonempty _ _ Hok Hne) as [Hlen Hty].
  pose proof (default_lookup_Some _ _ Hne) as Hspec.
  rewrite (restoreSplitter_defaults s1 w _ Hname Hv1 Hspec Hne Hlen Hty).
  rewrite Hdef in Hspec, Hne, Hlen, Hty.
  rewrite (restoreSplitter_defaults s2 w _ Hname Hv2 Hspec Hne Hlen Hty).
  rewrite Hdef. eauto.
Qed.

Lemma restoreHeader_nodata s1 s2 h :
  st_data (m_stateSettings s1) = ∅ ->
  st_data (m_stateSettings s2) = ∅ ->
  m_defaultHeaderSizes s1 = m_defaultHeaderSizes s2 ->
  headerSpecOk s1 h ->
  exists h' t1 t2,
    restoreHeader h s1 = Ok (h', set_trace (trace s1 ++ t1) s1) /\
    restoreHeader h s2 = Ok (h', set_trace (trace s2 ++ t2) s2).
Proof.
  intros Hd1 Hd2 Hdef Hok. unfold headerSpecOk in Hok.
  destruct (QString_isEmpty (hv_objectName h)) eqn:Hname.
  { rewrite !restoreHeader_unnamed by done. eauto. }
  destruct (decide (QHeaderView_count h = 0%nat)) as [Hcount|Hcount].
  { rewrite !restoreHeader_empty by done. exists h, [], [].
    by rewrite !app_nil_r, !set_trace_id. }
  pose proof (value_nodata (widgetStateKey (hv_objectName h)) _ Hd1) as Hv1.
  pose proof (value_nodata (widgetStateKey (hv_objectName h)) _ Hd2) as Hv2.
  destruct (decide (default [] (m_defaultHeaderSizes s1 !! hv_objectName h) = []))
    as [Hnil|Hne].
  { rewrite !restoreHeader_nothing by (by rewrite <- ?Hdef). eauto. }
  destruct (specOk_nonempty _ _ Hok Hne) as [Hlen Hty].
  pose proof (default_lookup_Some _ _ Hne) as Hspec.
  unfold restoreHeader.
  rewrite !(bind_Ok _ _ _ _ _ (checkWidget_named _ _ Hname)).
  apply Nat.eqb_neq in Hcount. rewrite Hcount. simpl.
  unfold settings_value. unfold_M. simpl. rewrite Hv1, Hv2. simpl.
  unfold defaultSizes_header. unfold_M. rewrite !checkWidget_named by done.
  simpl. rewrite <- Hdef.
  destruct (default [] _) as [|v spec] eqn:Hsp; [done|].
  change (negb (UISizeVector_isEmpty (v :: spec))) with true. cbv beta iota.
  rewrite Hlen, Nat.eqb_refl.
  destruct (foldM_headerColumn (v :: spec) 0 h Hty) as (h' & Hrun & _).
  rewrite !Hrun. simpl.
  by exists h', [readAction s1 (hv_objectName h)], [readAction s2 (hv_objectName h)].
Qed.

Lemma mapM_restoreSplitter_nodata ws s1 s2 :
  st_data (m_stateSettings s1) = ∅ ->
  st_data (m_stateSettings s2) = ∅ ->
  m_defaultSplitterSizes s1 = m_defaultSplitterSizes s2 ->
  Forall (splitterSpecOk s1) ws ->
  exists ws' t1 t2,
    mapM restoreSplitter ws s1 = Ok (ws', set_trace (trace s1 ++ t1) s1) /\
    mapM restoreSplitter ws s2 = Ok (ws', set_trace (trace s2 ++ t2) s2).
Proof.
  revert s1 s2. induction ws as [|w ws IH]; intros s1 s2 Hd1 Hd2 Hdef Hall; simpl.
  - exists [], [], []. unfold ret. by rewrite !app_nil_r, !set_trace_id.
  - inversion Hall as [|? ? Hw Hrest]; subst.
    destruct (restoreSplitter_nodata s1 s2 w Hd1 Hd2 Hdef Hw)
      as (w' & t1 & t2 & Hrun1 & Hrun2).
    destruct (IH (set_trace (trace s1 ++ t1) s1) (set_trace (trace s2 ++ t2) s2))
      as (ws' & t1' & t2' & Hrun1' & Hrun2'); [done..|].
    exists (w' :: ws'), (t1 ++ t1'), (t2 ++ t2').
    rewrite (bind_Ok _ _ _ _ _ Hrun1), (bind_Ok _ _ _ _ _ Hrun2).
    rewrite (bind_Ok _ _ _ _ _ Hrun1'), (bind_Ok _ _ _ _ _ Hrun2').
    unfold ret. simpl. by rewrite !app_assoc.
Qed.

Lemma mapM_restoreHeader_nodata hs s1 s2 :
  st_data (m_stateSettings s1) = ∅ ->
  st_data (m_stateSettings s2) = ∅ ->
  m_defaultHeaderSizes s1 = m_defaultHeaderSizes s2 ->
  Forall (headerSpecOk s1) hs ->
  exists hs' t1 t2,
    mapM restoreHeader hs s1 = Ok (hs', set_trace (trace s1 ++ t1) s1) /\
    mapM restoreHeader hs s2 = Ok (hs', set_trace (trace s2 ++ t2) s2).
Proof.
  revert s1 s2. induction hs as [|h hs IH]; intros s1 s2 Hd1 Hd2 Hdef Hall; simpl.
  - exists [], [], []. unfold ret. by rewrite !app_nil_r, !set_trace_id.
  - inversion Hall as [|? ? Hh Hrest]; subst.
    destruct (restoreHeader_nodata s1 s2 h Hd1 Hd2 Hdef Hh)
      as (h' & t1 & t2 & Hrun1 & Hrun2).
    destruct (IH (set_trace (trace s1 ++ t1) s1) (set_trace (trace s2 ++ t2) s2))
      as (hs' & t1' & t2' & Hrun1' & Hrun2'); [done..|].
    exists (h' :: hs'), (t1 ++ t1'), (t2 ++ t2').
    rewrite (bind_Ok _ _ _ _ _ Hrun1), (bind_Ok _ _ _ _ _ Hrun2).
    rewrite (bind_Ok _ _ _ _ _ Hrun1'), (bind_Ok _ _ _ _ _ Hrun2').
    unfold ret. simpl. by rewrite !app_assoc.
Qed.

(** With fitting default sizes a restore returns; it writes nothing and
    changes the widgets and the trace only. *)
Lemma restoreState_Ok s :
  specsOk s ->
  exists root' ws' hs' t,
    restoreState s
    = Ok (tt, set_headers hs'
                (set_splitters ws'
                   (set_m_widget root' (set_trace (trace s ++ t) s)))) /\
    writtenKeys t = [].
Proof.
  intros [Hsp Hhd].
  destruct (restoreWindowState_spec s) as (root' & t1 & Hrun1 & Ht1 & _).
  set (s1 := set_m_widget root' (set_trace (trace s ++ t1) s)) in *.
  destruct (mapM_readOnly_Ok restoreSplitter (splitters s1) s1)
    as (ws' & t2 & Ht2 & Hrun2 & _).
  { apply readOnly_restoreSplitter. }
  { intros w Hw. apply restoreSplitter_Ok. rewrite Forall_forall in Hsp.
    by apply Hsp. }
  set (s2 := set_splitters ws' (set_trace (trace s1 ++ t2) s1)).
  destruct (mapM_readOnly_Ok restoreHeader (headers s2) s2)
    as (hs' & t3 & Ht3 & Hrun3 & _).
  { apply readOnly_restoreHeader. }
  { intros h Hh. apply restoreHeader_Ok. rewrite Forall_forall in Hhd.
    by apply Hhd. }
  exists root', ws', hs', (t1 ++ t2 ++ t3). split.
  - unfold restoreState. rewrite (bind_Ok _ _ _ _ _ Hrun1).
    assert (restoreSplitterState None s1 = Ok (tt, s2)) as Hrun2'
      by (by rewrite restoreSplitterState_None, Hrun2).
    rewrite (bind_Ok _ _ _ _ _ Hrun2').
    rewrite restoreHeaderState_None, Hrun3. simpl. by rewrite !app_assoc.
  - by rewrite !writtenKeys_app, Ht1, Ht2, Ht3.
Qed.

(** Two managers with the same widgets and default sizes and nothing
    stored restore to the same widgets. *)
Lemma restoreState_nodata s1 s2 :
  st_data (m_stateSettings s1) = ∅ ->
  st_data (m_stateSettings s2) = ∅ ->
  m_widget s1 = m_widget s2 ->
  m_defaultSplitterSizes s1 = m_defaultSplitterSizes s2 ->
  m_defaultHeaderSizes s1 = m_defaultHeaderSizes s2 ->
  splitters s1 = splitters s2 ->
  headers s1 = headers s2 ->
  specsOk s1 ->
  exists s1' s2',
    restoreState s1 = Ok (tt, s1') /\ restoreState s2 = Ok (tt, s2') /\
    m_widget s1' = m_widget s2' /\
    splitters s1' = splitters s2' /\
    headers s1' = headers s2'.
Proof.
  intros Hd1 Hd2 Hroot Hdsp Hdhd Hws Hhs [Hsp Hhd].
  destruct (restoreWindowState_spec s1) as (r1 & t1 & Hrun1 & _ & Hr1).
  destruct (restoreWindowState_spec s2) as (r2 & t2 & Hrun2 & _ & Hr2).
  specialize (Hr1 Hd1). specialize (Hr2 Hd2). rewrite <- Hroot in Hr2.
  assert (r2 = r1) as -> by congruence.
  set (a1 := set_m_widget r1 (set_trace (trace s1 ++ t1) s1)) in *.
  set (a2 := set_m_widget r1 (set_trace (trace s2 ++ t2) s2)) in *.
  destruct (mapM_restoreSplitter_nodata (splitters s1) a1 a2)
    as (ws' & u1 & u2 & Hsp1 & Hsp2); [done..|].
  set (b1 := set_splitters ws' (set_trace (trace a1 ++ u1) a1)).
  set (b2 := set_splitters ws' (set_trace (trace a2 ++ u2) a2)).
  destruct (mapM_restoreHeader_nodata (headers s1) b1 b2)
    as (hs' & v1 & v2 & Hhd1 & Hhd2); [done..|].
  exists (set_headers hs' (set_trace (trace b1 ++ v1) b1)),
    (set_headers hs' (set_trace (trace b2 ++ v2) b2)).
  split; [|split; [|done]].
  - unfold restoreState. rewrite (bind_Ok _ _ _ _ _ Hrun1).
    assert (restoreSplitterState None a1 = Ok (tt, b1)) as Hrun.
    { rewrite restoreSplitterState_None.
      change (splitters a1) with (splitters s1). by rewrite Hsp1. }
    rewrite (bind_Ok _ _ _ _ _ Hrun).
    rewrite restoreHeaderState_None.
    change (headers b1) with (headers s1). by rewrite Hhd1.
  - unfold restoreState. rewrite (bind_Ok _ _ _ _ _ Hrun2).
    assert (restoreSplitterState None a2 = Ok (tt, b2)) as Hrun.
    { rewrite restoreSplitterState_None.
      change (splitters a2) with (splitters s2). by rewrite <- Hws, Hsp2. }
    rewrite (bind_Ok _ _ _ _ _ Hrun).
    rewrite restoreHeaderState_None.
    change (headers b2) with (headers s2). by rewrite <- Hhs, Hhd2.
Qed.

(** On a named root widget [setup] marks the manager initialised, opens
    the settings group, makes its connections and restores. *)
Lemma setup_named s :
  QString_isEmpty (rw_objectName (m_widget s)) = false ->
  exists c t,
    storeAccesses t = [] /\
    setup s
    = restoreState
        (set_connections c
           (set_trace (trace s ++ t)
              (set_m_stateSettings
                 (beginGroup ("UiState/" +:+ rw_objectName (m_widget s))
                    (m_stateSettings s))
                 (set_m_initialized true s)))).
Proof.
  intros Hname.
  set (s0 := set_m_stateSettings
               (beginGroup ("UiState/" +:+ rw_objectName (m_widget s))
                  (m_stateSettings s))
               (set_m_initialized true s)).
  destruct (bookkeeping_foldM setupSplitter (imap pair (splitters s0))
              {[QString_toLower (rw_objectName (m_widget s))]}
              bookkeeping_setupSplitter s0) as (known & c1 & t1 & Hrun1 & Ht1).
  set (s1 := set_connections c1 (set_trace (trace s0 ++ t1) s0)) in *.
  destruct (bookkeeping_foldM setupHeader (imap pair (headers s1)) known
              bookkeeping_setupHeader s1) as (known' & c2 & t2 & Hrun2 & Ht2).
  exists c2, (t1 ++ t2). split; [by rewrite storeAccesses_app, Ht1, Ht2|].
  unfold setup. unfold bind at 1, gets at 1.
  rewrite (bind_Ok _ _ _ _ _ (checkWidget_named _ _ Hname)). simpl.
  unfold bind at 1, modify at 1. unfold bind at 1, modify at 1. fold s0.
  unfold bind at 1, gets at 1. rewrite (bind_Ok _ _ _ _ _ Hrun1).
  unfold bind at 1, gets at 1. rewrite (bind_Ok _ _ _ _ _ Hrun2).
  subst s1 s0. simpl. by rewrite app_assoc.
Qed.

Lemma setup_unnamed s :
  QString_isEmpty (rw_objectName (m_widget s)) = true ->
  setup s = Ok (tt, set_trace (trace s ++ [Warn_noName]) s).
Proof.
  intros Hname. unfold setup. unfold bind at 1, gets at 1.
  by rewrite (bind_Ok _ _ _ _ _ (checkWidget_unnamed _ _ Hname)).
Qed.

Lemma storeAccesses_writtenKeys t : storeAccesses t = [] -> writtenKeys t = [].
Proof.
  induction t as [|a t IH]; [done|]. unfold storeAccesses.
  destruct a; simpl.
  - rewrite filter_cons_False by done. apply IH.
  - rewrite filter_cons_False by done. apply IH.
  - by rewrite filter_cons_True.
  - by rewrite filter_cons_True.
Qed.

(** C2 (as amended): reset does not clear the persisted state. It marks the
    manager uninitialised, closes the settings group and runs setup again on
    the store as it is: the stored data are the same after reset as before
    and nothing is written. Only when nothing is stored does reset yield the
    layout of a first-ever run on the same widgets and default sizes. (Default
    sizes that fit their widgets are assumed, so that no assertion fails.) *)
Theorem reset_keeps_store s :
  specsOk s ->
  exists s',
    reset s = Ok (tt, s') /\
    st_data (m_stateSettings s') = st_data (m_stateSettings s) /\
    writtenKeys (trace s') = writtenKeys (trace s) /\
    (st_data (m_stateSettings s) = ∅ ->
     exists s1,
       setup (firstRun s) = Ok (tt, s1) /\
       m_widget s' = m_widget s1 /\
       splitters s' = splitters s1 /\
       headers s' = headers s1).
Proof.
  intros Hok.
  set (sr := set_m_stateSettings (endGroup (m_stateSettings s))
               (set_m_initialized false s)).
  assert (reset s = setup sr) as -> by done.
  destruct (QString_isEmpty (rw_objectName (m_widget s))) eqn:Hname.
  - exists (set_trace (trace sr ++ [Warn_noName]) sr).
    split; [by apply setup_unnamed|]. split; [done|]. split.
    { simpl. by rewrite writtenKeys_app, app_nil_r. }
    intros _. exists (set_trace (trace (firstRun s) ++ [Warn_noName]) (firstRun s)).
    split; [by apply setup_unnamed|done].
  - destruct (setup_named sr Hname) as (c & t & Ht & Hsetup).
    rewrite Hsetup. clear Hsetup.
    match goal with |- context [restoreState ?x] => set (sa := x) end.
    destruct (restoreState_Ok sa Hok) as (root' & ws' & hs' & t' & Hrun & Ht').
    eexists. split; [exact Hrun|]. split; [done|]. split.
    { simpl. rewrite !writtenKeys_app, Ht'.
      by rewrite (storeAccesses_writtenKeys _ Ht), !app_nil_r. }
    intros Hdata.
    destruct (setup_named (firstRun s) Hname) as (c1 & t1 & Ht1 & Hsetup).
    rewrite Hsetup. clear Hsetup.
    match goal with |- context [restoreState ?x = _] => set (sb := x) end.
    destruct (restoreState_nodata sa sb) as (sa' & sb' & Hra & Hrb & Hlayout);
      [done..|].
    exists sb'. split; [done|].
    rewrite Hrun in Hra. by injection Hra as <-.
Qed.

(** *** Writes are logged *)

Lemma writesLogged_ret {A} (a : A) : writesLogged (ret a).
Proof.
  intros s a' s' [= <- <-]. exists []. by rewrite app_nil_r.
Qed.

Lemma writesLogged_bind {A B} (m : M A) (k : A -> M B) :
  writesLogged m -> (forall a, writesLogged (k a)) -> writesLogged (bind m k).
Proof.
  intros Hm Hk s b s' Hrun.
  apply bind_inv in Hrun as (a & s1 & Hrun1 & Hrun2).
  destruct (Hm _ _ _ Hrun1) as (t1 & Ht1 & Hg1 & Hd1).
  destruct (Hk a _ _ _ Hrun2) as (t2 & Ht2 & Hg2 & Hd2).
  exists (t1 ++ t2). split; [by rewrite Ht2, Ht1, app_assoc|].
  split; [congruence|]. intros key Hkey.
  rewrite writtenKeys_app in Hkey. apply not_elem_of_app in Hkey as [Hk1 Hk2].
  by rewrite Hd2, Hd1.
Qed.

Lemma writesLogged_readOnly {A} (m : M A) : readOnly m -> writesLogged m.
Proof.
  intros Hm s a s' Hrun.
  destruct (readOnly_inv _ _ _ _ Hm Hrun) as (t & _ & ->). by exists t.
Qed.

Lemma writesLogged_settings_setValue key v : writesLogged (settings_setValue key v).
Proof.
  intros s [] s' [= <-]. eexists [_]. split; [done|]. split; [done|].
  intros k Hk. simpl in *. apply lookup_insert_ne.
  intros <-. apply Hk. apply list_elem_of_here.
Qed.

Lemma writesLogged_foreachM {A} (f : A -> M unit) l :
  (forall x, writesLogged (f x)) -> writesLogged (foreachM f l).
Proof.
  intros Hf. induction l as [|x l IH]; simpl.
  - apply writesLogged_ret.
  - apply writesLogged_bind; [done|]. intros _. apply IH.
Qed.

Lemma writesLogged_saveSplitter w : writesLogged (saveSplitter w).
Proof.
  unfold saveSplitter. apply writesLogged_bind.
  { apply writesLogged_readOnly, readOnly_checkWidget. }
  intros ok. destruct (negb ok || _); [apply writesLogged_ret|].
  apply writesLogged_settings_setValue.
Qed.

Lemma writesLogged_saveHeader h : writesLogged (saveHeader h).
Proof.
  unfold saveHeader. apply writesLogged_bind.
  { apply writesLogged_readOnly, readOnly_checkWidget. }
  intros ok. destruct (negb ok || _ || _); [apply writesLogged_ret|].
  apply writesLogged_settings_setValue.
Qed.

Lemma writesLogged_saveState : writesLogged saveState.
Proof.
  unfold saveState. apply writesLogged_bind; [|intros _; apply writesLogged_bind].
  - unfold saveWindowState. apply writesLogged_bind.
    { apply writesLogged_readOnly. by apply readOnly_gets. }
    intros root. destruct (rw_window root); [|apply writesLogged_ret].
    apply writesLogged_bind; [apply writesLogged_settings_setValue|].
    intros _. apply writesLogged_settings_setValue.
  - unfold saveSplitterState. apply writesLogged_bind.
    { apply writesLogged_readOnly. by apply readOnly_gets. }
    intros all. apply writesLogged_foreachM. apply writesLogged_saveSplitter.
  - intros _. unfold saveHeaderState. apply writesLogged_bind.
    { apply writesLogged_readOnly. by apply readOnly_gets. }
    intros all. apply writesLogged_foreachM. apply writesLogged_saveHeader.
Qed.

Lemma stateKey_unnamed name :
  QString_isEmpty name = false -> widgetStateKey name ≠ widgetStateKey EmptyString.
Proof.
  intros Hname Heq. apply widgetStateKey_inj in Heq. by subst name.
Qed.

Lemma geometryKey_not_stateKey name : widgetGeometryKey name ≠ widgetStateKey EmptyString.
Proof.
  intros Heq. apply (f_equal String.length) in Heq.
  unfold widgetGeometryKey, widgetStateKey in Heq.
  rewrite !string_length_app in Heq. simpl in Heq. lia.
Qed.

(** *** Duplicate names in setup *)

Lemma foldM_app {A B} (f : B -> A -> M B) l1 l2 b s :
  foldM f (l1 ++ l2) b s = bind (foldM f l1 b) (foldM f l2) s.
Proof.
  revert b s. induction l1 as [|x l1 IH]; intros b s; simpl; [done|].
  unfold bind. destruct (f b x s) as [[b' s']|e]; [|done].
  apply IH.
Qed.

Section SetupStep.
Context {W : Type} (nm : W -> string) (conn : nat -> W -> M unit).
Context (P : Connections -> nat -> Prop).
Hypothesis conn_spec : forall i w s,
  exists c',
    conn i w s = Ok (tt, set_connections c' s) /\
    forall j, P c' j -> P (connections s) j \/ j = i.

Lemma foldM_setupStep l known s :
  exists known' c' t,
    foldM (setupStep nm conn) (imap pair l) known s
    = Ok (known', set_connections c' (set_trace (trace s ++ t) s)) /\
    storeAccesses t = [] /\
    known ⊆ known' /\
    (forall i w, l !! i = Some w -> QString_isEmpty (nm w) = false ->
                 QString_toLower (nm w) ∈ known') /\
    (forall j, P c' j ->
               P (connections s) j \/
               exists w, l !! j = Some w /\ QString_isEmpty (nm w) = false /\
                         ~ duplicateName nm known l j w) /\
    (forall i w, l !! i = Some w -> QString_isEmpty (nm w) = false ->
                 duplicateName nm known l i w ->
                 Warn_duplicate (QString_toLower (nm w)) ∈ t).
Proof.
  induction l as [|x l IH] using rev_ind.
  - exists known, (connections s), []. simpl. split.
    { unfold ret. rewrite app_nil_r. by destruct s. }
    split; [done|]. split; [done|]. split; [by intros i w; rewrite lookup_nil|].
    split; [by left|]. by intros i w; rewrite lookup_nil.
  - destruct IH as (known1 & c1 & t1 & Hrun & Ht1 & Hsub & Hknown & Hconn & Hwarn).
    rewrite imap_app, foldM_app.
    rewrite (bind_Ok _ _ _ _ _ Hrun).
    set (s1 := set_connections c1 (set_trace (trace s ++ t1) s)).
    change (foldM (setupStep nm conn) (imap _ [x]) known1 s1)
      with (bind (setupStep nm conn known1 ((length l + 0)%nat, x)) ret s1).
    rewrite Nat.add_0_r.
    assert (forall i w, (l ++ [x]) !! i = Some w ->
              (i < length l)%nat /\ l !! i = Some w \/ i = length l /\ w = x)
      as Hlook.
    { intros i w Hi. apply lookup_app_Some in Hi as [Hi|[Hge Hi]].
      - left. split; [by eapply lookup_lt_Some|done].
      - right. apply list_lookup_singleton_Some in Hi as [Hi ->]. split; [lia|done]. }
    assert (forall i w, (i < length l)%nat -> l !! i = Some w ->
              duplicateName nm known (l ++ [x]) i w -> duplicateName nm known l i w)
      as Hdup_old.
    { intros i w Hlt Hi [Hk|(i' & w' & Hlt' & Hi' & Hn' & Heq)]; [by left|].
      right. exists i', w'. split; [done|]. split; [|done].
      rewrite lookup_app_l in Hi' by lia. done. }
    destruct (QString_isEmpty (nm x)) eqn:Hname.
    + (* unnamed *)
      exists known1, c1, (t1 ++ [Warn_noName]). split.
      { unfold setupStep.
        rewrite (bind_Ok _ _ _ _ _
                   (bind_Ok _ _ _ _ _ (checkWidget_unnamed _ _ Hname))).
        unfold ret. subst s1. simpl. by rewrite app_assoc. }
      split; [by rewrite storeAccesses_app, Ht1|]. split; [done|].
      split; [|split].
      * intros i w Hi Hn. destruct (Hlook i w Hi) as [[Hlt Hi']|[-> ->]];
          [eauto|congruence].
      * intros j Hj. destruct (Hconn j Hj) as [?|(w & Hw & Hn & Hnd)]; [by left|].
        right. exists w. split; [by apply lookup_app_l_Some|]. split; [done|].
        intros Hd. apply Hnd, Hdup_old; [by eapply lookup_lt_Some|done|done].
      * intros i w Hi Hn Hd. destruct (Hlook i w Hi) as [[Hlt Hi']|[-> ->]];
          [|congruence].
        apply elem_of_app. left. eauto.
    + assert (forall k : gset string -> M (gset string),
                bind (setupStep nm conn known1 (length l, x)) k s1
                = bind (if bool_decide (QString_toLower (nm x) ∈ known1)
                        then (log (Warn_duplicate (QString_toLower (nm x))) ;;
                              ret known1)%M
                        else (conn (length l) x ;;
                              ret ({[QString_toLower (nm x)]} ∪ known1))%M) k s1)
        as Hstep.
      { intros k. unfold setupStep. unfold bind at 1 2.
        by rewrite checkWidget_named. }
      rewrite Hstep. clear Hstep.
      destruct (bool_decide (QString_toLower (nm x) ∈ known1)) eqn:Hin.
      * (* a duplicate *)
        apply bool_decide_eq_true in Hin.
        exists known1, c1, (t1 ++ [Warn_duplicate (QString_toLower (nm x))]).
        split.
        { unfold_M. subst s1. simpl. by rewrite app_assoc. }
        split; [by rewrite storeAccesses_app, Ht1|]. split; [done|].
        split; [|split].
        -- intros i w Hi Hn. destruct (Hlook i w Hi) as [[Hlt Hi']|[-> ->]];
             [eauto|done].
        -- intros j Hj.
           destruct (Hconn j Hj) as [?|(w & Hw & Hn & Hnd)]; [by left|].
           right. exists w. split; [by apply lookup_app_l_Some|]. split; [done|].
           intros Hd. apply Hnd, Hdup_old; [by eapply lookup_lt_Some|done|done].
        -- intros i w Hi Hn Hd. apply elem_of_app.
           destruct (Hlook i w Hi) as [[Hlt Hi']|[-> ->]]; [left; eauto|].
           right. apply list_elem_of_here.
      * (* a new name: connected *)
        apply bool_decide_eq_false in Hin.
        destruct (conn_spec (length l) x s1) as (c2 & Hc & Hc2).
        exists ({[QString_toLower (nm x)]} ∪ known1), c2, t1. split.
        { unfold bind. rewrite Hc. unfold ret. by subst s1. }
        split; [done|]. split; [set_solver|]. split; [|split].
        -- intros i w Hi Hn. destruct (Hlook i w Hi) as [[Hlt Hi']|[-> ->]].
           ++ apply elem_of_union_r. eauto.
           ++ apply elem_of_union_l. by apply elem_of_singleton.
        -- intros j Hj. destruct (Hc2 j Hj) as [Hj' | ->].
           ++ destruct (Hconn j Hj') as [?|(w & Hw & Hn & Hnd)]; [by left|].
              right. exists w. split; [by apply lookup_app_l_Some|].
              split; [done|]. intros Hd.
              apply Hnd, Hdup_old; [by eapply lookup_lt_Some|done|done].
           ++ right. exists x. split.
              { rewrite lookup_app_r by lia. by rewrite Nat.sub_diag. }
              split; [done|].
              intros [Hk|(i' & w' & Hlt' & Hi' & Hn' & Heq)].
              ** apply Hin. by apply Hsub.
              ** apply Hin. rewrite <- Heq.
                 rewrite lookup_app_l in Hi' by lia. eauto.
        -- intros i w Hi Hn Hd.
           destruct (Hlook i w Hi) as [[Hlt Hi']|[-> ->]]; [eauto|].
           exfalso. apply Hin. destruct Hd as [Hk|(i' & w' & Hlt' & Hi' & Hn' & Heq)].
           ** by apply Hsub.
           ** rewrite <- Heq. rewrite lookup_app_l in Hi' by lia. eauto.
Qed.
End SetupStep.

Lemma foldM_ext {A B} (f g : B -> A -> M B) l b s :
  (forall b x s, f b x s = g b x s) -> foldM f l b s = foldM g l b s.
Proof.
  intros Hfg. revert b s. induction l as [|x l IH]; intros b s; simpl; [done|].
  unfold bind. rewrite Hfg. destruct (g b x s) as [[b' s']|e]; [apply IH|done].
Qed.

Lemma setupSplitter_setupStep known entry :
  setupSplitter known entry
  = setupStep sp_objectName (fun i _ => connect_splitterMoved i) known entry.
Proof. by destruct entry. Qed.

Lemma setupHeader_setupStep known entry s :
  setupHeader known entry s = setupStep hv_objectName connectHeader known entry s.
Proof.
  destruct entry as [i h]. unfold setupHeader, setupStep, connectHeader, bind.
  destruct (checkWidget (hv_objectName h) s) as [[[] s']|e]; [|done..]. simpl.
  by destruct (bool_decide _).
Qed.

Lemma connect_splitterMoved_spec i (w : QSplitter) s :
  exists c',
    connect_splitterMoved i s = Ok (tt, set_connections c' s) /\
    forall j, j ∈ c_splitterMoved c' ->
              j ∈ c_splitterMoved (connections s) \/ j = i.
Proof.
  eexists. split; [reflexivity|]. simpl. intros j Hj.
  apply elem_of_union in Hj as [Hj|Hj]; [right|by left].
  by apply elem_of_singleton in Hj.
Qed.

Lemma connectHeader_spec i (h : QHeaderView) s :
  exists c',
    connectHeader i h s = Ok (tt, set_connections c' s) /\
    forall j, j ∈ c_sectionResized c' \/ j ∈ c_sectionCountChanged c' ->
              (j ∈ c_sectionResized (connections s)
               \/ j ∈ c_sectionCountChanged (connections s)) \/ j = i.
Proof.
  eexists. split; [reflexivity|]. simpl. intros j [Hj|Hj];
    apply elem_of_union in Hj as [Hj|Hj];
    solve [right; by apply elem_of_singleton in Hj | left; auto].
Qed.

(** The loop over the headers leaves the splitter connections alone, and
    the restore leaves all connections alone. *)
Lemma foldM_setupHeader_splitterMoved l known s known' s' :
  foldM setupHeader l known s = Ok (known', s') ->
  c_splitterMoved (connections s') = c_splitterMoved (connections s).
Proof.
  revert known s. induction l as [|[i h] l IH]; intros known s; simpl.
  - by intros [= _ <-].
  - intros Hrun. apply bind_inv in Hrun as (known1 & s1 & Hstep & Hrest).
    apply IH in Hrest. rewrite Hrest. clear Hrest IH.
    unfold setupHeader in Hstep.
    apply bind_inv in Hstep as (ok & s0 & Hcheck & Hstep).
    assert (connections s0 = connections s) as Hs0.
    { unfold checkWidget in Hcheck. destruct (QString_isEmpty _).
      - by injection Hcheck as _ <-.
      - by injection Hcheck as _ <-. }
    destruct ok; simpl in Hstep; [|injection Hstep as _ <-; by rewrite Hs0].
    destruct (bool_decide _).
    + injection Hstep as _ <-. simpl. by rewrite Hs0.
    + injection Hstep as _ <-. simpl. by rewrite Hs0.
Qed.

Lemma foldM_setupSplitter_headerConnections l known s known' s' :
  foldM setupSplitter l known s = Ok (known', s') ->
  c_sectionResized (connections s') = c_sectionResized (connections s) /\
  c_sectionCountChanged (connections s') = c_sectionCountChanged (connections s).
Proof.
  revert known s. induction l as [|[i w] l IH]; intros known s; simpl.
  - by intros [= _ <-].
  - intros Hrun. apply bind_inv in Hrun as (known1 & s1 & Hstep & Hrest).
    apply IH in Hrest as [-> ->]. clear IH.
    unfold setupSplitter in Hstep.
    apply bind_inv in Hstep as (ok & s0 & Hcheck & Hstep).
    assert (connections s0 = connections s) as Hs0.
    { unfold checkWidget in Hcheck. destruct (QString_isEmpty _).
      - by injection Hcheck as _ <-.
      - by injection Hcheck as _ <-. }
    destruct ok; simpl in Hstep; [|injection Hstep as _ <-; by rewrite Hs0].
    destruct (bool_decide _).
    + injection Hstep as _ <-. simpl. by rewrite Hs0.
    + injection Hstep as _ <-. simpl. by rewrite Hs0.
Qed.

Lemma restoreState_frame s s' :
  restoreState s = Ok (tt, s') ->
  connections s' = connections s /\ exists t, trace s' = trace s ++ t.
Proof.
  unfold restoreState. intros Hrun.
  apply bind_inv in Hrun as ([] & s1 & Hwin & Hrun).
  apply bind_inv in Hrun as ([] & s2 & Hsp & Hhd).
  destruct (restoreWindowState_spec s) as (root' & t1 & Hwin' & _).
  rewrite Hwin in Hwin'. injection Hwin' as ->.
  apply restoreSplitterState_frame in Hsp as (ws & t2 & _ & ->).
  apply restoreHeaderState_frame in Hhd as (hs & t3 & _ & ->).
  split; [done|]. exists (t1 ++ t2 ++ t3). simpl. by rewrite !app_assoc.
Qed.

(** What setup makes of a duplicate name: on a named root widget, a named
    splitter whose lower-case name is that of the root or of a named
    splitter before it is warned about and not connected; the same for a
    named header, whose name is also compared with those of all named
    splitters. *)
Lemma setup_duplicates s s' :
  QString_isEmpty (rw_objectName (m_widget s)) = false ->
  setup s = Ok (tt, s') ->
  let rootName := QString_toLower (rw_objectName (m_widget s)) in
  (forall j w,
     splitters s !! j = Some w -> QString_isEmpty (sp_objectName w) = false ->
     duplicateName sp_objectName {[rootName]} (splitters s) j w ->
     Warn_duplicate (QString_toLower (sp_objectName w)) ∈ trace s' /\
     (j ∈ c_splitterMoved (connections s') -> j ∈ c_splitterMoved (connections s))) /\
  (forall j h,
     headers s !! j = Some h -> QString_isEmpty (hv_objectName h) = false ->
     (QString_toLower (hv_objectName h) = rootName \/
      (exists w, w ∈ splitters s /\ QString_isEmpty (sp_objectName w) = false /\
                 QString_toLower (sp_objectName w)
                 = QString_toLower (hv_objectName h)) \/
      duplicateName hv_objectName ∅ (headers s) j h) ->
     Warn_duplicate (QString_toLower (hv_objectName h)) ∈ trace s' /\
     (j ∈ c_sectionResized (connections s') \/
      j ∈ c_sectionCountChanged (connections s') ->
      j ∈ c_sectionResized (connections s) \/
      j ∈ c_sectionCountChanged (connections s))).
Proof.
  intros Hname Hrun rootName.
  set (s0 := set_m_stateSettings
               (beginGroup ("UiState/" +:+ rw_objectName (m_widget s))
                  (m_stateSettings s))
               (set_m_initialized true s)).
  destruct (foldM_setupStep sp_objectName (fun i _ => connect_splitterMoved i)
              (fun c j => j ∈ c_splitterMoved c) connect_splitterMoved_spec
              (splitters s) {[rootName]} s0)
    as (known1 & c1 & t1 & Hrun1 & _ & Hsub1 & Hknown1 & Hconn1 & Hwarn1).
  set (s1 := set_connections c1 (set_trace (trace s0 ++ t1) s0)) in *.
  destruct (foldM_setupStep hv_objectName connectHeader
              (fun c j => j ∈ c_sectionResized c \/ j ∈ c_sectionCountChanged c)
              connectHeader_spec (headers s) known1 s1)
    as (known2 & c2 & t2 & Hrun2 & _ & Hsub2 & Hknown2 & Hconn2 & Hwarn2).
  set (s2 := set_connections c2 (set_trace (trace s1 ++ t2) s1)) in *.
  assert (foldM setupHeader (imap pair (headers s)) known1 s1 = Ok (known2, s2))
    as Hrun2'.
  { erewrite foldM_ext; [exact Hrun2|]. intros. apply setupHeader_setupStep. }
  assert (setup s = restoreState s2) as Hsetup.
  { unfold setup. unfold bind at 1, gets at 1.
    rewrite (bind_Ok _ _ _ _ _ (checkWidget_named _ _ Hname)). simpl.
    unfold bind at 1, modify at 1. unfold bind at 1, modify at 1. fold s0.
    unfold bind at 1, gets at 1.
    change (foldM setupSplitter (imap pair (splitters s0)))
      with (foldM (setupStep sp_objectName (fun i _ => connect_splitterMoved i))
              (imap pair (splitters s))).
    fold rootName. rewrite (bind_Ok _ _ _ _ _ Hrun1).
    unfold bind at 1, gets at 1.
    change (headers s1) with (headers s).
    by rewrite (bind_Ok _ _ _ _ _ Hrun2'). }
  rewrite Hsetup in Hrun.
  apply restoreState_frame in Hrun as (Hconn & t3 & Htrace).
  pose proof (foldM_setupHeader_splitterMoved _ _ _ _ _ Hrun2') as Hframe.
  assert (foldM setupSplitter (imap pair (splitters s)) {[rootName]} s0
          = Ok (known1, s1)) as Hrun1'.
  { erewrite foldM_ext; [exact Hrun1|]. intros. by rewrite setupSplitter_setupStep. }
  apply foldM_setupSplitter_headerConnections in Hrun1' as [Hres Hcnt].
  split.
  - intros j w Hj Hw Hdup. split.
    + rewrite Htrace. apply elem_of_app. left. simpl.
      apply elem_of_app. left. apply elem_of_app. right. by eapply Hwarn1.
    + rewrite Hconn. intros Hin. rewrite Hframe in Hin.
      destruct (Hconn1 j Hin) as [?|(w' & Hj' & _ & Hnd)]; [done|].
      assert (w' = w) as -> by congruence. done.
  - intros j h Hj Hh Hdup.
    assert (duplicateName hv_objectName known1 (headers s) j h) as Hdup'.
    { destruct Hdup as [Hroot|[(w & Hw & Hnw & Heq)|[Hk|Hearlier]]].
      - left. apply Hsub1. rewrite Hroot. by apply elem_of_singleton.
      - left. rewrite <- Heq. apply list_elem_of_lookup in Hw as [i Hi]. eauto.
      - by apply elem_of_empty in Hk.
      - by right. }
    split.
    + rewrite Htrace. apply elem_of_app. left. simpl.
      apply elem_of_app. right. by eapply Hwarn2.
    + rewrite Hconn. intros Hin.
      destruct (Hconn2 j Hin) as [Hold|(h' & Hj' & _ & Hnd)].
      { by rewrite Hres, Hcnt in Hold. }
      assert (h' = h) as -> by congruence. done.
Qed.

Lemma elem_of_writtenKeys k t :
  k ∈ writtenKeys t -> exists v, Settings_setValue k v ∈ t.
Proof.
  unfold writtenKeys. intros Hk. apply list_elem_of_omap in Hk as (a & Ha & Hk).
  destruct a; try done. injection Hk as ->. eauto.
Qed.

(** A save cycle on a named root widget never writes the key an unnamed
    widget would have. *)
Lemma saveState_unnamed_key s s' :
  QString_isEmpty (rw_objectName (m_widget s)) = false ->
  saveState s = Ok (tt, s') ->
  st_data (m_stateSettings s') !! fullKey (m_stateSettings s) (widgetStateKey EmptyString)
  = st_data (m_stateSettings s) !! fullKey (m_stateSettings s) (widgetStateKey EmptyString).
Proof.
  intros Hroot Hrun.
  destruct (saveState_spec s) as (t & d & Hrun' & Hlog).
  destruct (writesLogged_saveState _ _ _ Hrun) as (t' & Htrace & _ & Hkeep).
  rewrite Hrun in Hrun'. injection Hrun' as ->. simpl in Htrace.
  apply app_inv_head in Htrace as <-.
  apply Hkeep. intros Hk. apply elem_of_writtenKeys in Hk as [v Hv].
  destruct (Hlog _ Hv)
    as [?|[(window & _ & [Ha|Ha])
          |[(w & _ & Hname & _ & Ha)|(h & _ & Hname & _ & _ & Ha)]]]; [done|..].
  - injection Ha as Ha _. apply fullKey_inj in Ha.
    by apply (geometryKey_not_stateKey (rw_objectName (m_widget s))).
  - injection Ha as Ha _. apply fullKey_inj in Ha.
    by apply (stateKey_unnamed _ Hroot).
  - injection Ha as Ha _. apply fullKey_inj in Ha.
    by apply (stateKey_unnamed _ Hname).
  - injection Ha as Ha _. apply fullKey_inj in Ha.
    by apply (stateKey_unnamed _ Hname).
Qed.

(** C3 (as amended): a splitter or header with an empty name is excluded
    from saving and restoring: its restore and its save log a warning and
    nothing else, the store is neither read nor written for it, and a save
    cycle (on a named root widget) leaves the key such a widget would have as
    it was. A widget whose name duplicates, case-insensitively, that of the
    root widget or of an earlier widget is warned about by setup and gets no
    change listener. It is, however, not excluded from saving and restoring,
    which treat every named widget alike: it is restored from the blob stored
    under its state key and, once marked customized, saved under that key. *)
Theorem unnamed_excluded_duplicates_logged s :
  (forall w, QString_isEmpty (sp_objectName w) = true ->
     restoreSplitter w s = Ok (w, set_trace (trace s ++ [Warn_noName]) s) /\
     saveSplitter w s = Ok (tt, set_trace (trace s ++ [Warn_noName]) s)) /\
  (forall h, QString_isEmpty (hv_objectName h) = true ->
     restoreHeader h s = Ok (h, set_trace (trace s ++ [Warn_noName]) s) /\
     saveHeader h s = Ok (tt, set_trace (trace s ++ [Warn_noName]) s)) /\
  (forall s',
     QString_isEmpty (rw_objectName (m_widget s)) = false ->
     saveState s = Ok (tt, s') ->
     st_data (m_stateSettings s') !! fullKey (m_stateSettings s) (widgetStateKey EmptyString)
     = st_data (m_stateSettings s) !! fullKey (m_stateSettings s) (widgetStateKey EmptyString)) /\
  (forall s',
     QString_isEmpty (rw_objectName (m_widget s)) = false ->
     setup s = Ok (tt, s') ->
     let rootName := QString_toLower (rw_objectName (m_widget s)) in
     (forall j w,
        splitters s !! j = Some w -> QString_isEmpty (sp_objectName w) = false ->
        duplicateName sp_objectName {[rootName]} (splitters s) j w ->
        Warn_duplicate (QString_toLower (sp_objectName w)) ∈ trace s' /\
        (j ∈ c_splitterMoved (connections s') ->
         j ∈ c_splitterMoved (connections s))) /\
     (forall j h,
        headers s !! j = Some h -> QString_isEmpty (hv_objectName h) = false ->
        (QString_toLower (hv_objectName h) = rootName \/
         (exists w, w ∈ splitters s /\ QString_isEmpty (sp_objectName w) = false /\
                    QString_toLower (sp_objectName w)
                    = QString_toLower (hv_objectName h)) \/
         duplicateName hv_objectName ∅ (headers s) j h) ->
        Warn_duplicate (QString_toLower (hv_objectName h)) ∈ trace s' /\
        (j ∈ c_sectionResized (connections s') \/
         j ∈ c_sectionCountChanged (connections s') ->
         j ∈ c_sectionResized (connections s) \/
         j ∈ c_sectionCountChanged (connections s)))) /\
  (forall w, QString_isEmpty (sp_objectName w) = false ->
     (sp_customized w = true ->
      saveSplitter w s
      = Ok (tt, set_trace
                  (trace s
                   ++ [writeAction s (sp_objectName w)
                         (QSplitter_saveState (sp_layout w))])
                  (set_m_stateSettings
                     (setValue (widgetStateKey (sp_objectName w))
                        (QSplitter_saveState (sp_layout w)) (m_stateSettings s)) s))) /\
     (value (widgetStateKey (sp_objectName w)) (m_stateSettings s) ≠ [] ->
      m_resizing s = false ->
      restoreSplitter w s
      = Ok (QSplitter_setCustomized true
              (QSplitter_setLayout
                 (QSplitter_restoreState
                    (value (widgetStateKey (sp_objectName w)) (m_stateSettings s))
                    (sp_layout w)) w),
            set_trace (trace s ++ [readAction s (sp_objectName w)]) s))) /\
  (forall h, QString_isEmpty (hv_objectName h) = false ->
     QHeaderView_count h ≠ 0%nat ->
     (hv_customized h = true ->
      saveHeader h s
      = Ok (tt, set_trace
                  (trace s
                   ++ [writeAction s (hv_objectName h)
                         (QHeaderView_saveState (hv_layout h))])
                  (set_m_stateSettings
                     (setValue (widgetStateKey (hv_objectName h))
                        (QHeaderView_saveState (hv_layout h)) (m_stateSettings s)) s))) /\
     (value (widgetStateKey (hv_objectName h)) (m_stateSettings s) ≠ [] ->
      m_resizing s = false ->
      restoreHeader h s
      = Ok (QHeaderView_setCustomized true
              (QHeaderView_setLayout
                 (QHeaderView_restoreState
                    (value (widgetStateKey (hv_objectName h)) (m_stateSettings s))
                    (hv_layout h)) h),
            set_trace (trace s ++ [readAction s (hv_objectName h)]) s))).
Proof.
  split; [|split; [|split; [|split; [|split]]]].
  - intros w Hname. split; [by apply restoreSplitter_unnamed|].
    rewrite saveSplitter_saveAct. by apply saveAct_unnamed.
  - intros h Hname. split; [by apply restoreHeader_unnamed|].
    rewrite saveHeader_saveAct. by apply saveAct_unnamed.
  - intros s'. apply saveState_unnamed_key.
  - intros s' Hroot Hrun. by apply setup_duplicates.
  - intros w Hname. split.
    + intros Hcust. rewrite saveSplitter_saveAct, Hcust. by apply saveAct_write.
    + intros Hval Hres. rewrite restoreSplitter_stored by done. by rewrite Hres.
  - intros h Hname Hcount. split.
    + intros Hcust. rewrite saveHeader_saveAct, Hcust.
      apply Nat.eqb_neq in Hcount. rewrite Hcount. by apply saveAct_write.
    + intros Hval Hres. rewrite restoreHeader_stored by done. by rewrite Hres.
Qed.

End ManagerFacts.

(** * Further properties of the manager *)

(** ** distributeSpace with any number of wildcards *)

Lemma scanSizes_its l i its u :
  (scanSizes l i its u).1 = its ++ wildcardIts l i.
Proof.
  revert i its u. induction l as [|x l IH]; intros i its u; simpl.
  - by rewrite app_nil_r.
  - destruct (x =? -1); rewrite IH; [by rewrite <- app_assoc|done].
Qed.

Lemma fixedSizes_cons x l :
  fixedSizes (x :: l) = if x =? -1 then fixedSizes l else x :: fixedSizes l.
Proof.
  unfold fixedSizes. rewrite filter_cons.
  destruct (Z.eqb_spec x (-1)) as [->|Hx].
  - by rewrite decide_False by (intros Hn; by apply Hn).
  - by rewrite decide_True.
Qed.

Lemma wildcardCount_cons x l :
  wildcardCount (x :: l) = if x =? -1 then S (wildcardCount l) else wildcardCount l.
Proof.
  unfold wildcardCount. rewrite filter_cons.
  destruct (Z.eqb_spec x (-1)) as [->|Hx].
  - by rewrite decide_True.
  - by rewrite decide_False.
Qed.

Lemma scanSizes_used l i its u :
  Z.abs u + sumZ (Z.abs <$> fixedSizes l) <= max_int ->
  (scanSizes l i its u).2 = u + sumZ (fixedSizes l).
Proof.
  revert i its u. induction l as [|x l IH]; intros i its u Hb; simpl.
  - unfold fixedSizes. simpl. lia.
  - rewrite fixedSizes_cons in *. destruct (x =? -1).
    + by apply IH.
    + csimpl in Hb. simpl in Hb.
      pose proof (sumZ_abs_nonneg (fixedSizes l)).
      rewrite int_add_exact by (apply abs_in_range; lia).
      rewrite IH by lia. simpl. lia.
Qed.

Lemma length_wildcardIts l i : length (wildcardIts l i) = wildcardCount l.
Proof.
  revert i. induction l as [|x l IH]; intros i; [done|].
  rewrite wildcardCount_cons. simpl. destruct (x =? -1); simpl; by rewrite IH.
Qed.

Lemma assignSpace_wildcardIts pre l space :
  assignSpace (wildcardIts l (length pre)) space (pre ++ l)
  = pre ++ fillWildcards space l.
Proof.
  revert pre. induction l as [|x l IH]; intros pre; [done|].
  simpl. destruct (Z.eqb_spec x (-1)) as [->|Hx].
  - simpl. rewrite insert_app_r_alt by lia. rewrite Nat.sub_diag. simpl.
    specialize (IH (pre ++ [space])). rewrite length_app in IH. simpl in IH.
    rewrite Nat.add_1_r in IH. rewrite <- app_assoc in IH. simpl in IH.
    rewrite IH. unfold fillWildcards. csimpl. by rewrite <- app_assoc.
  - specialize (IH (pre ++ [x])). rewrite length_app in IH. simpl in IH.
    rewrite Nat.add_1_r in IH. rewrite <- app_assoc in IH. simpl in IH.
    rewrite IH. unfold fillWildcards. csimpl. rewrite <- app_assoc. simpl.
    apply Z.eqb_neq in Hx. by rewrite ?Hx.
Qed.

Lemma distributeSpace_unfold sizes size handleSize :
  distributeSpace sizes size handleSize
  = match wildcardIts sizes 0 with
    | [] => sizes
    | _ :: _ =>
        fillWildcards
          (int_div
             (int_sub (int_sub (int_sub size (scanSizes sizes 0 [] 0).2)
                         (int_mul (Z.of_nat (length sizes)) handleSize))
                handleSize)
             (Z.of_nat (wildcardCount sizes))) sizes
    end.
Proof.
  unfold distributeSpace.
  pose proof (scanSizes_its sizes 0 [] 0) as Hits.
  destruct (scanSizes sizes 0 [] 0) as [its used]. simpl in *. subst its.
  destruct (wildcardIts sizes 0) as [|it its] eqn:Hw; [done|].
  rewrite <- Hw, length_wildcardIts.
  apply (assignSpace_wildcardIts [] sizes).
Qed.

Lemma fillWildcards_fixed space l :
  wildcardCount l = 0%nat -> fillWildcards space l = l.
Proof.
  induction l as [|x l IH]; [done|]. rewrite wildcardCount_cons.
  unfold fillWildcards in *. csimpl. destruct (x =? -1); [done|].
  intros Hc. by rewrite IH.
Qed.

Lemma sumZ_fillWildcards space l :
  sumZ (fillWildcards space l)
  = sumZ (fixedSizes l) + Z.of_nat (wildcardCount l) * space.
Proof.
  induction l as [|x l IH]; [done|].
  rewrite fixedSizes_cons, wildcardCount_cons.
  unfold fillWildcards in *. csimpl. simpl. rewrite IH.
  destruct (x =? -1); simpl; lia.
Qed.

Lemma wildcardCount_fixed l :
  Forall (fun x => x ≠ -1) l -> wildcardCount l = 0%nat.
Proof.
  induction 1 as [|x l Hx _ IH]; [done|].
  rewrite wildcardCount_cons. by apply Z.eqb_neq in Hx as ->.
Qed.

(** X1: distributeSpace changes nothing but the entries equal to -1, and
    gives all of them one common value: the result is the list it was
    given with some size in place of every -1, so the length and every
    other entry are kept. A list without a -1 comes back as it was,
    whatever the extent and the handle width. *)
Theorem distributeSpace_fills_wildcards sizes size handleSize :
  (exists space,
     distributeSpace sizes size handleSize = fillWildcards space sizes) /\
  (Forall (fun x => x ≠ -1) sizes ->
   distributeSpace sizes size handleSize = sizes).
Proof.
  assert (exists space,
            distributeSpace sizes size handleSize = fillWildcards space sizes)
    as [space Hfill].
  { rewrite distributeSpace_unfold.
    destruct (wildcardIts sizes 0) as [|it its] eqn:Hw; [|by eexists].
    exists 0. symmetry. apply fillWildcards_fixed.
    by rewrite <- (length_wildcardIts sizes 0), Hw. }
  split; [by exists space|].
  intros Hfixed. rewrite Hfill. by apply fillWildcards_fixed, wildcardCount_fixed.
Qed.

(** X2: with k >= 1 entries equal to -1 among N sizes, and no overflow of
    the 32-bit arithmetic, every -1 is replaced by the free space divided
    by k, truncated toward zero, where the free space is the extent minus
    the other entries minus (N+1) handle widths; the sizes and the handles
    then add up to the extent less the remainder of that division, which
    is smaller than k in absolute value. *)
Theorem distributeSpace_equal_shares sizes size handleSize :
  let n := Z.of_nat (length sizes) in
  let k := Z.of_nat (wildcardCount sizes) in
  let free := size - sumZ (fixedSizes sizes) - (n + 1) * handleSize in
  wildcardCount sizes ≠ 0%nat ->
  Z.abs size + sumZ (Z.abs <$> fixedSizes sizes) + (n + 1) * Z.abs handleSize
    <= max_int ->
  distributeSpace sizes size handleSize = fillWildcards (free `quot` k) sizes /\
  sumZ (distributeSpace sizes size handleSize) + (n + 1) * handleSize
  = size - free `rem` k /\
  Z.abs (free `rem` k) < k.
Proof.
  intros n k free Hk Hb.
  assert (0 < k) as Hkpos by (subst k; lia).
  assert (distributeSpace sizes size handleSize = fillWildcards (free `quot` k) sizes)
    as Hd.
  { rewrite distributeSpace_unfold.
    destruct (wildcardIts sizes 0) as [|it its] eqn:Hw.
    { exfalso. apply Hk. by rewrite <- (length_wildcardIts sizes 0), Hw. }
    pose proof (sumZ_abs_nonneg (fixedSizes sizes)) as Hnn.
    pose proof (sumZ_abs_bound (fixedSizes sizes)) as Hsb.
    assert (0 <= n) as Hn by (subst n; lia).
    rewrite scanSizes_used by (simpl; lia). rewrite Z.add_0_l.
    assert (Z.abs (n * handleSize) = n * Z.abs handleSize) as Hnh
      by (rewrite Z.abs_mul; f_equal; lia).
    rewrite (int_sub_exact size) by (apply abs_in_range; lia).
    rewrite int_mul_exact by (apply abs_in_range; fold n; lia).
    fold n.
    rewrite (int_sub_exact (size - _)) by (apply abs_in_range; lia).
    rewrite (int_sub_exact (size - _ - _)) by (apply abs_in_range; lia).
    replace (size - sumZ (fixedSizes sizes) - n * handleSize - handleSize)
      with free by (subst free; lia).
    fold k. unfold int_div. rewrite wrap_in_range; [done|].
    apply abs_in_range.
    assert (Z.abs free <= max_int) as Hfree by (subst free; lia).
    assert (Z.abs (free `quot` k) <= Z.abs free); [|lia].
    rewrite <- Z.quot_abs by lia. apply Z.quot_le_upper_bound; [lia|].
    rewrite (Z.abs_eq k) by lia. nia. }
  split; [done|]. split.
  - rewrite Hd, sumZ_fillWildcards. fold k.
    pose proof (Z.quot_rem' free k). subst free. lia.
  - pose proof (Z.rem_bound_abs free k ltac:(lia)). lia.
Qed.

Section ManagerMore.
Context `{Qt}.

(** ** Percentages *)

Lemma substring_prefix (s t : string) :
  String.substring 0 (String.length s) (s +:+ t) = s.
Proof.
  induction s as [|a s IH]; simpl.
  - by destruct t.
  - change (String a s +:+ t) with (String a (s +:+ t)). by rewrite IH.
Qed.

(** X3: percentToInt parses its argument without the last character,
    whatever that character is: the percent sign is dropped, not checked. *)
Theorem percentToInt_drops_last_character (str : string) (c : Ascii.ascii) :
  percentToInt (str +:+ String c EmptyString) = QString_toInt str.
Proof.
  unfold percentToInt. rewrite string_length_app. simpl String.length.
  replace (String.length str + 1 - 1)%nat with (String.length str) by lia.
  by rewrite substring_prefix.
Qed.

Lemma percent_bounds extent p :
  0 <= p <= 100 -> 0 <= extent -> extent * p <= max_int ->
  int_div (int_mul extent p) 100 = (extent * p) `div` 100 /\
  0 <= (extent * p) `div` 100 <= extent.
Proof.
  intros Hp He Hb.
  assert (0 <= extent * p) by nia.
  assert (0 <= (extent * p) `div` 100 <= extent) as Hv.
  { split; [by apply Z.div_pos|].
    apply Z.div_le_upper_bound; [done|]. nia. }
  split; [|done].
  rewrite int_mul_exact by (apply abs_in_range; lia).
  unfold int_div. rewrite Z.quot_div_nonneg by lia.
  apply wrap_in_range, abs_in_range.
  assert ((extent * p) `div` 100 <= extent * p)
    by (apply Z.div_le_upper_bound; lia).
  lia.
Qed.

(** X4: a default size given as a percentage p between 0 and 100 resolves
    to the extent times p over 100, rounded down, which lies between 0
    and the extent: for a splitter the extent is its width or height, for
    a header that of its item view, by orientation (no overflow of
    extent times p assumed). *)
Theorem percentage_of_extent l hl sizes str s :
  let p := percentToInt str in
  0 <= p <= 100 ->
  (0 <= splitterExtent l -> splitterExtent l * p <= max_int ->
   splitterSize l sizes (VString str) s
   = Ok (sizes ++ [(splitterExtent l * p) `div` 100], s) /\
   0 <= (splitterExtent l * p) `div` 100 <= splitterExtent l) /\
  (0 <= headerExtent hl -> headerExtent hl * p <= max_int ->
   headerSize hl (VString str) s = Ok ((headerExtent hl * p) `div` 100, s) /\
   0 <= (headerExtent hl * p) `div` 100 <= headerExtent hl).
Proof.
  intros p Hp.
  assert ((p =? -1) = false) as Hw by (apply Z.eqb_neq; lia).
  split; intros He Hb;
    destruct (percent_bounds _ p Hp He Hb) as [Hv Hr]; (split; [|done]).
  - unfold splitterSize. fold p. rewrite Hw. unfold splitterExtent in *.
    destruct (sl_orientation l); unfold ret; by rewrite Hv.
  - unfold headerSize. fold p. rewrite Hw. unfold headerExtent in *.
    destruct (hl_orientation hl); unfold ret; by rewrite Hv.
Qed.

(** ** The registry of default sizes *)

Lemma defaultSizes_splitter_named w s :
  QString_isEmpty (sp_objectName w) = false ->
  defaultSizes_splitter w s
  = Ok (default [] (m_defaultSplitterSizes s !! sp_objectName w), s).
Proof.
  intros Hn. unfold defaultSizes_splitter.
  by rewrite (bind_Ok _ _ _ _ _ (checkWidget_named _ s Hn)).
Qed.

Lemma defaultSizes_header_named h s :
  QString_isEmpty (hv_objectName h) = false ->
  defaultSizes_header h s
  = Ok (default [] (m_defaultHeaderSizes s !! hv_objectName h), s).
Proof.
  intros Hn. unfold defaultSizes_header.
  by rewrite (bind_Ok _ _ _ _ _ (checkWidget_named _ s Hn)).
Qed.

(** X5: default sizes are registered by object name, in one registry for
    splitters and another for headers. After setDefaultSizes for a named
    splitter and for a named header, defaultSizes returns the registered
    vector for any splitter (header) of that name, even when the splitter
    and the header share their name, and what it returns for a widget of
    another name is what it returned before. *)
Theorem setDefaultSizes_then_defaultSizes s w h vw vh :
  QString_isEmpty (sp_objectName w) = false ->
  QString_isEmpty (hv_objectName h) = false ->
  exists s',
    (setDefaultSizes_splitter w vw ;; setDefaultSizes_header h vh) s = Ok (tt, s') /\
    (forall w2, sp_objectName w2 = sp_objectName w ->
       defaultSizes_splitter w2 s' = Ok (vw, s')) /\
    (forall h2, hv_objectName h2 = hv_objectName h ->
       defaultSizes_header h2 s' = Ok (vh, s')) /\
    (forall w2, QString_isEmpty (sp_objectName w2) = false ->
       sp_objectName w2 ≠ sp_objectName w ->
       exists r, defaultSizes_splitter w2 s = Ok (r, s) /\
                 defaultSizes_splitter w2 s' = Ok (r, s')) /\
    (forall h2, QString_isEmpty (hv_objectName h2) = false ->
       hv_objectName h2 ≠ hv_objectName h ->
       exists r, defaultSizes_header h2 s = Ok (r, s) /\
                 defaultSizes_header h2 s' = Ok (r, s')).
Proof.
  intros Hw Hh.
  eexists. split.
  { unfold setDefaultSizes_splitter, setDefaultSizes_header.
    unfold bind at 1 2. rewrite checkWidget_named by done. simpl.
    unfold modify at 1. unfold bind at 1. rewrite checkWidget_named by done.
    simpl. unfold modify. reflexivity. }
  split; [|split; [|split]].
  - intros w2 Hn. rewrite defaultSizes_splitter_named by (by rewrite Hn).
    simpl. by rewrite Hn, lookup_insert_eq.
  - intros h2 Hn. rewrite defaultSizes_header_named by (by rewrite Hn).
    simpl. by rewrite Hn, lookup_insert_eq.
  - intros w2 Hn Hne. eexists. rewrite !defaultSizes_splitter_named by done.
    split; [done|]. simpl. by rewrite lookup_insert_ne.
  - intros h2 Hn Hne. eexists. rewrite !defaultSizes_header_named by done.
    split; [done|]. simpl. by rewrite lookup_insert_ne.
Qed.

(** ** The main window *)

Lemma string_app_inv_head (s t1 t2 : string) : s +:+ t1 = s +:+ t2 -> t1 = t2.
Proof.
  induction s as [|a s IH]; [done|].
  change (String a (s +:+ t1) = String a (s +:+ t2) -> t1 = t2).
  intros Heq. injection Heq as Heq. by apply IH.
Qed.

Lemma geometryKey_not_own_stateKey st name :
  fullKey st (widgetGeometryKey name) ≠ fullKey st (widgetStateKey name).
Proof.
  intros Heq. apply fullKey_inj in Heq.
  unfold widgetGeometryKey, widgetStateKey in Heq.
  by apply string_app_inv_head in Heq.
Qed.

(** X6: on a main window for which no geometry is stored,
    restoreWindowState gives the window the 1024 x 768 rectangle placed
    around the centre of the available screen area: left edge 511 and top
    edge 383 before the centre, right edge 512 and bottom edge 384 after
    it. This happens during a resize too, and a dock state stored under
    the state key is then not applied. Nothing else changes. *)
Theorem restoreWindowState_default_geometry s window :
  let c := QRect_center availableGeometry in
  rw_window (m_widget s) = Some window ->
  value (widgetGeometryKey (rw_objectName (m_widget s))) (m_stateSettings s) = [] ->
  in_range (c.1 - 511) -> in_range (c.1 + 512) ->
  in_range (c.2 - 383) -> in_range (c.2 + 384) ->
  exists s',
    restoreWindowState s = Ok (tt, s') /\
    m_widget s'
    = mkRootWidget (rw_objectName (m_widget s))
        (Some (mkWindowLayout
                 (mkQRect (c.1 - 511) (c.2 - 383) (c.1 + 512) (c.2 + 384))
                 (win_docks window))) /\
    splitters s' = splitters s /\ headers s' = headers s /\
    m_stateSettings s' = m_stateSettings s.
Proof.
  intros c Hwin Hgeo Hx1 Hx2 Hy1 Hy2.
  eexists. split.
  { unfold restoreWindowState. unfold bind at 1, gets at 1. rewrite Hwin.
    unfold settings_value. unfold_M. simpl. rewrite Hgeo. simpl. reflexivity. }
  simpl. split; [|done]. f_equal. f_equal. unfold WindowLayout_setGeometry.
  f_equal. unfold QRect_moveCenter, QRect_ofSize. simpl. fold c.
  assert (int_sub 1024 1 = 1023) as -> by done.
  assert (int_sub 768 1 = 767) as -> by done.
  assert (int_sub 1023 0 = 1023) as -> by done.
  assert (int_sub 767 0 = 767) as -> by done.
  assert (int_div 1023 2 = 511) as -> by done.
  assert (int_div 767 2 = 383) as -> by done.
  rewrite !int_sub_exact by done.
  rewrite !int_add_exact by (by rewrite <- Z.add_sub_swap, <- Z.add_sub_assoc).
  f_equal; lia.
Qed.

(** X7: the window round-trips through the store. After saveWindowState
    on a main window the store holds the blobs of saveGeometry and
    saveState under the geometry and the state key of the root widget (two
    different keys), and a restoreWindowState outside a resize hands
    exactly these blobs to restoreGeometry and restoreState. (A geometry
    blob is never empty.) *)
Theorem save_restore_window_roundtrip s window :
  let name := rw_objectName (m_widget s) in
  rw_window (m_widget s) = Some window ->
  QMainWindow_saveGeometry window ≠ [] ->
  m_resizing s = false ->
  exists s1 s2,
    saveWindowState s = Ok (tt, s1) /\
    value (widgetGeometryKey name) (m_stateSettings s1)
    = QMainWindow_saveGeometry window /\
    value (widgetStateKey name) (m_stateSettings s1)
    = QMainWindow_saveState window /\
    restoreWindowState s1 = Ok (tt, s2) /\
    m_widget s2
    = mkRootWidget name
        (Some (QMainWindow_restoreState (QMainWindow_saveState window)
                 (QMainWindow_restoreGeometry (QMainWindow_saveGeometry window)
                    window))).
Proof.
  intros name Hwin Hgeo Hres.
  assert (QByteArray_isEmpty (QMainWindow_saveGeometry window) = false) as Hne
    by (by destruct (QMainWindow_saveGeometry window)).
  eexists. eexists. split.
  { unfold saveWindowState. unfold bind at 1, gets at 1. rewrite Hwin.
    unfold_M. simpl. reflexivity. }
  assert (forall d : gmap string QByteArray,
            value (widgetGeometryKey name)
              (setValue (widgetStateKey name) (QMainWindow_saveState window)
                 (setValue (widgetGeometryKey name)
                    (QMainWindow_saveGeometry window) (m_stateSettings s)))
            = QMainWindow_saveGeometry window) as Hg.
  { intros _. unfold value, setValue, fullKey. simpl.
    rewrite lookup_insert_ne
      by (intros Heq; by apply (geometryKey_not_own_stateKey (m_stateSettings s) name)).
    by rewrite lookup_insert_eq. }
  assert (value (widgetStateKey name)
            (setValue (widgetStateKey name) (QMainWindow_saveState window)
               (setValue (widgetGeometryKey name)
                  (QMainWindow_saveGeometry window) (m_stateSettings s)))
          = QMainWindow_saveState window) as Hs.
  { unfold value, setValue, fullKey. simpl. by rewrite lookup_insert_eq. }
  split; [exact (Hg ∅)|]. split; [exact Hs|].
  split.
  - unfold restoreWindowState. unfold bind at 1, gets at 1. simpl. rewrite Hwin.
    unfold settings_value. unfold_M. simpl. fold name.
    rewrite (Hg ∅), Hs, Hne. simpl. rewrite Hres. simpl. reflexivity.
  - done.
Qed.

(** ** Headers through the store *)

(** X8: for a customized, named header with at least one column whose
    name no other header shares, a save cycle over the headers followed
    by a restore (outside a resize) round-trips: the store then holds
    under the header's state key the blob QHeaderView::saveState produced,
    and the restore hands that blob to QHeaderView::restoreState and marks
    the header customized. (A state blob is never empty.) *)
Theorem save_restore_header_roundtrip s k h :
  let blob := QHeaderView_saveState (hv_layout h) in
  headers s !! k = Some h ->
  QString_isEmpty (hv_objectName h) = false ->
  QHeaderView_count h ≠ 0%nat ->
  hv_customized h = true ->
  blob ≠ [] ->
  m_resizing s = false ->
  (forall j y, headers s !! j = Some y -> j ≠ k ->
               hv_objectName y ≠ hv_objectName h) ->
  Forall (headerSpecOk s) (headers s) ->
  exists s1 s2,
    saveHeaderState None s = Ok (tt, s1) /\
    value (widgetStateKey (hv_objectName h)) (m_stateSettings s1) = blob /\
    restoreHeaderState None s1 = Ok (tt, s2) /\
    headers s2 !! k
    = Some (QHeaderView_setCustomized true
              (QHeaderView_setLayout (QHeaderView_restoreState blob (hv_layout h)) h)).
Proof.
  intros blob Hk Hname Hcount Hcust Hblob Hres Huniq Hall.
  assert ((QHeaderView_count h =? 0)%nat || negb (hv_customized h) = false) as Hsk.
  { rewrite Hcust. apply Nat.eqb_neq in Hcount. by rewrite Hcount. }
  destruct (foreachM_saveAct hv_objectName
              (fun h => (QHeaderView_count h =? 0)%nat || negb (hv_customized h))
              (fun h => QHeaderView_saveState (hv_layout h)) (headers s) s)
    as (t & d & Hsave & _ & _ & Hown).
  set (s1 := set_trace (trace s ++ t)
               (set_m_stateSettings
                  (mkQSettings (st_groups (m_stateSettings s)) d) s)) in *.
  assert (value (widgetStateKey (hv_objectName h)) (m_stateSettings s1) = blob)
    as Hval.
  { unfold value.
    replace (st_data (m_stateSettings s1)
               !! fullKey (m_stateSettings s1) (widgetStateKey (hv_objectName h)))
      with (d !! fullKey (m_stateSettings s) (widgetStateKey (hv_objectName h)))
      by done.
    rewrite (Hown k h Hk Hname); [done|done|].
    intros j y Hj Hlt _. apply (Huniq j y Hj). lia. }
  destruct (mapM_readOnly_Ok restoreHeader (headers s1) s1)
    as (all' & t' & _ & Hrun & Hbody).
  { apply readOnly_restoreHeader. }
  { intros x Hx. apply restoreHeader_Ok. rewrite Forall_forall in Hall.
    by apply Hall. }
  destruct (Forall2_lookup_l _ _ _ _ _ Hbody Hk) as (h' & Hk' & t'' & Hh').
  rewrite restoreHeader_stored in Hh' by (by rewrite ?Hval).
  rewrite Hval in Hh'. change (m_resizing s1) with (m_resizing s) in Hh'.
  rewrite Hres in Hh'. injection Hh' as Hh' _.
  exists s1, (set_headers all' (set_trace (trace s1 ++ t') s1)).
  split; [by rewrite saveHeaderState_None|]. split; [done|].
  split; [by rewrite restoreHeaderState_None, Hrun|].
  simpl. by rewrite Hk', Hh'.
Qed.

(** ** The slots *)

Lemma value_setValue key v st : value key (setValue key v st) = v.
Proof. unfold value, setValue, fullKey. simpl. by rewrite lookup_insert_eq. Qed.

(** X9: when the user moves a named splitter, widgetCustomized marks it
    customized and writes its state to the store at once, under its state
    key, with that single store access; no other splitter and no header
    changes. *)
Theorem splitter_move_is_saved_at_once s i w :
  let blob := QSplitter_saveState (sp_layout w) in
  splitters s !! i = Some w ->
  QString_isEmpty (sp_objectName w) = false ->
  exists s',
    widgetCustomized (SenderSplitter i) s = Ok (tt, s') /\
    splitters s' = <[i := QSplitter_setCustomized true w]> (splitters s) /\
    value (widgetStateKey (sp_objectName w)) (m_stateSettings s') = blob /\
    trace s' = trace s ++ [writeAction s (sp_objectName w) blob] /\
    headers s' = headers s.
Proof.
  intros blob Hi Hname.
  eexists. split.
  { unfold widgetCustomized. unfold bind at 1, modify at 1.
    unfold saveSplitterState. unfold bind at 1, gets at 1. simpl.
    rewrite list_lookup_alter_eq, Hi. simpl.
    rewrite saveSplitter_saveAct. simpl. by rewrite saveAct_write. }
  simpl. split; [|split; [|done]].
  - apply list_eq. intros j. destruct (decide (j = i)) as [->|Hne].
    + rewrite list_lookup_alter_eq, Hi. simpl.
      by rewrite list_lookup_insert_eq by (by eapply lookup_lt_Some).
    + by rewrite list_lookup_alter_ne, list_lookup_insert_ne.
  - apply value_setValue.
Qed.

(** X10: a sectionResized signal makes widgetCustomized act only when the
    sender is a HeaderView in its ResizeSection state, that is, when the
    user drags a section: a resize made by the program, or one of a plain
    QHeaderView, changes nothing. On a user resize the header is marked
    customized; its state is written to the store, under its state key,
    when the header is named and has a column, and a named header without
    a column is marked but not written. *)
Theorem header_resize_is_saved_only_when_manual s i :
  (forall st, st ≠ Some true -> widgetCustomized (SenderHeader i st) s = Ok (tt, s)) /\
  (forall h,
     headers s !! i = Some h ->
     QString_isEmpty (hv_objectName h) = false ->
     exists s',
       widgetCustomized (SenderHeader i (Some true)) s = Ok (tt, s') /\
       headers s' = <[i := QHeaderView_setCustomized true h]> (headers s) /\
       splitters s' = splitters s /\
       if (QHeaderView_count h =? 0)%nat then
         m_stateSettings s' = m_stateSettings s /\ trace s' = trace s
       else
         value (widgetStateKey (hv_objectName h)) (m_stateSettings s')
         = QHeaderView_saveState (hv_layout h) /\
         trace s' = trace s ++ [writeAction s (hv_objectName h)
                                  (QHeaderView_saveState (hv_layout h))]).
Proof.
  split.
  - intros [[]|] Hst; done.
  - intros h Hi Hname.
    assert (<[i := QHeaderView_setCustomized true h]> (headers s)
            = alter (QHeaderView_setCustomized true) i (headers s)) as Hins.
    { apply list_eq. intros j. destruct (decide (j = i)) as [->|Hne].
      - rewrite list_lookup_alter_eq, Hi. simpl.
        by rewrite list_lookup_insert_eq by (by eapply lookup_lt_Some).
      - by rewrite list_lookup_alter_ne, list_lookup_insert_ne. }
    destruct (QHeaderView_count h =? 0)%nat eqn:Hcount.
    + eexists. split.
      { unfold widgetCustomized. unfold bind at 1, modify at 1.
        unfold saveHeaderState. unfold bind at 1, gets at 1. simpl.
        rewrite list_lookup_alter_eq, Hi. simpl.
        rewrite saveHeader_saveAct. simpl.
        change (QHeaderView_count (QHeaderView_setCustomized true h))
          with (QHeaderView_count h). rewrite Hcount. simpl.
        by rewrite saveAct_skip. }
      simpl. by rewrite Hins.
    + eexists. split.
      { unfold widgetCustomized. unfold bind at 1, modify at 1.
        unfold saveHeaderState. unfold bind at 1, gets at 1. simpl.
        rewrite list_lookup_alter_eq, Hi. simpl.
        rewrite saveHeader_saveAct. simpl.
        change (QHeaderView_count (QHeaderView_setCustomized true h))
          with (QHeaderView_count h). rewrite Hcount. simpl.
        by rewrite saveAct_write. }
      simpl. rewrite Hins. split; [done|]. split; [done|].
      split; [apply value_setValue|done].
Qed.

(** ** The event filter *)

(** X11: the filter never consumes an event (it returns false), and it
    leaves the manager as it was for every event other than Hide, Show and
    Resize, for a Hide or Show of an item view, for a Hide or Resize before
    the manager is initialized, and for a Show once it is initialized:
    setup runs on the first Show only. *)
Theorem eventFilter_passes_events_on object event s r s' :
  eventFilter object event s = Ok (r, s') ->
  r = false /\
  (event = OtherEvent -> s' = s) /\
  (object ≠ ObjRoot -> event ≠ Resize -> s' = s) /\
  (m_initialized s = false -> event ≠ Show -> s' = s) /\
  (m_initialized s = true -> event = Show -> s' = s).
Proof.
  intros Hrun. unfold eventFilter in Hrun.
  apply bind_inv in Hrun as ([] & s1 & H1 & Hrun). cbv zeta in Hrun.
  apply bind_inv in Hrun as ([] & s2 & H2 & Hrun).
  apply bind_inv in Hrun as ([] & s3 & H3 & Hrun).
  injection Hrun as <- <-.
  split; [done|]. split; [|split; [|split]].
  - intros ->. destruct object; unfold ret in *; congruence.
  - intros Hobj Hev. destruct object as [|v]; [done|].
    destruct event; unfold ret in *; congruence.
  - intros Hinit Hev.
    destruct object, event; try done; unfold_M; try congruence.
    + rewrite Hinit in H1. congruence.
    + assert (s1 = s) as -> by congruence. assert (s2 = s) as -> by congruence.
      rewrite Hinit in H3. simpl in H3. congruence.
    + assert (s1 = s) as -> by congruence. assert (s2 = s) as -> by congruence.
      rewrite Hinit in H3. simpl in H3. congruence.
  - intros Hinit ->. destruct object; unfold_M; try congruence.
    assert (s1 = s) as -> by congruence.
    rewrite Hinit in H2. simpl in H2. congruence.
Qed.

(** ** What a restore does and does not touch *)

Lemma restoreSplitterState_None_inv s s' :
  restoreSplitterState None s = Ok (tt, s') ->
  exists all' t,
    writtenKeys t = [] /\
    s' = set_splitters all' (set_trace (trace s ++ t) s) /\
    Forall2 (fun x y => exists t', restoreSplitter x s
                                   = Ok (y, set_trace (trace s ++ t') s))
      (splitters s) all'.
Proof.
  rewrite restoreSplitterState_None.
  destruct (mapM restoreSplitter (splitters s) s) as [[all' s1]|e] eqn:Hrun; [|done].
  intros [= <-].
  apply mapM_readOnly_inv in Hrun as (rs & -> & -> & Hw & Hall);
    [|apply readOnly_restoreSplitter].
  exists rs.*1, (concat rs.*2). split; [|split; [done|]].
  - clear Hall. induction Hw as [|r rs Hr _ IH]; [done|].
    csimpl. by rewrite writtenKeys_app, Hr, IH.
  - apply Forall2_fmap_r. eapply Forall2_impl; [exact Hall|].
    intros x r Hx. simpl. exists r.2. exact Hx.
Qed.

Lemma restoreHeaderState_None_inv s s' :
  restoreHeaderState None s = Ok (tt, s') ->
  exists all' t,
    writtenKeys t = [] /\
    s' = set_headers all' (set_trace (trace s ++ t) s) /\
    Forall2 (fun x y => exists t', restoreHeader x s
                                   = Ok (y, set_trace (trace s ++ t') s))
      (headers s) all'.
Proof.
  rewrite restoreHeaderState_None.
  destruct (mapM restoreHeader (headers s) s) as [[all' s1]|e] eqn:Hrun; [|done].
  intros [= <-].
  apply mapM_readOnly_inv in Hrun as (rs & -> & -> & Hw & Hall);
    [|apply readOnly_restoreHeader].
  exists rs.*1, (concat rs.*2). split; [|split; [done|]].
  - clear Hall. induction Hw as [|r rs Hr _ IH]; [done|].
    csimpl. by rewrite writtenKeys_app, Hr, IH.
  - apply Forall2_fmap_r. eapply Forall2_impl; [exact Hall|].
    intros x r Hx. simpl. exists r.2. exact Hx.
Qed.

Lemma restoreHeaderState_Some_inv i s s' :
  restoreHeaderState (Some i) s = Ok (tt, s') ->
  exists hs t,
    writtenKeys t = [] /\
    s' = set_headers hs (set_trace (trace s ++ t) s) /\
    length hs = length (headers s) /\
    forall j, j ≠ i -> hs !! j = headers s !! j.
Proof.
  unfold restoreHeaderState. unfold bind at 1, gets at 1.
  destruct (headers s !! i) as [h|] eqn:Hi.
  - intros Hrun. apply bind_inv in Hrun as (h' & s1 & Hh & Hrun).
    apply readOnly_inv in Hh as (t & Ht & ->); [|apply readOnly_restoreHeader].
    injection Hrun as <-.
    exists (<[i := h']> (headers s)), t. split; [done|]. split; [done|].
    split; [by rewrite length_insert|].
    intros j Hj. by rewrite list_lookup_insert_ne.
  - intros [= <-]. exists (headers s), []. split; [done|].
    split; [|done]. rewrite app_nil_r. by destruct s.
Qed.

Lemma sameStore_refl s : sameStore s s.
Proof. done. Qed.

Lemma sameStore_trans s1 s2 s3 : sameStore s1 s2 -> sameStore s2 s3 -> sameStore s1 s3.
Proof. intros [H1 H2] [H3 H4]. split; congruence. Qed.

Lemma sameStore_restoreWindowState s s' :
  restoreWindowState s = Ok (tt, s') -> sameStore s s'.
Proof.
  destruct (restoreWindowState_spec s) as (root' & t & -> & Ht & _).
  intros [= <-]. split; [done|]. simpl. by rewrite writtenKeys_app, Ht, app_nil_r.
Qed.

Lemma sameStore_restoreSplitterState arg s s' :
  restoreSplitterState arg s = Ok (tt, s') -> sameStore s s'.
Proof.
  intros Hrun. apply restoreSplitterState_frame in Hrun as (ws & t & Ht & ->).
  split; [done|]. simpl. by rewrite writtenKeys_app, Ht, app_nil_r.
Qed.

Lemma sameStore_restoreHeaderState arg s s' :
  restoreHeaderState arg s = Ok (tt, s') -> sameStore s s'.
Proof.
  intros Hrun. apply restoreHeaderState_frame in Hrun as (hs & t & Ht & ->).
  split; [done|]. simpl. by rewrite writtenKeys_app, Ht, app_nil_r.
Qed.

Lemma sameStore_restoreState s s' :
  restoreState s = Ok (tt, s') -> sameStore s s'.
Proof.
  unfold restoreState. intros Hrun.
  apply bind_inv in Hrun as ([] & s1 & Hwin & Hrun).
  apply bind_inv in Hrun as ([] & s2 & Hsp & Hhd).
  eapply sameStore_trans; [by apply sameStore_restoreWindowState|].
  eapply sameStore_trans; [by eapply sameStore_restoreSplitterState|].
  by eapply sameStore_restoreHeaderState.
Qed.

Lemma sameStore_widgetResized object s s' :
  widgetResized object s = Ok (tt, s') -> sameStore s s'.
Proof.
  intros Hrun. apply widgetResized_inv in Hrun as (s1 & Hrun & _ & ->).
  assert (sameStore (set_m_resizing true s) s1) as [Hst Hw]; [|by split].
  destruct object as [|view].
  - apply bind_inv in Hrun as ([] & s2 & Hsp & Hhd).
    eapply sameStore_trans; [by eapply sameStore_restoreSplitterState|].
    by eapply sameStore_restoreHeaderState.
  - unfold bind at 1, gets at 1 in Hrun.
    apply foreachM_restoreHeaderState_frame in Hrun as (hs & t & Ht & ->).
    split; [done|]. simpl. by rewrite writtenKeys_app, Ht, app_nil_r.
Qed.

(** X12: restoring never writes. restoreState, widgetResized (the work
    of a Resize event) and headerSectionCountChanged leave the settings
    object as it is and log no write; setup (the work of the first Show
    and of reset) leaves the stored data as they are and logs no write:
    the store is written by saveState and widgetCustomized only. *)
Theorem restoring_never_writes s s' :
  (restoreState s = Ok (tt, s') -> sameStore s s') /\
  (forall object, widgetResized object s = Ok (tt, s') -> sameStore s s') /\
  (forall sender, headerSectionCountChanged sender s = Ok (tt, s') ->
     sameStore s s') /\
  (setup s = Ok (tt, s') ->
   st_data (m_stateSettings s') = st_data (m_stateSettings s) /\
   writtenKeys (trace s') = writtenKeys (trace s)).
Proof.
  split; [apply sameStore_restoreState|].
  split; [intros object; apply sameStore_widgetResized|].
  split; [intros sender; apply sameStore_restoreHeaderState|].
  destruct (QString_isEmpty (rw_objectName (m_widget s))) eqn:Hname.
  - rewrite setup_unnamed by done. intros [= <-]. split; [done|]. simpl.
    by rewrite writtenKeys_app, app_nil_r.
  - destruct (setup_named s Hname) as (c & t & Ht & ->).
    intros Hrun. apply sameStore_restoreState in Hrun as [-> ->].
    split; [done|]. simpl.
    by rewrite writtenKeys_app, (storeAccesses_writtenKeys t Ht), app_nil_r.
Qed.

(** X13: a Resize of the root widget re-applies default sizes only:
    widgetResized leaves the root widget and every splitter and header for
    which a state is stored exactly as they are, and m_resizing is put
    back to what it was. *)
Theorem resize_leaves_persisted_widgets_alone s s' :
  widgetResized ObjRoot s = Ok (tt, s') ->
  m_widget s' = m_widget s /\
  m_resizing s' = m_resizing s /\
  (forall k w,
     splitters s !! k = Some w ->
     value (widgetStateKey (sp_objectName w)) (m_stateSettings s) ≠ [] ->
     splitters s' !! k = Some w) /\
  (forall k h,
     headers s !! k = Some h ->
     value (widgetStateKey (hv_objectName h)) (m_stateSettings s) ≠ [] ->
     headers s' !! k = Some h).
Proof.
  intros Hrun. apply widgetResized_inv in Hrun as (s1 & Hrun & _ & ->).
  apply bind_inv in Hrun as ([] & s2 & Hsp & Hhd).
  apply restoreSplitterState_None_inv in Hsp as (ws' & t1 & _ & -> & Hws).
  apply restoreHeaderState_None_inv in Hhd as (hs' & t2 & _ & -> & Hhs).
  split; [done|]. split; [done|]. split.
  - intros k w Hk Hval. simpl.
    destruct (Forall2_lookup_l _ _ _ _ _ Hws Hk) as (w' & Hk' & t' & Hw').
    rewrite Hk'. f_equal.
    destruct (QString_isEmpty (sp_objectName w)) eqn:Hname.
    + rewrite restoreSplitter_unnamed in Hw' by done. congruence.
    + rewrite restoreSplitter_stored in Hw' by done. simpl in Hw'. congruence.
  - intros k h Hk Hval. simpl.
    destruct (Forall2_lookup_l _ _ _ _ _ Hhs Hk) as (h' & Hk' & t' & Hh').
    rewrite Hk'. f_equal.
    destruct (QString_isEmpty (hv_objectName h)) eqn:Hname.
    + rewrite restoreHeader_unnamed in Hh' by done. congruence.
    + destruct (decide (QHeaderView_count h = 0%nat)) as [Hc|Hc].
      * rewrite restoreHeader_empty in Hh' by done. congruence.
      * rewrite restoreHeader_stored in Hh' by done. simpl in Hh'. congruence.
Qed.

Lemma elem_of_findChildren_headers i view hs :
  i ∈ findChildren_headers view hs ->
  exists h, hs !! i = Some h /\
            (hv_view h = view \/ QWidget_isAncestorOf view (hv_view h) = true).
Proof.
  unfold findChildren_headers. intros Hi.
  apply list_elem_of_omap in Hi as ([j h] & Hin & Hf).
  apply elem_of_lookup_imap in Hin as (j' & h' & [= -> ->] & Hj).
  simpl in Hf.
  destruct (bool_decide (hv_view h' = view)
            || QWidget_isAncestorOf view (hv_view h')) eqn:Hv; [|done].
  injection Hf as <-. exists h'. split; [done|].
  apply orb_true_iff in Hv as [Hv|Hv]; [left|by right].
  by apply bool_decide_eq_true in Hv.
Qed.

Lemma foreachM_restoreHeaderState_others l s s' :
  foreachM (fun header => restoreHeaderState (Some header)) l s = Ok (tt, s') ->
  splitters s' = splitters s /\ m_widget s' = m_widget s /\
  length (headers s') = length (headers s) /\
  forall j, j ∉ l -> headers s' !! j = headers s !! j.
Proof.
  revert s. induction l as [|i l IH]; intros s; simpl.
  - by intros [= <-].
  - intros Hrun. apply bind_inv in Hrun as ([] & s1 & Hone & Hrest).
    apply restoreHeaderState_Some_inv in Hone as (hs & t & _ & -> & Hlen & Hhs).
    apply IH in Hrest as (Hsp & Hw & Hlen' & Hothers).
    split; [done|]. split; [done|]. split; [by rewrite Hlen'|].
    intros j Hj. apply not_elem_of_cons in Hj as [Hne Hj].
    rewrite Hothers by done. simpl. by apply Hhs.
Qed.

(** X14: a Resize of an item view touches only the headers below that
    view in the widget tree, that is, its own header and the headers of
    item views nested in it: widgetResized for the view leaves the root
    widget, all splitters and every header of an item view that is neither
    the view nor nested in it as they are, and adds or removes no header. *)
Theorem view_resize_touches_only_headers_below s view s' :
  widgetResized (ObjView view) s = Ok (tt, s') ->
  m_widget s' = m_widget s /\
  splitters s' = splitters s /\
  length (headers s') = length (headers s) /\
  forall j h, headers s !! j = Some h ->
              hv_view h ≠ view ->
              QWidget_isAncestorOf view (hv_view h) = false ->
              headers s' !! j = Some h.
Proof.
  intros Hrun. apply widgetResized_inv in Hrun as (s1 & Hrun & _ & ->).
  unfold bind at 1, gets at 1 in Hrun.
  apply foreachM_restoreHeaderState_others in Hrun as (Hsp & Hw & Hlen & Hothers).
  split; [done|]. split; [done|]. split; [done|].
  intros j h Hj Hview Hnested. simpl. rewrite Hothers; [done|].
  intros Hin. apply elem_of_findChildren_headers in Hin as (h' & Hj' & Hv).
  simpl in Hj'. assert (h' = h) as -> by congruence.
  destruct Hv as [Hv|Hv]; congruence.
Qed.

(** X15: a stored state takes precedence over the default sizes. Outside
    a resize, restoreSplitterState for a named splitter with a stored state
    hands that state to QSplitter::restoreState and marks the splitter
    customized, and headerSectionCountChanged does the same for a named
    header with a column; the registered default sizes are not looked at
    (so not checked against the count either), only the sender changes and
    the single store access is the read of its state key. *)
Theorem stored_state_precedes_defaults s :
  m_resizing s = false ->
  (forall k w,
     splitters s !! k = Some w ->
     QString_isEmpty (sp_objectName w) = false ->
     value (widgetStateKey (sp_objectName w)) (m_stateSettings s) ≠ [] ->
     restoreSplitterState (Some k) s
     = Ok (tt,
           set_splitters
             (<[k := QSplitter_setCustomized true
                       (QSplitter_setLayout
                          (QSplitter_restoreState
                             (value (widgetStateKey (sp_objectName w))
                                (m_stateSettings s))
                             (sp_layout w)) w)]> (splitters s))
             (set_trace (trace s ++ [readAction s (sp_objectName w)]) s))) /\
  (forall k h,
     headers s !! k = Some h ->
     QString_isEmpty (hv_objectName h) = false ->
     QHeaderView_count h ≠ 0%nat ->
     value (widgetStateKey (hv_objectName h)) (m_stateSettings s) ≠ [] ->
     headerSectionCountChanged k s
     = Ok (tt,
           set_headers
             (<[k := QHeaderView_setCustomized true
                       (QHeaderView_setLayout
                          (QHeaderView_restoreState
                             (value (widgetStateKey (hv_objectName h))
                                (m_stateSettings s))
                             (hv_layout h)) h)]> (headers s))
             (set_trace (trace s ++ [readAction s (hv_objectName h)]) s))).
Proof.
  intros Hres. split.
  - intros k w Hk Hname Hval.
    unfold restoreSplitterState. unfold bind at 1, gets at 1. rewrite Hk.
    unfold bind. rewrite restoreSplitter_stored by done. by rewrite Hres.
  - intros k h Hk Hname Hcount Hval.
    unfold headerSectionCountChanged, restoreHeaderState.
    unfold bind at 1, gets at 1. rewrite Hk.
    unfold bind. rewrite restoreHeader_stored by done. by rewrite Hres.
Qed.

(** ** The connections setup makes *)

Section SetupConnects.
Context {W : Type} (nm : W -> string) (conn : nat -> W -> M unit).
Context (P : Connections -> nat -> W -> Prop).
Hypothesis conn_adds : forall i w s s',
  conn i w s = Ok (tt, s') ->
  P (connections s') i w /\
  forall j w', P (connections s) j w' -> P (connections s') j w'.

Lemma foldM_setupStep_connects l known s known' s' :
  foldM (setupStep nm conn) (imap pair l) known s = Ok (known', s') ->
  (forall n, n ∈ known' ->
     n ∈ known \/
     exists i w, l !! i = Some w /\ QString_isEmpty (nm w) = false /\
                 QString_toLower (nm w) = n) /\
  (forall j w, P (connections s) j w -> P (connections s') j w) /\
  (forall i w, l !! i = Some w -> QString_isEmpty (nm w) = false ->
               ~ duplicateName nm known l i w -> P (connections s') i w).
Proof.
  revert known' s'. induction l as [|x l IH] using rev_ind; intros known' s'.
  - simpl. intros [= <- <-]. split; [by left|]. split; [done|].
    by intros i w; rewrite lookup_nil.
  - rewrite imap_app, foldM_app. intros Hrun.
    apply bind_inv in Hrun as (known1 & s1 & Hrun1 & Hstep).
    destruct (IH _ _ Hrun1) as (Hknown & Hmono & Hconn). clear IH Hrun1.
    change (foldM (setupStep nm conn) (imap _ [x]) known1 s1)
      with (bind (setupStep nm conn known1 ((length l + 0)%nat, x)) ret s1)
      in Hstep.
    rewrite Nat.add_0_r in Hstep.
    apply bind_inv in Hstep as (known2 & s2 & Hstep & [= <- <-]).
    assert (forall i w, (l ++ [x]) !! i = Some w ->
              (i < length l)%nat /\ l !! i = Some w \/ i = length l /\ w = x)
      as Hlook.
    { intros i w Hi. apply lookup_app_Some in Hi as [Hi|[Hge Hi]].
      - left. split; [by eapply lookup_lt_Some|done].
      - right. apply list_lookup_singleton_Some in Hi as [Hi ->]. split; [lia|done]. }
    assert (forall i w, l !! i = Some w ->
              duplicateName nm known l i w -> duplicateName nm known (l ++ [x]) i w)
      as Hdup_new.
    { intros i w Hi [Hk|(i' & w' & Hlt' & Hi' & Hn' & Heq)]; [by left|].
      right. exists i', w'. split; [done|]. split; [|done].
      by apply lookup_app_l_Some. }
    assert (forall n,
              n ∈ known1 ->
              n ∈ known \/
              exists i w, (i < length l)%nat /\ (l ++ [x]) !! i = Some w /\
                          QString_isEmpty (nm w) = false /\
                          QString_toLower (nm w) = n) as Hknown1.
    { intros n Hn. destruct (Hknown n Hn) as [?|(i & w & Hi & Hw & Heq)]; [by left|].
      right. exists i, w. split; [by eapply lookup_lt_Some|].
      split; [by apply lookup_app_l_Some|done]. }
    assert (forall s3, connections s3 = connections s1 -> known2 = known1 ->
              (forall n, n ∈ known2 ->
                 n ∈ known \/
                 exists i w, (l ++ [x]) !! i = Some w /\
                             QString_isEmpty (nm w) = false /\
                             QString_toLower (nm w) = n) /\
              (forall j w, P (connections s) j w -> P (connections s3) j w) /\
              (forall i w, (i < length l)%nat -> l !! i = Some w ->
                           QString_isEmpty (nm w) = false ->
                           ~ duplicateName nm known (l ++ [x]) i w ->
                           P (connections s3) i w)) as Hsame.
    { intros s3 Hc ->. rewrite Hc. split; [|split; [done|]].
      - intros n Hn. destruct (Hknown1 n Hn) as [?|(i & w & _ & Hi)]; eauto.
      - intros i w _ Hi Hw Hnd. apply Hconn; [done..|].
        intros Hd. by apply Hnd, Hdup_new. }
    unfold setupStep in Hstep.
    apply bind_inv in Hstep as (ok & s0 & Hcheck & Hstep).
    destruct (QString_isEmpty (nm x)) eqn:Hname.
    + rewrite checkWidget_unnamed in Hcheck by done.
      injection Hcheck as <- <-. simpl in Hstep. injection Hstep as <- <-.
      destruct (Hsame (set_trace (trace s1 ++ [Warn_noName]) s1) eq_refl eq_refl)
        as (Hk & Hm & Hc).
      split; [done|]. split; [done|].
      intros i w Hi Hw Hnd.
      destruct (Hlook i w Hi) as [[Hlt Hi']|[-> ->]]; [by apply Hc|congruence].
    + rewrite checkWidget_named in Hcheck by done.
      injection Hcheck as <- <-. simpl in Hstep.
      destruct (bool_decide (QString_toLower (nm x) ∈ known1)) eqn:Hin.
      * apply bool_decide_eq_true in Hin.
        apply bind_inv in Hstep as ([] & s3 & Hlog & [= <- <-]).
        injection Hlog as <-.
        destruct (Hsame (set_trace (trace s1 ++ [Warn_duplicate (QString_toLower (nm x))]) s1)
                    eq_refl eq_refl) as (Hk & Hm & Hc).
        split; [done|]. split; [done|].
        intros i w Hi Hw Hnd.
        destruct (Hlook i w Hi) as [[Hlt Hi']|[-> ->]]; [by apply Hc|].
        exfalso. apply Hnd.
        destruct (Hknown1 _ Hin) as [?|(i' & w' & Hlt & Hi' & Hw' & Heq)];
          [by left|].
        right. by exists i', w'.
      * apply bool_decide_eq_false in Hin.
        apply bind_inv in Hstep as ([] & s3 & Hc3 & [= <- <-]).
        apply conn_adds in Hc3 as [Hnew Hm3].
        split; [|split].
        -- intros n Hn. apply elem_of_union in Hn as [Hn|Hn].
           ++ apply elem_of_singleton in Hn as ->. right.
              exists (length l), x. split; [|done].
              rewrite lookup_app_r by lia. by rewrite Nat.sub_diag.
           ++ destruct (Hknown1 n Hn) as [?|(i & w & _ & Hi)]; eauto.
        -- intros j w Hj. by apply Hm3, Hmono.
        -- intros i w Hi Hw Hnd.
           destruct (Hlook i w Hi) as [[Hlt Hi']|[-> ->]]; [|done].
           apply Hm3, Hconn; [done..|]. intros Hd. by apply Hnd, Hdup_new.
Qed.
End SetupConnects.

Lemma connect_splitterMoved_adds i (w : QSplitter) s s' :
  connect_splitterMoved i s = Ok (tt, s') ->
  i ∈ c_splitterMoved (connections s') /\
  forall j (w' : QSplitter),
    j ∈ c_splitterMoved (connections s) -> j ∈ c_splitterMoved (connections s').
Proof. intros [= <-]. simpl. split; [set_solver|]. intros j _. set_solver. Qed.

Lemma connectHeader_adds i (h : QHeaderView) s s' :
  connectHeader i h s = Ok (tt, s') ->
  (i ∈ c_sectionResized (connections s') /\
   i ∈ c_sectionCountChanged (connections s') /\
   hv_view h ∈ c_viewFilters (connections s')) /\
  forall j (h' : QHeaderView),
    j ∈ c_sectionResized (connections s) /\
    j ∈ c_sectionCountChanged (connections s) /\
    hv_view h' ∈ c_viewFilters (connections s) ->
    j ∈ c_sectionResized (connections s') /\
    j ∈ c_sectionCountChanged (connections s') /\
    hv_view h' ∈ c_viewFilters (connections s').
Proof.
  intros [= <-]. simpl. split.
  - split; [set_solver|]. split; [set_solver|]. apply list_elem_of_here.
  - intros j h' (Hr & Hc & Hv). split; [set_solver|]. split; [set_solver|].
    destruct (decide (hv_view h' = hv_view h)) as [->|Hne];
      [apply list_elem_of_here|].
    apply list_elem_of_further. by apply list_elem_of_filter.
Qed.

(** X16: what setup connects. On a named root widget, after setup every
    named splitter whose lower-case name is neither that of the root nor
    that of a named splitter before it has its splitterMoved signal
    connected, and every named header whose lower-case name is neither
    that of the root, nor of a named splitter, nor of a named header
    before it has sectionResized and sectionCountChanged connected and the
    event filter installed on its item view. *)
Theorem setup_connects_first_holders s s' :
  let rootName := QString_toLower (rw_objectName (m_widget s)) in
  QString_isEmpty (rw_objectName (m_widget s)) = false ->
  setup s = Ok (tt, s') ->
  (forall j w,
     splitters s !! j = Some w -> QString_isEmpty (sp_objectName w) = false ->
     ~ duplicateName sp_objectName {[rootName]} (splitters s) j w ->
     j ∈ c_splitterMoved (connections s')) /\
  (forall j h,
     headers s !! j = Some h -> QString_isEmpty (hv_objectName h) = false ->
     QString_toLower (hv_objectName h) ≠ rootName ->
     (forall w, w ∈ splitters s -> QString_isEmpty (sp_objectName w) = false ->
                QString_toLower (sp_objectName w)
                ≠ QString_toLower (hv_objectName h)) ->
     ~ duplicateName hv_objectName ∅ (headers s) j h ->
     j ∈ c_sectionResized (connections s') /\
     j ∈ c_sectionCountChanged (connections s') /\
     hv_view h ∈ c_viewFilters (connections s')).
Proof.
  intros rootName Hname Hrun.
  set (s0 := set_m_stateSettings
               (beginGroup ("UiState/" +:+ rw_objectName (m_widget s))
                  (m_stateSettings s))
               (set_m_initialized true s)).
  destruct (foldM_setupStep sp_objectName (fun i _ => connect_splitterMoved i)
              (fun c j => j ∈ c_splitterMoved c) connect_splitterMoved_spec
              (splitters s) {[rootName]} s0)
    as (known1 & c1 & t1 & Hrun1 & _).
  set (s1 := set_connections c1 (set_trace (trace s0 ++ t1) s0)) in *.
  destruct (foldM_setupStep hv_objectName connectHeader
              (fun c j => j ∈ c_sectionResized c \/ j ∈ c_sectionCountChanged c)
              connectHeader_spec (headers s) known1 s1)
    as (known2 & c2 & t2 & Hrun2 & _).
  set (s2 := set_connections c2 (set_trace (trace s1 ++ t2) s1)) in *.
  assert (foldM setupHeader (imap pair (headers s)) known1 s1 = Ok (known2, s2))
    as Hrun2'.
  { erewrite foldM_ext; [exact Hrun2|]. intros. apply setupHeader_setupStep. }
  assert (setup s = restoreState s2) as Hsetup.
  { unfold setup. unfold bind at 1, gets at 1.
    rewrite (bind_Ok _ _ _ _ _ (checkWidget_named _ _ Hname)). simpl.
    unfold bind at 1, modify at 1. unfold bind at 1, modify at 1. fold s0.
    unfold bind at 1, gets at 1.
    change (foldM setupSplitter (imap pair (splitters s0)))
      with (foldM (setupStep sp_objectName (fun i _ => connect_splitterMoved i))
              (imap pair (splitters s))).
    fold rootName. rewrite (bind_Ok _ _ _ _ _ Hrun1).
    unfold bind at 1, gets at 1.
    change (headers s1) with (headers s).
    by rewrite (bind_Ok _ _ _ _ _ Hrun2'). }
  rewrite Hsetup in Hrun.
  apply restoreState_frame in Hrun as (Hconn & _).
  pose proof (foldM_setupHeader_splitterMoved _ _ _ _ _ Hrun2') as Hframe.
  destruct (foldM_setupStep_connects sp_objectName
              (fun i _ => connect_splitterMoved i)
              (fun c j _ => j ∈ c_splitterMoved c) connect_splitterMoved_adds
              _ _ _ _ _ Hrun1) as (Hknown1 & _ & Hconn1).
  destruct (foldM_setupStep_connects hv_objectName connectHeader
              (fun c j h => j ∈ c_sectionResized c /\ j ∈ c_sectionCountChanged c /\
                            hv_view h ∈ c_viewFilters c) connectHeader_adds
              _ _ _ _ _ Hrun2) as (_ & _ & Hconn2).
  split.
  - intros j w Hj Hw Hnd. rewrite Hconn, Hframe. by apply (Hconn1 j w).
  - intros j h Hj Hh Hroot Hsp Hnd. rewrite Hconn. apply (Hconn2 j h Hj Hh).
    intros [Hk|Hearlier]; [|apply Hnd; by right].
    destruct (Hknown1 _ Hk) as [Hr|(i & w & Hi & Hw & Heq)].
    + apply elem_of_singleton in Hr. done.
    + apply (Hsp w); [by eapply list_elem_of_lookup_2|done..].
Qed.

(** ** Staying within the settings group *)

Lemma accessedKeys_app t1 t2 :
  accessedKeys (t1 ++ t2) = accessedKeys t1 ++ accessedKeys t2.
Proof. apply omap_app. Qed.

Lemma scopedStep_refl s : scopedStep s s.
Proof.
  repeat (split; [done|]). exists []. split; [by rewrite app_nil_r|].
  split; [|done]. intros k Hk. by apply elem_of_nil in Hk.
Qed.

Lemma scopedStep_trans s1 s2 s3 :
  scopedStep s1 s2 -> scopedStep s2 s3 -> scopedStep s1 s3.
Proof.
  intros (Hn1 & Hi1 & Hc1 & Hg1 & t1 & Ht1 & Hk1 & Hd1)
         (Hn2 & Hi2 & Hc2 & Hg2 & t2 & Ht2 & Hk2 & Hd2).
  assert (forall key, fullKey (m_stateSettings s2) key
                      = fullKey (m_stateSettings s1) key) as Hfull
    by (intros key; unfold fullKey; by rewrite Hg1).
  split; [congruence|]. split; [congruence|]. split; [congruence|].
  split; [congruence|].
  exists (t1 ++ t2). split; [by rewrite Ht2, Ht1, app_assoc|]. split.
  - intros k Hk. rewrite accessedKeys_app in Hk.
    apply elem_of_app in Hk as [Hk|Hk]; [by apply Hk1|].
    destruct (Hk2 k Hk) as [key ->]. exists key. apply Hfull.
  - intros k Hk. rewrite Hd2, Hd1; [done|done|].
    intros key. rewrite Hfull. apply Hk.
Qed.

Lemma scoped_ret {A} (a : A) : scoped (ret a).
Proof. intros s a' s' [= _ <-]. apply scopedStep_refl. Qed.

Lemma scoped_bind {A B} (m : M A) (k : A -> M B) :
  scoped m -> (forall a, scoped (k a)) -> scoped (bind m k).
Proof.
  intros Hm Hk s b s' Hrun. apply bind_inv in Hrun as (a & s1 & H1 & H2).
  eapply scopedStep_trans; [by eapply Hm|by eapply Hk].
Qed.

Lemma scoped_gets {A} (f : UIStateManager -> A) : scoped (gets f).
Proof. intros s a s' [= _ <-]. apply scopedStep_refl. Qed.

Lemma scoped_Q_ASSERT which cond : scoped (Q_ASSERT which cond).
Proof.
  intros s a s'. unfold Q_ASSERT. destruct cond; [|done].
  intros [= _ <-]. apply scopedStep_refl.
Qed.

Lemma scoped_modify (f : UIStateManager -> UIStateManager) :
  (forall s,
     rw_objectName (m_widget (f s)) = rw_objectName (m_widget s) /\
     m_initialized (f s) = m_initialized s /\
     connections (f s) = connections s /\
     m_stateSettings (f s) = m_stateSettings s /\
     trace (f s) = trace s) ->
  scoped (modify f).
Proof.
  intros Hf s a s' [= _ <-]. destruct (Hf s) as (Hn & Hi & Hc & Hst & Ht).
  split; [done|]. split; [done|]. split; [done|]. split; [by rewrite Hst|].
  exists []. split; [by rewrite app_nil_r|]. split.
  - intros k Hk. by apply elem_of_nil in Hk.
  - intros k _. by rewrite Hst.
Qed.

Lemma scoped_log a : accessKey a = None -> scoped (log a).
Proof.
  intros Ha s u s' [= _ <-]. repeat (split; [done|]).
  exists [a]. split; [done|]. split; [|done].
  intros k Hk. unfold accessedKeys in Hk. simpl in Hk. rewrite Ha in Hk.
  by apply elem_of_nil in Hk.
Qed.

Lemma scoped_settings_value key : scoped (settings_value key).
Proof.
  intros s v s' [= _ <-]. repeat (split; [done|]).
  eexists. split; [done|]. split; [|done].
  intros k Hk. apply list_elem_of_singleton in Hk as ->. by eexists.
Qed.

Lemma scoped_settings_setValue key v : scoped (settings_setValue key v).
Proof.
  intros s u s' [= _ <-]. repeat (split; [done|]).
  eexists. split; [done|]. split.
  - intros k Hk. apply list_elem_of_singleton in Hk as ->. by eexists.
  - intros k Hk. simpl. by rewrite lookup_insert_ne.
Qed.

Lemma scoped_checkWidget name : scoped (checkWidget name).
Proof.
  unfold checkWidget. destruct (QString_isEmpty name).
  - apply scoped_bind; [by apply scoped_log|]. intros _. apply scoped_ret.
  - apply scoped_ret.
Qed.

Lemma scoped_mapM {A B} (f : A -> M B) l :
  (forall x, scoped (f x)) -> scoped (mapM f l).
Proof.
  intros Hf. induction l as [|x l IH]; simpl; [apply scoped_ret|].
  apply scoped_bind; [done|]. intros y.
  apply scoped_bind; [done|]. intros ys. apply scoped_ret.
Qed.

Lemma scoped_foreachM {A} (f : A -> M unit) l :
  (forall x, scoped (f x)) -> scoped (foreachM f l).
Proof.
  intros Hf. induction l as [|x l IH]; simpl; [apply scoped_ret|].
  by apply scoped_bind.
Qed.

Lemma scoped_foldM {A B} (f : B -> A -> M B) l b :
  (forall b x, scoped (f b x)) -> scoped (foldM f l b).
Proof.
  intros Hf. revert b. induction l as [|x l IH]; intros b; simpl;
    [apply scoped_ret|].
  by apply scoped_bind.
Qed.

Create HintDb scoped discriminated.

#[local] Hint Resolve scoped_ret scoped_gets scoped_Q_ASSERT scoped_settings_value
  scoped_settings_setValue scoped_checkWidget : scoped.

(** Decomposes a computation along its binds, branches and loops. *)
Ltac scoped_tac :=
  unfold when;
  repeat first
    [ progress cbv beta zeta
    | solve [auto with scoped nocore]
    | apply scoped_log; reflexivity
    | apply scoped_modify; intros ?; repeat split; reflexivity
    | apply scoped_bind; [|intros ?]
    | apply scoped_mapM; intros ?
    | apply scoped_foreachM; intros ?
    | apply scoped_foldM; intros ? ?
    | match goal with
      | |- scoped (match ?x with _ => _ end) => destruct x
      end ].

Lemma scoped_defaultSizes_splitter w : scoped (defaultSizes_splitter w).
Proof. unfold defaultSizes_splitter. scoped_tac. Qed.

Lemma scoped_defaultSizes_header h : scoped (defaultSizes_header h).
Proof. unfold defaultSizes_header. scoped_tac. Qed.

Lemma scoped_setDefaultSizes_splitter w v : scoped (setDefaultSizes_splitter w v).
Proof. unfold setDefaultSizes_splitter. scoped_tac. Qed.

Lemma scoped_setDefaultSizes_header h v : scoped (setDefaultSizes_header h v).
Proof. unfold setDefaultSizes_header. scoped_tac. Qed.

Lemma scoped_splitterSize l sizes size : scoped (splitterSize l sizes size).
Proof. unfold splitterSize. scoped_tac. Qed.

Lemma scoped_headerSize l it : scoped (headerSize l it).
Proof. unfold headerSize. scoped_tac. Qed.

#[local] Hint Resolve scoped_defaultSizes_splitter scoped_defaultSizes_header
  scoped_setDefaultSizes_splitter scoped_setDefaultSizes_header
  scoped_splitterSize scoped_headerSize : scoped.

Lemma scoped_headerColumn acc it : scoped (headerColumn acc it).
Proof. unfold headerColumn. scoped_tac. Qed.

#[local] Hint Resolve scoped_headerColumn : scoped.

Lemma scoped_restoreSplitter w : scoped (restoreSplitter w).
Proof. unfold restoreSplitter. scoped_tac. Qed.

Lemma scoped_restoreHeader h : scoped (restoreHeader h).
Proof. unfold restoreHeader. scoped_tac. Qed.

Lemma scoped_saveSplitter w : scoped (saveSplitter w).
Proof. unfold saveSplitter. scoped_tac. Qed.

Lemma scoped_saveHeader h : scoped (saveHeader h).
Proof. unfold saveHeader. scoped_tac. Qed.

#[local] Hint Resolve scoped_restoreSplitter scoped_restoreHeader
  scoped_saveSplitter scoped_saveHeader : scoped.

Lemma scoped_restoreSplitterState arg : scoped (restoreSplitterState arg).
Proof. unfold restoreSplitterState. scoped_tac. Qed.

Lemma scoped_restoreHeaderState arg : scoped (restoreHeaderState arg).
Proof. unfold restoreHeaderState. scoped_tac. Qed.

Lemma scoped_saveSplitterState arg : scoped (saveSplitterState arg).
Proof. unfold saveSplitterState. scoped_tac. Qed.

Lemma scoped_saveHeaderState arg : scoped (saveHeaderState arg).
Proof. unfold saveHeaderState. scoped_tac. Qed.

Lemma scoped_saveWindowState : scoped saveWindowState.
Proof. unfold saveWindowState. scoped_tac. Qed.

Lemma scoped_restoreWindowState : scoped restoreWindowState.
Proof.
  intros s u s' Hrun. unfold restoreWindowState in Hrun.
  unfold bind at 1, gets at 1 in Hrun.
  destruct (rw_window (m_widget s)) as [window|];
    [|injection Hrun as _ <-; apply scopedStep_refl].
  unfold settings_value in Hrun. unfold_M. simpl in Hrun.
  assert (forall root',
            rw_objectName root' = rw_objectName (m_widget s) ->
            scopedStep s
              (set_m_widget root'
                 (set_trace
                    ((trace s
                      ++ [Settings_value
                            (fullKey (m_stateSettings s)
                               (widgetGeometryKey (rw_objectName (m_widget s))))])
                     ++ [Settings_value
                           (fullKey (m_stateSettings s)
                              (widgetStateKey (rw_objectName (m_widget s))))]) s)))
    as Hstep.
  { intros root' Hroot. repeat (split; [done|]).
    eexists. split; [simpl; by rewrite <- app_assoc|]. split; [|done].
    intros k Hk. simpl in Hk. apply elem_of_cons in Hk as [->|Hk]; [by eexists|].
    apply list_elem_of_singleton in Hk as ->. by eexists. }
  destruct (QByteArray_isEmpty _).
  - injection Hrun as _ <-. exact (Hstep _ eq_refl).
  - change (m_resizing (set_trace _ (set_trace _ s))) with (m_resizing s) in Hrun.
    destruct (m_resizing s); simpl in Hrun; injection Hrun as _ <-.
    + specialize (Hstep (m_widget s) eq_refl).
      by rewrite set_m_widget_id in Hstep.
    + exact (Hstep _ eq_refl).
Qed.

#[local] Hint Resolve scoped_restoreSplitterState scoped_restoreHeaderState
  scoped_saveSplitterState scoped_saveHeaderState scoped_saveWindowState
  scoped_restoreWindowState : scoped.

Lemma scoped_restoreState : scoped restoreState.
Proof. unfold restoreState. scoped_tac. Qed.

Lemma scoped_saveState : scoped saveState.
Proof. unfold saveState. scoped_tac. Qed.

Lemma scoped_widgetResized object : scoped (widgetResized object).
Proof. unfold widgetResized. scoped_tac. Qed.

Lemma scoped_widgetCustomized sender : scoped (widgetCustomized sender).
Proof. unfold widgetCustomized. scoped_tac. Qed.

Lemma scoped_headerSectionCountChanged sender :
  scoped (headerSectionCountChanged sender).
Proof. unfold headerSectionCountChanged. scoped_tac. Qed.

Lemma string_app_assoc (s1 s2 s3 : string) :
  (s1 +:+ s2) +:+ s3 = s1 +:+ (s2 +:+ s3).
Proof.
  induction s1 as [|a s1 IH]; [done|].
  change (String a ((s1 +:+ s2) +:+ s3) = String a (s1 +:+ (s2 +:+ s3))).
  by rewrite IH.
Qed.

Lemma fullKey_group st name key :
  st_groups st = ["UiState/" +:+ name] ->
  fullKey st key = "UiState/" +:+ name +:+ "/" +:+ key.
Proof.
  intros Hg. unfold fullKey. rewrite Hg. unfold groupPrefix.
  change (foldr _ EmptyString ["UiState/" +:+ name])
    with (("UiState/" +:+ name) +:+ "/").
  by rewrite !string_app_assoc.
Qed.

Lemma storeAccesses_accessedKeys t : storeAccesses t = [] -> accessedKeys t = [].
Proof.
  unfold storeAccesses, accessedKeys. induction t as [|a t IH]; [done|].
  rewrite filter_cons. destruct a; simpl; try done.
Qed.

Lemma groupInvariant_quiet name stored s s' :
  groupInvariant name stored s ->
  rw_objectName (m_widget s') = rw_objectName (m_widget s) ->
  m_stateSettings s' = m_stateSettings s ->
  m_initialized s' = m_initialized s ->
  connections s' = connections s ->
  accessedKeys (trace s') = accessedKeys (trace s) ->
  groupInvariant name stored s'.
Proof.
  intros (Hn & Hk & Hd & Hg) Hn' Hst Hi Hc Ht.
  split; [congruence|]. split; [by rewrite Ht|]. split; [by rewrite Hst|].
  by rewrite Hst, Hi, Hc.
Qed.

Lemma groupInvariant_scopedStep name stored s s' :
  groupInvariant name stored s ->
  m_initialized s = true ->
  scopedStep s s' ->
  groupInvariant name stored s'.
Proof.
  intros (Hn & Hk & Hd & Hg) Hinit (Hn' & Hi & Hc & Hgr & t & Ht & Hkeys & Hdata).
  destruct Hg as [(_ & Hnamed & Hgroup)|(Hfalse & _)]; [|congruence].
  split; [congruence|]. split; [|split].
  - intros k Hin. rewrite Ht, accessedKeys_app in Hin.
    apply elem_of_app in Hin as [Hin|Hin]; [by apply Hk|].
    destruct (Hkeys k Hin) as [key ->]. exists key. by apply fullKey_group.
  - intros k Hout. rewrite Hdata; [by apply Hd|].
    intros key ->. apply Hout. exists key. by apply fullKey_group.
  - left. split; [congruence|]. split; [done|]. congruence.
Qed.

Lemma groupInvariant_setup name stored s s' :
  rw_objectName (m_widget s) = name ->
  (forall k, k ∈ accessedKeys (trace s) -> inGroupOf name k) ->
  (forall k, ~ inGroupOf name k -> st_data (m_stateSettings s) !! k = stored !! k) ->
  st_groups (m_stateSettings s) = [] ->
  m_initialized s = false ->
  (QString_isEmpty name = true -> connections s = mkConnections ∅ ∅ ∅ []) ->
  setup s = Ok (tt, s') ->
  groupInvariant name stored s'.
Proof.
  intros Hn Hk Hd Hg Hi Hc Hrun.
  destruct (QString_isEmpty name) eqn:Hname.
  - rewrite setup_unnamed in Hrun by (by rewrite Hn). injection Hrun as <-.
    split; [done|]. split; [|split; [done|]].
    + simpl. rewrite accessedKeys_app. simpl. by rewrite app_nil_r.
    + right. simpl. by rewrite Hc.
  - destruct (setup_named s) as (c & t & Ht & Hsetup); [by rewrite Hn|].
    rewrite Hsetup in Hrun.
    pose proof (scoped_restoreState _ _ _ Hrun) as Hstep. revert Hstep.
    match goal with
    | |- scopedStep ?s2 _ -> _ =>
        intros Hstep;
        apply (groupInvariant_scopedStep name stored s2 s'); [|reflexivity|exact Hstep]
    end.
    split; [done|]. split; [|split; [done|]].
    + simpl. rewrite accessedKeys_app, (storeAccesses_accessedKeys t Ht).
      by rewrite app_nil_r.
    + left. simpl. rewrite Hg, Hn. done.
Qed.

Lemma groupInvariant_eventFilter name stored object event s r s' :
  groupInvariant name stored s ->
  eventFilter object event s = Ok (r, s') ->
  groupInvariant name stored s'.
Proof.
  intros Hinv Hrun. unfold eventFilter in Hrun.
  apply bind_inv in Hrun as ([] & s1 & H1 & Hrun). cbv zeta in Hrun.
  apply bind_inv in Hrun as ([] & s2 & H2 & Hrun).
  apply bind_inv in Hrun as ([] & s3 & H3 & Hrun).
  injection Hrun as _ <-.
  destruct (m_initialized s) eqn:Hinit.
  - (* initialized: a save, no setup, perhaps a resize *)
    assert (scoped (match object, event with
                    | ObjRoot, Hide =>
                        initialized <- gets m_initialized ;;
                        when initialized saveState
                    | _, _ => ret tt
                    end)) as Hpart1
      by (destruct object, event; scoped_tac; apply scoped_saveState).
    pose proof (Hpart1 _ _ _ H1) as Hs1.
    assert (m_initialized s1 = true) as Hinit1
      by (destruct Hs1 as (_ & -> & _); done).
    assert (s2 = s1) as ->.
    { destruct object, event; unfold_M; try congruence.
      rewrite Hinit1 in H2. simpl in H2. congruence. }
    assert (scoped (match event with
                    | Resize =>
                        initialized <- gets m_initialized ;;
                        resizing <- gets m_resizing ;;
                        when (initialized && negb resizing)
                          (widgetResized object)
                    | _ => ret tt
                    end)) as Hpart3
      by (destruct event; scoped_tac; apply scoped_widgetResized).
    pose proof (Hpart3 _ _ _ H3) as Hs3.
    eapply groupInvariant_scopedStep; [exact Hinv|done|].
    by eapply scopedStep_trans.
  - (* not initialized: nothing but setup on Show *)
    assert (s1 = s) as ->.
    { destruct object, event; unfold_M; try congruence.
      rewrite Hinit in H1. simpl in H1. congruence. }
    destruct Hinv as (Hn & Hk & Hd & Hg).
    destruct Hg as [(Htrue & _)|(_ & Hgroups & Hconn)]; [congruence|].
    assert (groupInvariant name stored s) as Hinv.
    { split; [done|]. split; [done|]. split; [done|]. by right. }
    destruct object as [|v], event; unfold_M;
      try (injection H2 as <-);
      rewrite ?Hinit in H3; simpl in H3;
      try (injection H3 as <-); try done.
    rewrite Hinit in H2. simpl in H2. by eapply groupInvariant_setup.
Qed.

Lemma setDefaultSizes_splitter_quiet w v s s' :
  setDefaultSizes_splitter w v s = Ok (tt, s') ->
  rw_objectName (m_widget s') = rw_objectName (m_widget s) /\
  m_stateSettings s' = m_stateSettings s /\
  m_initialized s' = m_initialized s /\
  connections s' = connections s /\
  accessedKeys (trace s') = accessedKeys (trace s).
Proof.
  unfold setDefaultSizes_splitter, checkWidget.
  destruct (QString_isEmpty (sp_objectName w)); unfold_M; intros [= <-]; simpl.
  - repeat (split; [done|]). rewrite accessedKeys_app. simpl. by rewrite app_nil_r.
  - done.
Qed.

Lemma setDefaultSizes_header_quiet h v s s' :
  setDefaultSizes_header h v s = Ok (tt, s') ->
  rw_objectName (m_widget s') = rw_objectName (m_widget s) /\
  m_stateSettings s' = m_stateSettings s /\
  m_initialized s' = m_initialized s /\
  connections s' = connections s /\
  accessedKeys (trace s') = accessedKeys (trace s).
Proof.
  unfold setDefaultSizes_header, checkWidget.
  destruct (QString_isEmpty (hv_objectName h)); unfold_M; intros [= <-]; simpl.
  - repeat (split; [done|]). rewrite accessedKeys_app. simpl. by rewrite app_nil_r.
  - done.
Qed.

Lemma groupInvariant_slot name stored (connected : bool) (slot : M unit) s s' :
  groupInvariant name stored s ->
  scoped slot ->
  (m_initialized s = false -> connected = false) ->
  when connected slot s = Ok (tt, s') ->
  groupInvariant name stored s'.
Proof.
  intros Hinv Hslot Hconn Hrun. destruct connected; simpl in Hrun.
  - destruct (m_initialized s) eqn:Hinit; [|by specialize (Hconn eq_refl)].
    eapply groupInvariant_scopedStep; [done..|]. by eapply Hslot.
  - by injection Hrun as <-.
Qed.

Lemma groupInvariant_dispatch name stored op s s' :
  groupInvariant name stored s ->
  dispatch op s = Ok (tt, s') ->
  groupInvariant name stored s'.
Proof.
  intros Hinv Hrun.
  assert (m_initialized s = false -> connections s = mkConnections ∅ ∅ ∅ [])
    as Hnone.
  { intros Hi. destruct Hinv as (_ & _ & _ & [(? & _)|(_ & _ & ?)]); congruence. }
  destruct op as [object event|i|i st|i| |i v|i v]; unfold dispatch in Hrun.
  - unfold bind at 1, gets at 1 in Hrun.
    destruct (match object with ObjRoot => true | ObjView _ => _ end);
      simpl in Hrun; [|by injection Hrun as <-].
    apply bind_inv in Hrun as (r & s1 & Hrun & [= <-]).
    by eapply groupInvariant_eventFilter.
  - unfold bind at 1, gets at 1 in Hrun.
    eapply groupInvariant_slot; [done|apply scoped_widgetCustomized| |exact Hrun].
    intros Hi. by rewrite (Hnone Hi).
  - unfold bind at 1, gets at 1 in Hrun.
    eapply groupInvariant_slot; [done|apply scoped_widgetCustomized| |exact Hrun].
    intros Hi. by rewrite (Hnone Hi).
  - unfold bind at 1, gets at 1 in Hrun.
    eapply groupInvariant_slot;
      [done|apply scoped_headerSectionCountChanged| |exact Hrun].
    intros Hi. by rewrite (Hnone Hi).
  - unfold reset in Hrun. unfold bind at 1, modify at 1 in Hrun.
    unfold bind at 1, modify at 1 in Hrun.
    destruct Hinv as (Hn & Hk & Hd & Hg).
    eapply groupInvariant_setup; [| | | | | |exact Hrun]; try done.
    + simpl. by destruct Hg as [(_ & _ & ->)|(_ & -> & _)].
    + simpl. intros Hname.
      destruct Hg as [(_ & Hnamed & _)|(_ & _ & Hc)]; congruence.
  - unfold bind at 1, gets at 1 in Hrun.
    destruct (splitters s !! i) as [w|]; [|by injection Hrun as <-].
    apply setDefaultSizes_splitter_quiet in Hrun as (? & ? & ? & ? & ?).
    by eapply groupInvariant_quiet.
  - unfold bind at 1, gets at 1 in Hrun.
    destruct (headers s !! i) as [h|]; [|by injection Hrun as <-].
    apply setDefaultSizes_header_quiet in Hrun as (? & ? & ? & ? & ?).
    by eapply groupInvariant_quiet.
Qed.

Lemma groupInvariant_run name stored ops s s' :
  groupInvariant name stored s ->
  run ops s = Ok (tt, s') ->
  groupInvariant name stored s'.
Proof.
  revert s. induction ops as [|op ops IH]; intros s Hinv; simpl.
  - by intros [= <-].
  - intros Hrun. apply bind_inv in Hrun as ([] & s1 & Hop & Hrest).
    eapply IH; [|exact Hrest]. by eapply groupInvariant_dispatch.
Qed.

Lemma groupInvariant_new root stored ws hs :
  groupInvariant (rw_objectName root) stored (UIStateManager_new root stored ws hs).
Proof.
  split; [done|]. split; [|split; [done|by right]].
  intros k Hk. by apply elem_of_nil in Hk.
Qed.

(** X17: the manager keeps to its settings group. Whatever events,
    signals and calls reach a manager constructed on a root widget, every
    key it ever reads or writes in the store is of the form
    UiState/<name of the root widget>/<key>, and the stored data under
    all other keys are, after the run, what they were at construction. *)
Theorem store_accesses_stay_in_group root stored ws hs ops s' :
  run ops (UIStateManager_new root stored ws hs) = Ok (tt, s') ->
  (forall k, k ∈ accessedKeys (trace s') -> inGroupOf (rw_objectName root) k) /\
  (forall k, ~ inGroupOf (rw_objectName root) k ->
     st_data (m_stateSettings s') !! k = stored !! k).
Proof.
  intros Hrun.
  destruct (groupInvariant_run _ _ _ _ _ (groupInvariant_new root stored ws hs) Hrun)
    as (_ & Hk & Hd & _).
  by split.
Qed.

(** X18: the settings groups are balanced. After any run of events,
    signals and calls, the settings object has exactly the group
    UiState/<name of the root widget> open when the manager is
    initialized, and no group when it is not: reset closes the group that
    setup opens again, so groups never nest. The manager is initialized
    only on a named root widget, and not initialized managers have no
    signal connected and no event filter on an item view. *)
Theorem settings_group_follows_initialization root stored ws hs ops s' :
  run ops (UIStateManager_new root stored ws hs) = Ok (tt, s') ->
  st_groups (m_stateSettings s')
  = (if m_initialized s' then ["UiState/" +:+ rw_objectName root] else []) /\
  (if m_initialized s' then QString_isEmpty (rw_objectName root) = false
   else connections s' = mkConnections ∅ ∅ ∅ []).
Proof.
  intros Hrun.
  destruct (groupInvariant_run _ _ _ _ _ (groupInvariant_new root stored ws hs) Hrun)
    as (_ & _ & _ & [(-> & Hn & ->)|(-> & -> & Hc)]); by split.
Qed.

(** ** From one session to the next *)

Lemma eventFilter_Hide s s1 :
  m_initialized s = true -> saveState s = Ok (tt, s1) ->
  eventFilter ObjRoot Hide s = Ok (false, s1).
Proof.
  intros Hinit Hsave. unfold eventFilter.
  unfold bind at 1. unfold bind at 1, gets at 1. rewrite Hinit. simpl.
  by rewrite Hsave.
Qed.

Lemma eventFilter_Show t t1 :
  m_initialized t = false -> setup t = Ok (tt, t1) ->
  eventFilter ObjRoot Show t = Ok (false, t1).
Proof.
  intros Hinit Hsetup. unfold eventFilter.
  unfold bind at 1, ret at 1. unfold bind at 1.
  unfold bind at 1, gets at 1. rewrite Hinit. simpl.
  by rewrite Hsetup.
Qed.

(** What a whole save cycle leaves under the state key of a customized
    splitter, and of a customized header. *)
Lemma saveState_splitter_value s k w :
  splitters s !! k = Some w ->
  QString_isEmpty (sp_objectName w) = false ->
  sp_customized w = true ->
  (forall j y, splitters s !! j = Some y -> j ≠ k ->
               sp_objectName y ≠ sp_objectName w) ->
  (forall h, h ∈ headers s -> hv_objectName h ≠ sp_objectName w) ->
  exists s1,
    saveState s = Ok (tt, s1) /\
    st_data (m_stateSettings s1)
      !! fullKey (m_stateSettings s) (widgetStateKey (sp_objectName w))
    = Some (QSplitter_saveState (sp_layout w)) /\
    rw_objectName (m_widget s1) = rw_objectName (m_widget s).
Proof.
  intros Hk Hname Hcust Huniq Hheaders.
  destruct (saveWindowState_spec s) as (t1 & d1 & Hrun1 & _).
  destruct (foreachM_saveAct sp_objectName (fun w => negb (sp_customized w))
              (fun w => QSplitter_saveState (sp_layout w)) (splitters s)
              (afterSave s t1 d1))
    as (t2 & d2 & Hrun2 & _ & _ & Hown).
  destruct (foreachM_saveAct hv_objectName
              (fun h => (QHeaderView_count h =? 0)%nat || negb (hv_customized h))
              (fun h => QHeaderView_saveState (hv_layout h)) (headers s)
              (afterSave (afterSave s t1 d1) t2 d2))
    as (t3 & d3 & Hrun3 & _ & Hkeep & _).
  assert (saveSplitterState None (afterSave s t1 d1)
          = Ok (tt, afterSave (afterSave s t1 d1) t2 d2)) as Hrun2'
    by (rewrite saveSplitterState_None; exact Hrun2).
  assert (saveHeaderState None (afterSave (afterSave s t1 d1) t2 d2)
          = Ok (tt, afterSave (afterSave (afterSave s t1 d1) t2 d2) t3 d3))
    as Hrun3' by (rewrite saveHeaderState_None; exact Hrun3).
  eexists. split.
  { unfold saveState.
    rewrite (bind_Ok _ _ _ _ _ Hrun1), (bind_Ok _ _ _ _ _ Hrun2'). exact Hrun3'. }
  split; [|done]. simpl.
  rewrite (Hkeep (fullKey (m_stateSettings s) (widgetStateKey (sp_objectName w)))).
  - simpl. apply (Hown k w Hk Hname); [by rewrite Hcust|].
    intros j y Hj Hlt _. apply (Huniq j y Hj). lia.
  - intros h Hh _ _ Heq. unfold fullKey in Heq. simpl in Heq.
    apply string_app_inv_head, widgetStateKey_inj in Heq.
    by apply (Hheaders h Hh).
Qed.

Lemma saveState_header_value s k h :
  headers s !! k = Some h ->
  QString_isEmpty (hv_objectName h) = false ->
  QHeaderView_count h ≠ 0%nat ->
  hv_customized h = true ->
  (forall j y, headers s !! j = Some y -> j ≠ k ->
               hv_objectName y ≠ hv_objectName h) ->
  exists s1,
    saveState s = Ok (tt, s1) /\
    st_data (m_stateSettings s1)
      !! fullKey (m_stateSettings s) (widgetStateKey (hv_objectName h))
    = Some (QHeaderView_saveState (hv_layout h)) /\
    rw_objectName (m_widget s1) = rw_objectName (m_widget s).
Proof.
  intros Hk Hname Hcount Hcust Huniq.
  destruct (saveWindowState_spec s) as (t1 & d1 & Hrun1 & _).
  destruct (foreachM_saveAct sp_objectName (fun w => negb (sp_customized w))
              (fun w => QSplitter_saveState (sp_layout w)) (splitters s)
              (afterSave s t1 d1))
    as (t2 & d2 & Hrun2 & _).
  destruct (foreachM_saveAct hv_objectName
              (fun h => (QHeaderView_count h =? 0)%nat || negb (hv_customized h))
              (fun h => QHeaderView_saveState (hv_layout h)) (headers s)
              (afterSave (afterSave s t1 d1) t2 d2))
    as (t3 & d3 & Hrun3 & _ & _ & Hown).
  assert (saveSplitterState None (afterSave s t1 d1)
          = Ok (tt, afterSave (afterSave s t1 d1) t2 d2)) as Hrun2'
    by (rewrite saveSplitterState_None; exact Hrun2).
  assert (saveHeaderState None (afterSave (afterSave s t1 d1) t2 d2)
          = Ok (tt, afterSave (afterSave (afterSave s t1 d1) t2 d2) t3 d3))
    as Hrun3' by (rewrite saveHeaderState_None; exact Hrun3).
  eexists. split.
  { unfold saveState.
    rewrite (bind_Ok _ _ _ _ _ Hrun1), (bind_Ok _ _ _ _ _ Hrun2'). exact Hrun3'. }
  split; [|done]. simpl.
  apply (Hown k h Hk Hname).
  - rewrite Hcust. apply Nat.eqb_neq in Hcount. by rewrite Hcount.
  - intros j y Hj Hlt _. apply (Huniq j y Hj). lia.
Qed.

(** What a whole restore makes of a splitter, and of a header, for which a
    state is stored. *)
Lemma restoreState_stored t :
  specsOk t ->
  m_resizing t = false ->
  exists t1,
    restoreState t = Ok (tt, t1) /\
    (forall k w,
       splitters t !! k = Some w ->
       QString_isEmpty (sp_objectName w) = false ->
       value (widgetStateKey (sp_objectName w)) (m_stateSettings t) ≠ [] ->
       splitters t1 !! k
       = Some (QSplitter_setCustomized true
                 (QSplitter_setLayout
                    (QSplitter_restoreState
                       (value (widgetStateKey (sp_objectName w)) (m_stateSettings t))
                       (sp_layout w)) w))) /\
    (forall k h,
       headers t !! k = Some h ->
       QString_isEmpty (hv_objectName h) = false ->
       QHeaderView_count h ≠ 0%nat ->
       value (widgetStateKey (hv_objectName h)) (m_stateSettings t) ≠ [] ->
       headers t1 !! k
       = Some (QHeaderView_setCustomized true
                 (QHeaderView_setLayout
                    (QHeaderView_restoreState
                       (value (widgetStateKey (hv_objectName h)) (m_stateSettings t))
                       (hv_layout h)) h))).
Proof.
  intros [Hsp Hhd] Hres.
  destruct (restoreWindowState_spec t) as (root' & t1 & Hrun1 & _).
  set (s1 := set_m_widget root' (set_trace (trace t ++ t1) t)) in *.
  destruct (mapM_readOnly_Ok restoreSplitter (splitters s1) s1)
    as (ws' & t2 & _ & Hrun2 & Hws).
  { apply readOnly_restoreSplitter. }
  { intros w Hw. apply restoreSplitter_Ok. rewrite Forall_forall in Hsp.
    by apply Hsp. }
  set (s2 := set_splitters ws' (set_trace (trace s1 ++ t2) s1)).
  destruct (mapM_readOnly_Ok restoreHeader (headers s2) s2)
    as (hs' & t3 & _ & Hrun3 & Hhs).
  { apply readOnly_restoreHeader. }
  { intros h Hh. apply restoreHeader_Ok. rewrite Forall_forall in Hhd.
    by apply Hhd. }
  eexists. split.
  { unfold restoreState. rewrite (bind_Ok _ _ _ _ _ Hrun1).
    assert (restoreSplitterState None s1 = Ok (tt, s2)) as Hrun2'
      by (by rewrite restoreSplitterState_None, Hrun2).
    rewrite (bind_Ok _ _ _ _ _ Hrun2').
    rewrite restoreHeaderState_None, Hrun3. reflexivity. }
  split.
  - intros k w Hk Hname Hval. simpl.
    destruct (Forall2_lookup_l _ _ _ _ _ Hws Hk) as (w' & Hk' & t' & Hw').
    rewrite restoreSplitter_stored in Hw' by done.
    change (m_resizing s1) with (m_resizing t) in Hw'. rewrite Hres in Hw'.
    injection Hw' as <- _. exact Hk'.
  - intros k h Hk Hname Hcount Hval. simpl.
    destruct (Forall2_lookup_l _ _ _ _ _ Hhs Hk) as (h' & Hk' & t' & Hh').
    rewrite restoreHeader_stored in Hh' by done.
    change (m_resizing s2) with (m_resizing t) in Hh'. rewrite Hres in Hh'.
    injection Hh' as <- _. exact Hk'.
Qed.

(** The setup of the next session. *)
Lemma nextSession_setup s1 t :
  QString_isEmpty (rw_objectName (m_widget s1)) = false ->
  nextSession s1 t -> specsOk t ->
  exists t1,
    setup t = Ok (tt, t1) /\
    m_initialized t1 = true /\
    st_groups (m_stateSettings t1) = ["UiState/" +:+ rw_objectName (m_widget s1)] /\
    (forall k w blob,
       splitters t !! k = Some w ->
       QString_isEmpty (sp_objectName w) = false ->
       st_data (m_stateSettings s1)
         !! ("UiState/" +:+ rw_objectName (m_widget s1) +:+ "/"
             +:+ widgetStateKey (sp_objectName w)) = Some blob ->
       blob ≠ [] ->
       splitters t1 !! k
       = Some (QSplitter_setCustomized true
                 (QSplitter_setLayout
                    (QSplitter_restoreState blob (sp_layout w)) w))) /\
    (forall k h blob,
       headers t !! k = Some h ->
       QString_isEmpty (hv_objectName h) = false ->
       QHeaderView_count h ≠ 0%nat ->
       st_data (m_stateSettings s1)
         !! ("UiState/" +:+ rw_objectName (m_widget s1) +:+ "/"
             +:+ widgetStateKey (hv_objectName h)) = Some blob ->
       blob ≠ [] ->
       headers t1 !! k
       = Some (QHeaderView_setCustomized true
                 (QHeaderView_setLayout
                    (QHeaderView_restoreState blob (hv_layout h)) h))).
Proof.
  intros Hroot (Hinit & Hres & Hgroups & Hdata & Hname) Hok.
  destruct (setup_named t) as (c & tr & _ & Hsetup); [by rewrite Hname|].
  set (t0 := set_connections c
               (set_trace (trace t ++ tr)
                  (set_m_stateSettings
                     (beginGroup ("UiState/" +:+ rw_objectName (m_widget t))
                        (m_stateSettings t))
                     (set_m_initialized true t)))) in *.
  destruct (restoreState_stored t0) as (t1 & Hrun & Hsp & Hhd); [done..|].
  assert (forall key blob,
            st_data (m_stateSettings s1)
              !! ("UiState/" +:+ rw_objectName (m_widget s1) +:+ "/" +:+ key)
            = Some blob ->
            value key (m_stateSettings t0) = blob) as Hv.
  { intros key blob Hblob. unfold value.
    change (st_data (m_stateSettings t0)) with (st_data (m_stateSettings t)).
    rewrite Hdata, (fullKey_group _ (rw_objectName (m_widget s1)));
      [exact (f_equal (default []) Hblob)|].
    simpl. by rewrite Hgroups, Hname. }
  destruct (scoped_restoreState _ _ _ Hrun) as (_ & Hi & _ & Hg & _).
  exists t1. split; [by rewrite Hsetup|]. split; [by rewrite Hi|].
  split; [rewrite Hg; simpl; by rewrite Hgroups, Hname|]. split.
  - intros k w blob Hk Hw Hblob Hne. pose proof (Hv _ _ Hblob) as Hval.
    rewrite (Hsp k w Hk Hw); [by rewrite Hval|by rewrite Hval].
  - intros k h blob Hk Hh Hcount Hblob Hne. pose proof (Hv _ _ Hblob) as Hval.
    rewrite (Hhd k h Hk Hh Hcount); [by rewrite Hval|by rewrite Hval].
Qed.

(** X19: the position of a splitter survives to the next session. On an
    initialized manager, for a customized, named splitter whose name no
    other splitter and no header shares, the Hide of the root widget
    saves and keeps the name of the root widget, and in the next session
    (a manager on a root widget of the same name, with well-formed default
    sizes, that finds the saved data on disk) the first Show hands the blob QSplitter::saveState produced
    to QSplitter::restoreState of the splitter of that name and marks it
    customized. (A state blob is never empty.) *)
Theorem splitter_state_survives_to_next_session s k w :
  let blob := QSplitter_saveState (sp_layout w) in
  m_initialized s = true ->
  QString_isEmpty (rw_objectName (m_widget s)) = false ->
  st_groups (m_stateSettings s) = ["UiState/" +:+ rw_objectName (m_widget s)] ->
  splitters s !! k = Some w ->
  QString_isEmpty (sp_objectName w) = false ->
  sp_customized w = true ->
  blob ≠ [] ->
  (forall j y, splitters s !! j = Some y -> j ≠ k ->
               sp_objectName y ≠ sp_objectName w) ->
  (forall h, h ∈ headers s -> hv_objectName h ≠ sp_objectName w) ->
  exists s1,
    eventFilter ObjRoot Hide s = Ok (false, s1) /\
    rw_objectName (m_widget s1) = rw_objectName (m_widget s) /\
    forall t k' w',
      nextSession s1 t -> specsOk t ->
      splitters t !! k' = Some w' -> sp_objectName w' = sp_objectName w ->
      exists t1,
        eventFilter ObjRoot Show t = Ok (false, t1) /\
        splitters t1 !! k'
        = Some (QSplitter_setCustomized true
                  (QSplitter_setLayout
                     (QSplitter_restoreState blob (sp_layout w')) w')).
Proof.
  intros blob Hinit Hroot Hgroups Hk Hname Hcust Hblob Huniq Hheaders.
  destruct (saveState_splitter_value s k w) as (s1 & Hsave & Hval & Hn1); [done..|].
  exists s1. split; [by apply eventFilter_Hide|]. split; [done|].
  intros t k' w' Hnext Hok Hk' Hsame.
  destruct (nextSession_setup s1 t) as (t1 & Hsetup & _ & _ & Hsp & _);
    [by rewrite Hn1|done..|].
  exists t1. split; [apply eventFilter_Show; [apply Hnext|done]|].
  apply Hsp; [done|by rewrite Hsame| |done].
  by rewrite Hsame, Hn1, <- (fullKey_group (m_stateSettings s)).
Qed.

(** X20: the same for a header: on an initialized manager, for a
    customized, named header with a column whose name no other header
    shares, the Hide of the root widget saves, and the first Show of the
    next session hands the blob QHeaderView::saveState produced to
    QHeaderView::restoreState of the header of that name, if it has a
    column by then, and marks it customized. *)
Theorem header_state_survives_to_next_session s k h :
  let blob := QHeaderView_saveState (hv_layout h) in
  m_initialized s = true ->
  QString_isEmpty (rw_objectName (m_widget s)) = false ->
  st_groups (m_stateSettings s) = ["UiState/" +:+ rw_objectName (m_widget s)] ->
  headers s !! k = Some h ->
  QString_isEmpty (hv_objectName h) = false ->
  QHeaderView_count h ≠ 0%nat ->
  hv_customized h = true ->
  blob ≠ [] ->
  (forall j y, headers s !! j = Some y -> j ≠ k ->
               hv_objectName y ≠ hv_objectName h) ->
  exists s1,
    eventFilter ObjRoot Hide s = Ok (false, s1) /\
    rw_objectName (m_widget s1) = rw_objectName (m_widget s) /\
    forall t k' h',
      nextSession s1 t -> specsOk t ->
      headers t !! k' = Some h' -> hv_objectName h' = hv_objectName h ->
      QHeaderView_count h' ≠ 0%nat ->
      exists t1,
        eventFilter ObjRoot Show t = Ok (false, t1) /\
        headers t1 !! k'
        = Some (QHeaderView_setCustomized true
                  (QHeaderView_setLayout
                     (QHeaderView_restoreState blob (hv_layout h')) h')).
Proof.
  intros blob Hinit Hroot Hgroups Hk Hname Hcount Hcust Hblob Huniq.
  destruct (saveState_header_value s k h) as (s1 & Hsave & Hval & Hn1); [done..|].
  exists s1. split; [by apply eventFilter_Hide|]. split; [done|].
  intros t k' h' Hnext Hok Hk' Hsame Hcount'.
  destruct (nextSession_setup s1 t) as (t1 & Hsetup & _ & _ & _ & Hhd);
    [by rewrite Hn1|done..|].
  exists t1. split; [apply eventFilter_Show; [apply Hnext|done]|].
  apply Hhd; [done|by rewrite Hsame|done| |done].
  by rewrite Hsame, Hn1, <- (fullKey_group (m_stateSettings s)).
Qed.

(** X21: reset applies the stored state again. On a named root widget
    whose settings group is open, outside a resize and with well-formed
    default sizes, reset returns with the manager initialized and the
    same group open, and every named splitter, and every named header
    with a column, for which a state is stored has that state handed to
    its restoreState and is marked customized. *)
Theorem reset_restores_from_store s :
  let group := "UiState/" +:+ rw_objectName (m_widget s) in
  QString_isEmpty (rw_objectName (m_widget s)) = false ->
  st_groups (m_stateSettings s) = [group] ->
  m_resizing s = false ->
  specsOk s ->
  exists s',
    reset s = Ok (tt, s') /\
    m_initialized s' = true /\
    st_groups (m_stateSettings s') = [group] /\
    (forall k w,
       splitters s !! k = Some w ->
       QString_isEmpty (sp_objectName w) = false ->
       value (widgetStateKey (sp_objectName w)) (m_stateSettings s) ≠ [] ->
       splitters s' !! k
       = Some (QSplitter_setCustomized true
                 (QSplitter_setLayout
                    (QSplitter_restoreState
                       (value (widgetStateKey (sp_objectName w)) (m_stateSettings s))
                       (sp_layout w)) w))) /\
    (forall k h,
       headers s !! k = Some h ->
       QString_isEmpty (hv_objectName h) = false ->
       QHeaderView_count h ≠ 0%nat ->
       value (widgetStateKey (hv_objectName h)) (m_stateSettings s) ≠ [] ->
       headers s' !! k
       = Some (QHeaderView_setCustomized true
                 (QHeaderView_setLayout
                    (QHeaderView_restoreState
                       (value (widgetStateKey (hv_objectName h)) (m_stateSettings s))
                       (hv_layout h)) h))).
Proof.
  intros group Hroot Hgroups Hres Hok.
  set (t := set_m_stateSettings (endGroup (m_stateSettings s))
              (set_m_initialized false s)).
  destruct (nextSession_setup s t) as (s' & Hsetup & Hinit & Hg & Hsp & Hhd);
    [done| |exact Hok|].
  { repeat split; try done. simpl. by rewrite Hgroups. }
  assert (forall key,
            value key (m_stateSettings s) ≠ [] ->
            st_data (m_stateSettings s)
              !! ("UiState/" +:+ rw_objectName (m_widget s) +:+ "/" +:+ key)
            = Some (value key (m_stateSettings s))) as Hv.
  { intros key. unfold value.
    rewrite (fullKey_group _ (rw_objectName (m_widget s))) by done.
    by destruct (st_data (m_stateSettings s) !! _). }
  exists s'. split; [exact Hsetup|]. split; [done|]. split; [done|]. split.
  - intros k w Hk Hw Hval. apply Hsp; [done..|by apply Hv|done].
  - intros k h Hk Hh Hcount Hval. apply Hhd; [done..|by apply Hv|done].
Qed.

(** ** Default sizes follow the window *)

(** X22: a Resize of the root widget applies the default sizes anew, to
    the extent of that moment. With well-formed default sizes,
    widgetResized returns, and a named splitter without a stored state
    for which default sizes are registered is given the sizes resolved
    against its present width or height, with the wildcards filled in by
    distributeSpace; a named header with a column, in the same situation,
    has every Interactive or Fixed section resized to its default size
    (its size hint for -1), resolved against the present size of its item
    view, and its other sections are left alone. *)
Theorem resize_applies_default_sizes_anew s :
  specsOk s ->
  exists s',
    widgetResized ObjRoot s = Ok (tt, s') /\
    (forall k w spec,
       splitters s !! k = Some w ->
       QString_isEmpty (sp_objectName w) = false ->
       value (widgetStateKey (sp_objectName w)) (m_stateSettings s) = [] ->
       m_defaultSplitterSizes s !! sp_objectName w = Some spec ->
       spec ≠ [] ->
       splitters s' !! k
       = Some (QSplitter_setSizes
                 (distributeSpace (resolvedSize (sp_layout w) <$> spec)
                    (splitterExtent (sp_layout w)) (sl_handleWidth (sp_layout w)))
                 w)) /\
    (forall k h spec,
       headers s !! k = Some h ->
       QString_isEmpty (hv_objectName h) = false ->
       QHeaderView_count h ≠ 0%nat ->
       value (widgetStateKey (hv_objectName h)) (m_stateSettings s) = [] ->
       m_defaultHeaderSizes s !! hv_objectName h = Some spec ->
       spec ≠ [] ->
       exists h',
         headers s' !! k = Some h' /\
         hv_objectName h' = hv_objectName h /\
         hv_customized h' = hv_customized h /\
         forall j,
           hl_sections (hv_layout h') !! j
           = (fun sec =>
                match spec !! j with
                | Some it => defaultSection (resolvedHeaderSize (hv_layout h) it) sec
                | None => sec
                end) <$> hl_sections (hv_layout h) !! j).
Proof.
  intros Hok. destruct (widgetResized_Ok ObjRoot s Hok) as [s' Hrun].
  exists s'. split; [done|].
  apply widgetResized_inv in Hrun as (s1 & Hrun & _ & ->).
  apply bind_inv in Hrun as ([] & s2 & Hsp & Hhd).
  apply restoreSplitterState_None_inv in Hsp as (ws' & t1 & _ & -> & Hws).
  apply restoreHeaderState_None_inv in Hhd as (hs' & t2 & _ & -> & Hhs).
  destruct Hok as [Hoks Hokh]. split.
  - intros k w spec Hk Hname Hval Hspec Hne. simpl.
    destruct (Forall2_lookup_l _ _ _ _ _ Hws Hk) as (w' & Hk' & t' & Hw').
    pose proof (Forall_lookup_1 _ _ _ _ Hoks Hk) as Hwok.
    unfold splitterSpecOk in Hwok. rewrite Hspec in Hwok.
    destruct (specOk_nonempty _ _ Hwok Hne) as [Hlen Hall].
    rewrite (restoreSplitter_defaults _ w spec) in Hw' by done.
    injection Hw' as <- _. exact Hk'.
  - intros k h spec Hk Hname Hcount Hval Hspec Hne. simpl.
    destruct (Forall2_lookup_l _ _ _ _ _ Hhs Hk) as (h' & Hk' & t' & Hh').
    pose proof (Forall_lookup_1 _ _ _ _ Hokh Hk) as Hhok.
    unfold headerSpecOk in Hhok. rewrite Hspec in Hhok.
    destruct (specOk_nonempty _ _ Hhok Hne) as [Hlen Hall].
    destruct (restoreHeader_defaults
                (set_splitters ws'
                   (set_trace (trace (set_m_resizing true s) ++ t1)
                      (set_m_resizing true s))) h spec)
      as (h2 & Hrun2 & Hn2 & Hc2 & _ & Hsec); [done..|].
    rewrite Hrun2 in Hh'. injection Hh' as <- _.
    exists h2. by repeat split.
Qed.

End ManagerMore.

(** * The properties at work on the sample toolkit *)

Section Samples.
#[local] Existing Instance Sample.qt.

Lemma sample_splitterSpecOk s :
  m_defaultSplitterSizes s = {["mainSplitter" := Sample.splitterDefaults]} ->
  splitterSpecOk s Sample.mainSplitter.
Proof.
  intros Hd. unfold splitterSpecOk. rewrite Hd. right.
  split; [reflexivity|]. repeat constructor.
Qed.

Lemma sample_headerSpecOk s :
  m_defaultHeaderSizes s = {["treeHeader" := Sample.headerDefaults]} ->
  headerSpecOk s Sample.treeHeader.
Proof.
  intros Hd. unfold headerSpecOk. rewrite Hd. right.
  split; [reflexivity|]. repeat constructor.
Qed.

Lemma restoreSplitterState_wildcard_witness :
  exists s' w',
    restoreSplitterState None Sample.fresh = Ok (tt, s') /\
    splitters s' !! 0%nat = Some w' /\
    sl_sizes (sp_layout w') = [40; 92; 60] /\
    sumZ (sl_sizes (sp_layout w')) + (3 + 1) * 2 = 200.
Proof.
  assert (Forall (splitterSpecOk Sample.fresh) (splitters Sample.fresh)) as Hok
    by (constructor; [by apply sample_splitterSpecOk|constructor]).
  exact (restoreSplitterState_wildcard Sample.fresh 0 Sample.mainSplitter
           Sample.splitterDefaults 1 eq_refl eq_refl eq_refl eq_refl Hok eq_refl
           ltac:(vm_compute; repeat (constructor; [discriminate|]); constructor)
           ltac:(vm_compute; discriminate)).
Defined.

Lemma sample_specsOk s :
  m_defaultSplitterSizes s = {["mainSplitter" := Sample.splitterDefaults]} ->
  m_defaultHeaderSizes s = {["treeHeader" := Sample.headerDefaults]} ->
  Forall (fun w => sp_objectName w = "mainSplitter" /\ sl_count (sp_layout w) = 3%nat)
    (splitters s) ->
  headers s = [Sample.treeHeader] ->
  specsOk s.
Proof.
  intros Hsp Hhd Hws Hhs. split.
  - eapply Forall_impl; [exact Hws|]. intros w [Hname Hcount].
    unfold splitterSpecOk. rewrite Hsp, Hname, Hcount. right.
    split; [reflexivity|]. repeat constructor.
  - rewrite Hhs. constructor; [by apply sample_headerSpecOk|constructor].
Qed.

Lemma reset_keeps_store_witness :
  exists s',
    reset Sample.returning = Ok (tt, s') /\
    st_data (m_stateSettings s') = st_data (m_stateSettings Sample.returning) /\
    writtenKeys (trace s') = writtenKeys (trace Sample.returning) /\
    (st_data (m_stateSettings Sample.returning) = ∅ ->
     exists s1,
       setup (firstRun Sample.returning) = Ok (tt, s1) /\
       m_widget s' = m_widget s1 /\
       splitters s' = splitters s1 /\
       headers s' = headers s1).
Proof.
  apply (reset_keeps_store Sample.returning).
  apply sample_specsOk; [reflexivity..| |reflexivity].
  constructor; [by split|constructor].
Defined.

(** The claim of C2 fails on the code: in a session that finds the
    splitter state of an earlier session in the store, reset leaves that
    state in the store and restores the splitter from it, where a first-ever
    run lays the splitter out by its default sizes. *)
Lemma reset_clears_nothing_counterexample :
  exists s s' s1,
    run [Event ObjRoot Show] Sample.returning = Ok (tt, s) /\
    reset s = Ok (tt, s') /\
    run [Event ObjRoot Show] Sample.fresh = Ok (tt, s1) /\
    st_data (m_stateSettings s') !! "UiState/MainWindow/mainSplitterState"
    = Some Sample.draggedBlob /\
    sl_sizes <$> (sp_layout <$> splitters s') = [[10; 20; 30]] /\
    sl_sizes <$> (sp_layout <$> splitters s1) = [[40; 92; 60]].
Proof.
  eexists _, _, _.
  split; [vm_compute; reflexivity|].
  split; [vm_compute; reflexivity|].
  split; [vm_compute; reflexivity|].
  split; [vm_compute; reflexivity|].
  split; vm_compute; reflexivity.
Qed.

Lemma unnamed_excluded_duplicates_logged_witness :
  exists s',
    setup (Sample.twins ∅) = Ok (tt, s') /\
    Warn_duplicate "pane" ∈ trace s' /\
    1%nat ∉ c_splitterMoved (connections s').
Proof.
  destruct (setup (Sample.twins ∅)) as [[[] s']|e] eqn:Hrun;
    [|vm_compute in Hrun; discriminate].
  exists s'. split; [reflexivity|].
  destruct (unnamed_excluded_duplicates_logged (Sample.twins ∅))
    as (_ & _ & _ & Hdup & _).
  destruct (Hdup s' eq_refl Hrun) as [Hsp _].
  destruct (Hsp 1%nat Sample.paneB eq_refl eq_refl) as [Hwarn Hconn].
  { right. exists 0%nat, Sample.paneA. split; [lia|]. by repeat split. }
  split; [exact Hwarn|]. intros Hin. by apply Hconn, elem_of_empty in Hin.
Defined.

(** The claim of C3 fails on the code for duplicate names: of two
    splitters named pane, the first is connected and saved when the user
    moves it; in the next session the second, the duplicate, is restored from
    the blob the first one wrote and marked customized, and the save cycle
    writes its state under the shared key, which the store then holds. *)
Lemma duplicate_saved_and_restored_counterexample :
  exists s1 s2 paneB',
    run [Event ObjRoot Show; SplitterMoved 0; SplitterMoved 1; Event ObjRoot Hide]
      (Sample.twins ∅) = Ok (tt, s1) /\
    run [Event ObjRoot Show; Event ObjRoot Hide]
      (Sample.twins (st_data (m_stateSettings s1))) = Ok (tt, s2) /\
    Warn_duplicate "pane" ∈ trace s2 /\
    splitters s2 !! 1%nat = Some paneB' /\
    sp_objectName paneB' = sp_objectName Sample.paneA /\
    sp_customized paneB' = true /\
    sl_sizes (sp_layout paneB') = sl_sizes (sp_layout Sample.paneA) /\
    sl_sizes (sp_layout paneB') ≠ sl_sizes (sp_layout Sample.paneB) /\
    filter (fun k => k = "UiState/MainWindow/paneState") (writtenKeys (trace s2))
    = ["UiState/MainWindow/paneState"; "UiState/MainWindow/paneState"] /\
    st_data (m_stateSettings s2) !! "UiState/MainWindow/paneState"
    = Some (QSplitter_saveState (sp_layout paneB')).
Proof.
  eexists _, _, _.
  split; [vm_compute; reflexivity|].
  split; [vm_compute; reflexivity|].
  split; [vm_compute; apply list_elem_of_here|].
  split; [vm_compute; reflexivity|].
  split; [reflexivity|]. split; [reflexivity|]. split; [reflexivity|].
  split; [vm_compute; discriminate|].
  split; vm_compute; reflexivity.
Qed.

Lemma resize_guard_witness :
  eventFilter ObjRoot Resize Sample.resizing = Ok (false, Sample.resizing) /\
  exists s',
    eventFilter ObjRoot Resize Sample.shown = Ok (false, s') /\
    m_initialized s' = true /\ m_resizing s' = false /\
    eventFilter ObjRoot Resize s' = (widgetResized ObjRoot ;; ret false)%M s'.
Proof.
  split.
  - exact (proj1 (resize_guard Sample.resizing ObjRoot) eq_refl).
  - destruct (widgetResized ObjRoot Sample.shown) as [[[] s']|e] eqn:Hrun;
      [|vm_compute in Hrun; discriminate].
    destruct (proj1 (proj2 (resize_guard Sample.shown ObjRoot)) eq_refl eq_refl)
      as [_ Hnext].
    destruct (Hnext s' Hrun) as (_ & Hev & Hinit & Hres & Hagain).
    by exists s'.
Defined.

Lemma save_only_customized_witness :
  exists t,
    storeAccesses t = [] /\
    saveSplitter Sample.mainSplitter Sample.shown
    = Ok (tt, set_trace (trace Sample.shown ++ t) Sample.shown).
Proof.
  apply (proj1 (proj2 (save_only_customized Sample.shown))). reflexivity.
Defined.

(** C6, as stated for every customized splitter, fails: two customized
    splitters that were both named pane share the key paneState. The save
    writes the blob of the first and then that of the second over it, so
    the blob the restore reads for the first is not the one saved for it,
    and the first comes back with the sizes of the second. *)
Lemma namesake_blob_overwritten_counterexample :
  exists s1 s2 paneA',
    splitters Sample.movedTwins !! 0%nat
    = Some (QSplitter_setCustomized true Sample.paneA) /\
    m_resizing Sample.movedTwins = false /\
    saveSplitterState None Sample.movedTwins = Ok (tt, s1) /\
    Settings_setValue "paneState" (QSplitter_saveState (sp_layout Sample.paneA))
      ∈ trace s1 /\
    value (widgetStateKey "pane") (m_stateSettings s1)
    = QSplitter_saveState (sp_layout Sample.paneB) /\
    value (widgetStateKey "pane") (m_stateSettings s1)
    ≠ QSplitter_saveState (sp_layout Sample.paneA) /\
    restoreSplitterState None s1 = Ok (tt, s2) /\
    splitters s2 !! 0%nat = Some paneA' /\
    sl_sizes (sp_layout paneA') = sl_sizes (sp_layout Sample.paneB) /\
    sl_sizes (sp_layout paneA') ≠ sl_sizes (sp_layout Sample.paneA).
Proof.
  eexists _, _, _.
  split; [reflexivity|]. split; [reflexivity|].
  split; [vm_compute; reflexivity|].
  split; [vm_compute; apply list_elem_of_here|].
  split; [vm_compute; reflexivity|].
  split; [vm_compute; discriminate|].
  split; [vm_compute; reflexivity|].
  split; [vm_compute; reflexivity|].
  split; [vm_compute; reflexivity|].
  vm_compute. discriminate.
Qed.

Lemma save_restore_splitter_roundtrip_witness :
  exists s1 s2,
    saveSplitterState None Sample.dragged = Ok (tt, s1) /\
    value (widgetStateKey "mainSplitter") (m_stateSettings s1)
    = Sample.draggedBlob /\
    restoreSplitterState None s1 = Ok (tt, s2) /\
    splitters s2 !! 0%nat
    = Some (QSplitter_setCustomized true
              (QSplitter_setLayout
                 (QSplitter_restoreState Sample.draggedBlob
                    (sp_layout (QSplitter_setSizes [10; 20; 30] Sample.mainSplitter)))
                 (QSplitter_setCustomized true
                    (QSplitter_setSizes [10; 20; 30] Sample.mainSplitter)))).
Proof.
  assert (Forall (splitterSpecOk Sample.dragged) (splitters Sample.dragged)) as Hok.
  { constructor; [|constructor]. unfold splitterSpecOk. right.
    split; [reflexivity|]. repeat constructor. }
  refine (save_restore_splitter_roundtrip Sample.dragged 0
            (QSplitter_setCustomized true
               (QSplitter_setSizes [10; 20; 30] Sample.mainSplitter))
            eq_refl eq_refl eq_refl _ eq_refl _ Hok).
  - discriminate.
  - intros [|j] y Hy Hj; [done|]. discriminate Hy.
Defined.

Lemma restoreHeaderState_defaults_by_mode_witness :
  exists s' h',
    restoreHeaderState None Sample.fresh = Ok (tt, s') /\
    headers s' !! 0%nat = Some h' /\
    QHeaderView_count h' = 3%nat /\
    sec_size <$> hl_sections (hv_layout h') = [100; 10; 70].
Proof.
  assert (Forall (headerSpecOk Sample.fresh) (headers Sample.fresh)) as Hok
    by (constructor; [by apply sample_headerSpecOk|constructor]).
  destruct (restoreHeaderState_defaults_by_mode Sample.fresh 0 Sample.treeHeader
              Sample.headerDefaults eq_refl eq_refl ltac:(discriminate) eq_refl
              eq_refl ltac:(discriminate) Hok)
    as (s' & h' & Hrun & Hh & Hcount & Hsec).
  exists s', h'. split; [exact Hrun|]. split; [exact Hh|]. split; [exact Hcount|].
  pose proof (Hsec 0%nat _ _ eq_refl eq_refl) as H0.
  pose proof (Hsec 1%nat _ _ eq_refl eq_refl) as H1.
  pose proof (Hsec 2%nat _ _ eq_refl eq_refl) as H2.
  simpl in H0, H1, H2. unfold QHeaderView_count in Hcount.
  destruct (hl_sections (hv_layout h')) as [|a [|b [|c [|d l]]]]; try discriminate.
  simpl in *. injection H0 as ->. injection H1 as ->. injection H2 as ->.
  reflexivity.
Defined.

Lemma zero_column_header_skipped_witness :
  exists t,
    storeAccesses t = [] /\
    restoreHeader Sample.emptyHeader Sample.withEmptyHeader
    = Ok (Sample.emptyHeader,
          set_trace (trace Sample.withEmptyHeader ++ t) Sample.withEmptyHeader) /\
    saveHeader Sample.emptyHeader Sample.withEmptyHeader
    = Ok (tt, set_trace (trace Sample.withEmptyHeader ++ t) Sample.withEmptyHeader).
Proof.
  destruct (zero_column_header_skipped Sample.withEmptyHeader 1 Sample.emptyHeader
              eq_refl eq_refl) as (t & Ht & Hr & Hs & _).
  by exists t.
Defined.

Lemma defaultSizes_count_is_asserted_witness :
  restoreSplitter Sample.paneA
    (set_m_defaultSplitterSizes {["pane" := Sample.splitterDefaults]} (Sample.twins ∅))
  = AssertFailed Assert_splitterCount.
Proof.
  apply (proj1 (defaultSizes_count_is_asserted
                  (set_m_defaultSplitterSizes {["pane" := Sample.splitterDefaults]}
                     (Sample.twins ∅)))).
  - repeat split. discriminate.
  - discriminate.
Defined.

Lemma unnamed_root_inert_witness :
  exists s',
    run [Event ObjRoot Show; SetDefaultSplitterSizes 0 Sample.splitterDefaults;
         Event ObjRoot Resize; SplitterMoved 0; Reset; Event ObjRoot Hide]
      (UIStateManager_new Sample.unnamedRoot ∅ [Sample.mainSplitter]
         [Sample.treeHeader]) = Ok (tt, s') /\
    m_initialized s' = false /\
    st_data (m_stateSettings s') = ∅ /\
    storeAccesses (trace s') = [] /\
    m_widget s' = Sample.unnamedRoot /\
    splitters s' = [Sample.mainSplitter] /\
    headers s' = [Sample.treeHeader].
Proof.
  apply (unnamed_root_inert Sample.unnamedRoot ∅ [Sample.mainSplitter]
           [Sample.treeHeader]).
  reflexivity.
Defined.

End Samples.

(** * The further properties at work on the sample toolkit *)

Section MoreSamples.
#[local] Existing Instance Sample.qt.

Lemma distributeSpace_fills_wildcards_witness :
  (exists space, distributeSpace [40; 60; 150] 200 2 = fillWildcards space [40; 60; 150]) /\
  distributeSpace [40; 60; 150] 200 2 = [40; 60; 150].
Proof.
  destruct (distributeSpace_fills_wildcards [40; 60; 150] 200 2) as [Hfill Hfixed].
  split; [exact Hfill|].
  apply Hfixed. repeat (constructor; [discriminate|]). constructor.
Defined.

Lemma distributeSpace_equal_shares_witness :
  distributeSpace [40; -1; 60; -1] 201 2 = [40; 45; 60; 45] /\
  sumZ (distributeSpace [40; -1; 60; -1] 201 2) + (4 + 1) * 2 = 201 - 1 /\
  Z.abs 1 < 2.
Proof.
  exact (distributeSpace_equal_shares [40; -1; 60; -1] 201 2
           ltac:(vm_compute; discriminate) ltac:(vm_compute; discriminate)).
Defined.

Lemma percentage_of_extent_witness :
  splitterSize (sp_layout Sample.mainSplitter) [40] (VString "30%") Sample.fresh
  = Ok ([40; 60], Sample.fresh) /\
  headerSize (hv_layout Sample.treeHeader) (VString "30%") Sample.fresh
  = Ok (60, Sample.fresh).
Proof.
  destruct (percentage_of_extent (sp_layout Sample.mainSplitter)
              (hv_layout Sample.treeHeader) [40] "30%" Sample.fresh
              ltac:(vm_compute; split; discriminate)) as [Hsp Hhd].
  split.
  - exact (proj1 (Hsp ltac:(vm_compute; discriminate) ltac:(vm_compute; discriminate))).
  - exact (proj1 (Hhd ltac:(vm_compute; discriminate) ltac:(vm_compute; discriminate))).
Defined.

Lemma setDefaultSizes_then_defaultSizes_witness :
  exists s',
    (setDefaultSizes_splitter Sample.mainSplitter Sample.splitterDefaults ;;
     setDefaultSizes_header Scenario.namesake [VInt 25]) Scenario.constructed
    = Ok (tt, s') /\
    defaultSizes_splitter Sample.mainSplitter s' = Ok (Sample.splitterDefaults, s') /\
    defaultSizes_header Scenario.namesake s' = Ok ([VInt 25], s').
Proof.
  destruct (setDefaultSizes_then_defaultSizes Scenario.constructed
              Sample.mainSplitter Scenario.namesake Sample.splitterDefaults
              [VInt 25] eq_refl eq_refl) as (s' & Hrun & Hw & Hh & _).
  exists s'. split; [exact Hrun|]. split; [exact (Hw _ eq_refl)|exact (Hh _ eq_refl)].
Defined.

Lemma restoreWindowState_default_geometry_witness :
  exists s',
    restoreWindowState Sample.fresh = Ok (tt, s') /\
    m_widget s'
    = mkRootWidget "MainWindow"
        (Some (mkWindowLayout (mkQRect 448 156 1471 923) [])).
Proof.
  assert (in_range ((QRect_center availableGeometry).1 - 511)) as Hx1
    by (vm_compute; split; discriminate).
  assert (in_range ((QRect_center availableGeometry).1 + 512)) as Hx2
    by (vm_compute; split; discriminate).
  assert (in_range ((QRect_center availableGeometry).2 - 383)) as Hy1
    by (vm_compute; split; discriminate).
  assert (in_range ((QRect_center availableGeometry).2 + 384)) as Hy2
    by (vm_compute; split; discriminate).
  destruct (restoreWindowState_default_geometry Sample.fresh Sample.window
              eq_refl eq_refl Hx1 Hx2 Hy1 Hy2) as (s' & Hrun & Hw & _).
  exists s'. split; [exact Hrun|exact Hw].
Defined.

Lemma save_restore_window_roundtrip_witness :
  exists s1 s2,
    saveWindowState Sample.fresh = Ok (tt, s1) /\
    restoreWindowState s1 = Ok (tt, s2) /\
    m_widget s2 = Sample.root.
Proof.
  assert (QMainWindow_saveGeometry Sample.window ≠ []) as Hgeo
    by (vm_compute; discriminate).
  destruct (save_restore_window_roundtrip Sample.fresh Sample.window
              eq_refl Hgeo eq_refl)
    as (s1 & s2 & Hsave & _ & _ & Hrestore & Hw).
  exists s1, s2. split; [exact Hsave|]. split; [exact Hrestore|exact Hw].
Defined.

Lemma save_restore_header_roundtrip_witness :
  exists s1 s2,
    saveHeaderState None Scenario.headerDragged = Ok (tt, s1) /\
    value (widgetStateKey "treeHeader") (m_stateSettings s1)
    = Sample.encodeSizes [10; 10; 10] /\
    restoreHeaderState None s1 = Ok (tt, s2) /\
    headers s2 !! 0%nat = Some (QHeaderView_setCustomized true Sample.treeHeader).
Proof.
  assert (Forall (headerSpecOk Scenario.headerDragged)
            (headers Scenario.headerDragged)) as Hok.
  { constructor; [|constructor]. unfold headerSpecOk. right.
    split; [reflexivity|]. repeat constructor. }
  refine (save_restore_header_roundtrip Scenario.headerDragged 0
            (QHeaderView_setCustomized true Sample.treeHeader)
            eq_refl eq_refl _ eq_refl _ eq_refl _ Hok).
  - discriminate.
  - discriminate.
  - intros [|j] y Hy Hj; [done|]. discriminate Hy.
Defined.

Lemma splitter_move_is_saved_at_once_witness :
  exists s',
    widgetCustomized (SenderSplitter 0) Sample.shown = Ok (tt, s') /\
    splitters s' = [QSplitter_setCustomized true Sample.mainSplitter] /\
    value (widgetStateKey "mainSplitter") (m_stateSettings s')
    = Sample.encodeSizes [50; 50; 100].
Proof.
  destruct (splitter_move_is_saved_at_once Sample.shown 0 Sample.mainSplitter
              eq_refl eq_refl) as (s' & Hrun & Hws & Hval & _).
  exists s'. split; [exact Hrun|]. split; [exact Hws|exact Hval].
Defined.

Lemma header_resize_is_saved_only_when_manual_witness :
  widgetCustomized (SenderHeader 0 (Some false)) Sample.shown = Ok (tt, Sample.shown) /\
  exists s',
    widgetCustomized (SenderHeader 0 (Some true)) Sample.shown = Ok (tt, s') /\
    headers s' = [QHeaderView_setCustomized true Sample.treeHeader] /\
    value (widgetStateKey "treeHeader") (m_stateSettings s')
    = Sample.encodeSizes [10; 10; 10].
Proof.
  destruct (header_resize_is_saved_only_when_manual Sample.shown 0) as [Hprog Hman].
  split; [exact (Hprog (Some false) ltac:(discriminate))|].
  destruct (Hman Sample.treeHeader eq_refl eq_refl) as (s' & Hrun & Hhs & _ & Hval & _).
  exists s'. split; [exact Hrun|]. split; [exact Hhs|exact Hval].
Defined.

Lemma eventFilter_passes_events_on_witness :
  exists r s',
    eventFilter ObjRoot Hide Sample.fresh = Ok (r, s') /\
    r = false /\ s' = Sample.fresh.
Proof.
  assert (eventFilter ObjRoot Hide Sample.fresh = Ok (false, Sample.fresh)) as Hrun
    by reflexivity.
  destruct (eventFilter_passes_events_on _ _ _ _ _ Hrun) as (Hr & _ & _ & Hs & _).
  exists false, Sample.fresh. split; [exact Hrun|]. split; [exact Hr|].
  exact (Hs eq_refl ltac:(discriminate)).
Defined.

Lemma restoring_never_writes_witness :
  exists s',
    setup Sample.returning = Ok (tt, s') /\
    st_data (m_stateSettings s') = st_data (m_stateSettings Sample.returning) /\
    writtenKeys (trace s') = [].
Proof.
  assert (exists s', setup Sample.returning = Ok (tt, s')) as [s' Hrun]
    by (eexists; vm_compute; reflexivity).
  destruct (restoring_never_writes Sample.returning s') as (_ & _ & _ & Hsetup).
  destruct (Hsetup Hrun) as [Hdata Hkeys].
  exists s'. split; [exact Hrun|]. split; [exact Hdata|exact Hkeys].
Defined.

Lemma resize_leaves_persisted_widgets_alone_witness :
  exists s',
    widgetResized ObjRoot Scenario.restored = Ok (tt, s') /\
    m_resizing s' = false /\
    splitters s' !! 0%nat
    = Some (mkQSplitter "mainSplitter" true
              (mkSplitterLayout Horizontal 200 100 2 3 [10; 20; 30])).
Proof.
  assert (exists s', widgetResized ObjRoot Scenario.restored = Ok (tt, s'))
    as [s' Hrun] by (eexists; vm_compute; reflexivity).
  destruct (resize_leaves_persisted_widgets_alone _ _ Hrun) as (_ & Hres & Hsp & _).
  exists s'. split; [exact Hrun|]. split; [exact Hres|].
  exact (Hsp 0%nat
           (mkQSplitter "mainSplitter" true
              (mkSplitterLayout Horizontal 200 100 2 3 [10; 20; 30]))
           ltac:(vm_compute; reflexivity)
           ltac:(vm_compute; discriminate)).
Defined.

Lemma view_resize_touches_only_headers_below_witness :
  exists s',
    widgetResized (ObjView 0) Scenario.nestedViews = Ok (tt, s') /\
    headers s' !! 1%nat = Some Scenario.sideHeader /\
    headers s' !! 2%nat
    = Some (QHeaderView_resizeSection 0 66 Scenario.innerHeader) /\
    splitters s' = [Sample.mainSplitter].
Proof.
  assert (exists s',
            widgetResized (ObjView 0) Scenario.nestedViews = Ok (tt, s') /\
            headers s' !! 2%nat
            = Some (QHeaderView_resizeSection 0 66 Scenario.innerHeader))
    as (s' & Hrun & Hinner) by (eexists; split; vm_compute; reflexivity).
  destruct (view_resize_touches_only_headers_below _ _ _ Hrun)
    as (_ & Hsp & _ & Hh).
  exists s'. split; [exact Hrun|]. split; [|split; [exact Hinner|exact Hsp]].
  exact (Hh 1%nat Scenario.sideHeader eq_refl ltac:(discriminate) eq_refl).
Defined.

Lemma stored_state_precedes_defaults_witness :
  exists s',
    restoreSplitterState (Some 0%nat) Scenario.opened = Ok (tt, s') /\
    splitters s'
    = [mkQSplitter "mainSplitter" true
         (mkSplitterLayout Horizontal 200 100 2 3 [10; 20; 30])].
Proof.
  assert (value (widgetStateKey "mainSplitter") (m_stateSettings Scenario.opened) ≠ [])
    as Hval by (vm_compute; discriminate).
  eexists. split.
  - exact (proj1 (stored_state_precedes_defaults Scenario.opened eq_refl)
             0%nat Sample.mainSplitter eq_refl eq_refl Hval).
  - vm_compute. reflexivity.
Defined.

Lemma setup_connects_first_holders_witness :
  exists s',
    setup Sample.fresh = Ok (tt, s') /\
    0%nat ∈ c_splitterMoved (connections s') /\
    0%nat ∈ c_sectionResized (connections s') /\
    0%nat ∈ c_sectionCountChanged (connections s') /\
    0%nat ∈ c_viewFilters (connections s').
Proof.
  assert (exists s', setup Sample.fresh = Ok (tt, s')) as [s' Hrun]
    by (eexists; vm_compute; reflexivity).
  destruct (setup_connects_first_holders Sample.fresh s' eq_refl Hrun) as [Hsp Hhd].
  exists s'. split; [exact Hrun|]. split.
  - apply (Hsp 0%nat Sample.mainSplitter eq_refl eq_refl).
    intros [Hin|(i' & w' & Hlt & _)]; [|inversion Hlt].
    apply elem_of_singleton in Hin. vm_compute in Hin. discriminate Hin.
  - apply (Hhd 0%nat Sample.treeHeader eq_refl eq_refl).
    + vm_compute. discriminate.
    + intros w Hw _ Heq. apply list_elem_of_singleton in Hw. subst w.
      vm_compute in Heq. discriminate Heq.
    + intros [Hin|(i' & h' & Hlt & _)]; [|inversion Hlt].
      by apply elem_of_empty in Hin.
Defined.

Lemma store_accesses_stay_in_group_witness :
  exists s',
    run Scenario.firstSessionOps Scenario.constructed = Ok (tt, s') /\
    (forall k, k ∈ accessedKeys (trace s') -> inGroupOf "MainWindow" k) /\
    st_data (m_stateSettings s') !! "Probe/lastTool" = Some [x01].
Proof.
  assert (exists s', run Scenario.firstSessionOps Scenario.constructed = Ok (tt, s'))
    as [s' Hrun] by (eexists; vm_compute; reflexivity).
  destruct (store_accesses_stay_in_group Sample.root Scenario.foreign
              [Sample.mainSplitter] [Sample.treeHeader] _ s' Hrun) as [Hk Hd].
  exists s'. split; [exact Hrun|]. split; [exact Hk|].
  rewrite Hd; [vm_compute; reflexivity|].
  intros [key Hkey]. discriminate Hkey.
Defined.

Lemma settings_group_follows_initialization_witness :
  exists s',
    run (Scenario.firstSessionOps ++ [Reset; Event ObjRoot Hide]) Scenario.constructed
    = Ok (tt, s') /\
    m_initialized s' = true /\
    st_groups (m_stateSettings s') = ["UiState/MainWindow"].
Proof.
  assert (exists s',
            run (Scenario.firstSessionOps ++ [Reset; Event ObjRoot Hide])
              Scenario.constructed = Ok (tt, s') /\
            m_initialized s' = true) as (s' & Hrun & Hinit)
    by (eexists; split; vm_compute; reflexivity).
  destruct (settings_group_follows_initialization Sample.root Scenario.foreign
              [Sample.mainSplitter] [Sample.treeHeader] _ s' Hrun) as [Hg _].
  rewrite Hinit in Hg.
  exists s'. split; [exact Hrun|]. split; [exact Hinit|exact Hg].
Defined.

Lemma firstSession_facts :
  m_initialized Scenario.firstSession = true /\
  rw_objectName (m_widget Scenario.firstSession) = "MainWindow" /\
  st_groups (m_stateSettings Scenario.firstSession) = ["UiState/MainWindow"] /\
  splitters Scenario.firstSession = [Scenario.movedSplitter] /\
  headers Scenario.firstSession = [Scenario.resizedHeader].
Proof. repeat split; vm_compute; reflexivity. Qed.

Lemma reopenedOn_nextSession s1 :
  rw_objectName (m_widget s1) = "MainWindow" ->
  nextSession s1 (Scenario.reopenedOn s1) /\ specsOk (Scenario.reopenedOn s1).
Proof.
  intros Hname. split.
  - repeat split; try reflexivity. by rewrite Hname.
  - apply sample_specsOk; [reflexivity..| |reflexivity].
    constructor; [by split|constructor].
Qed.

Lemma splitter_state_survives_to_next_session_witness :
  exists s1 t1,
    eventFilter ObjRoot Hide Scenario.firstSession = Ok (false, s1) /\
    eventFilter ObjRoot Show (Scenario.reopenedOn s1) = Ok (false, t1) /\
    splitters t1 !! 0%nat = Some Scenario.movedSplitter.
Proof.
  destruct firstSession_facts as (Hinit & Hroot & Hgroups & Hws & Hhs).
  destruct (splitter_state_survives_to_next_session Scenario.firstSession 0
              Scenario.movedSplitter Hinit)
    as (s1 & Hhide & Hname & Hnext).
  - by rewrite Hroot.
  - by rewrite Hgroups, Hroot.
  - by rewrite Hws.
  - reflexivity.
  - reflexivity.
  - vm_compute. discriminate.
  - rewrite Hws. intros [|j] y Hy Hj; [done|]. discriminate Hy.
  - rewrite Hhs. intros h Hh. apply list_elem_of_singleton in Hh. subst h.
    vm_compute. discriminate.
  - rewrite Hroot in Hname.
    destruct (reopenedOn_nextSession s1 Hname) as [Hns Hok].
    destruct (Hnext (Scenario.reopenedOn s1) 0%nat Sample.mainSplitter Hns Hok
                eq_refl eq_refl) as (t1 & Hshow & Hsp).
    exists s1, t1. split; [exact Hhide|]. split; [exact Hshow|exact Hsp].
Defined.

Lemma header_state_survives_to_next_session_witness :
  exists s1 t1,
    eventFilter ObjRoot Hide Scenario.firstSession = Ok (false, s1) /\
    eventFilter ObjRoot Show (Scenario.reopenedOn s1) = Ok (false, t1) /\
    headers t1 !! 0%nat = Some Scenario.resizedHeader.
Proof.
  destruct firstSession_facts as (Hinit & Hroot & Hgroups & Hws & Hhs).
  destruct (header_state_survives_to_next_session Scenario.firstSession 0
              Scenario.resizedHeader Hinit)
    as (s1 & Hhide & Hname & Hnext).
  - by rewrite Hroot.
  - by rewrite Hgroups, Hroot.
  - by rewrite Hhs.
  - reflexivity.
  - vm_compute. discriminate.
  - reflexivity.
  - vm_compute. discriminate.
  - rewrite Hhs. intros [|j] y Hy Hj; [done|]. discriminate Hy.
  - rewrite Hroot in Hname.
    destruct (reopenedOn_nextSession s1 Hname) as [Hns Hok].
    destruct (Hnext (Scenario.reopenedOn s1) 0%nat Sample.treeHeader Hns Hok
                eq_refl eq_refl ltac:(vm_compute; discriminate))
      as (t1 & Hshow & Hhd).
    exists s1, t1. split; [exact Hhide|]. split; [exact Hshow|exact Hhd].
Defined.

Lemma reset_restores_from_store_witness :
  exists s',
    reset Scenario.opened = Ok (tt, s') /\
    m_initialized s' = true /\
    splitters s' !! 0%nat
    = Some (mkQSplitter "mainSplitter" true
              (mkSplitterLayout Horizontal 200 100 2 3 [10; 20; 30])).
Proof.
  assert (specsOk Scenario.opened) as Hok.
  { apply sample_specsOk; [reflexivity..| |reflexivity].
    constructor; [by split|constructor]. }
  assert (value (widgetStateKey "mainSplitter") (m_stateSettings Scenario.opened) ≠ [])
    as Hval by (vm_compute; discriminate).
  destruct (reset_restores_from_store Scenario.opened eq_refl eq_refl eq_refl Hok)
    as (s' & Hrun & Hinit & _ & Hsp & _).
  exists s'. split; [exact Hrun|]. split; [exact Hinit|].
  exact (Hsp 0%nat Sample.mainSplitter eq_refl eq_refl Hval).
Defined.

Lemma resize_applies_default_sizes_anew_witness :
  exists s',
    widgetResized ObjRoot Sample.shown = Ok (tt, s') /\
    splitters s' !! 0%nat
    = Some (QSplitter_setSizes [40; 92; 60] Sample.mainSplitter).
Proof.
  assert (specsOk Sample.shown) as Hok.
  { apply sample_specsOk; [reflexivity..| |reflexivity].
    constructor; [by split|constructor]. }
  destruct (resize_applies_default_sizes_anew Sample.shown Hok)
    as (s' & Hrun & Hsp & _).
  exists s'. split; [exact Hrun|].
  exact (Hsp 0%nat Sample.mainSplitter Sample.splitterDefaults
           eq_refl eq_refl eq_refl eq_refl ltac:(discriminate)).
Defined.

End MoreSamples.
